(** * MPMS_data: the [.dat] header/data parser and its two consumers

    A shallow embedding of [src/dat_loader.py] and [src/dat_to_numbers.py].

    - Python [str] values are sequences of Unicode code points ([list N]).
    - [dict] is an insertion-ordered association list (the order is visible
      in the Metadata sheet of the exporter).
    - A [pandas.DataFrame] is an ordered list of labelled columns.
    - Exceptions are values of [exn]; a call that can raise returns a
      [result].
    - pandas' reader, numeric coercion and Excel writer, and the file
      system, are operations of the class [Platform]: the sources only call
      them, and each can raise. *)

From Stdlib Require Import List NArith ZArith Bool Lia PeanoNat.
From Stdlib Require Strings.String Strings.Ascii.
From Stdlib Require Import Floats.SpecFloat.
Import ListNotations.
Import String.StringSyntax.
Delimit Scope string_scope with string.

Set Implicit Arguments.

(** ** Python strings *)

Module Py.

Definition char := N.
Definition str := list char.

(** A literal of the source, as code points. *)
Definition lit (s : String.string) : str :=
  List.map Ascii.N_of_ascii (String.list_ascii_of_string s).
Arguments lit s%_string.

Fixpoint str_eqb (a b : str) : bool :=
  match a, b with
  | [], [] => true
  | x :: a', y :: b' => N.eqb x y && str_eqb a' b'
  | _, _ => false
  end.

(** [c in chars] for a one-character string [c]. *)
Fixpoint mem (c : char) (chars : str) : bool :=
  match chars with
  | [] => false
  | d :: rest => N.eqb c d || mem c rest
  end.

(** [s.startswith(p)] *)
Fixpoint startswith (s p : str) {struct p} : bool :=
  match p, s with
  | [], _ => true
  | _ :: _, [] => false
  | x :: p', y :: s' => N.eqb x y && startswith s' p'
  end.

(** [s] begins with [p], as a proposition. *)
Definition Prefix (p s : str) : Prop := exists t, s = p ++ t.

(** [sub in s] *)
Fixpoint contains (s sub : str) : bool :=
  startswith s sub
  || match s with
     | [] => false
     | _ :: rest => contains rest sub
     end.

(** [s.lstrip(chars)], [s.rstrip(chars)] with an explicit character set. *)
Fixpoint lstrip_chars (chars s : str) : str :=
  match s with
  | [] => []
  | c :: rest => if mem c chars then lstrip_chars chars rest else s
  end.

Definition rstrip_chars (chars s : str) : str :=
  rev (lstrip_chars chars (rev s)).

(** [str.isspace] on one code point (CPython's [_PyUnicode_IsWhitespace]). *)
Definition isspace (c : char) : bool :=
  ((9 <=? c) && (c <=? 13) || (28 <=? c) && (c <=? 32)
   || (c =? 133) || (c =? 160) || (c =? 5760)
   || (8192 <=? c) && (c <=? 8202)
   || (c =? 8232) || (c =? 8233) || (c =? 8239) || (c =? 8287)
   || (c =? 12288))%N.

Fixpoint lstrip (s : str) : str :=
  match s with
  | [] => []
  | c :: rest => if isspace c then lstrip rest else s
  end.

Definition rstrip (s : str) : str := rev (lstrip (rev s)).

(** [s.strip()] *)
Definition strip (s : str) : str := lstrip (rstrip s).

(** [s.partition(sep)] for a one-character separator: the text before the
    first [sep] and the text after it, or [None] when [sep] does not occur. *)
Fixpoint partition (sep : char) (s : str) : option (str * str) :=
  match s with
  | [] => None
  | c :: rest =>
      if N.eqb c sep then Some ([], rest)
      else match partition sep rest with
           | Some (pre, post) => Some (c :: pre, post)
           | None => None
           end
  end.

(** [s.split(sep, maxsplit)] for a one-character separator. *)
Fixpoint split (sep : char) (maxsplit : nat) (s : str) : list str :=
  match maxsplit with
  | O => [s]
  | S m =>
      match partition sep s with
      | None => [s]
      | Some (pre, post) => pre :: split sep m post
      end
  end.

(** [s.split(sep)]: no bound on the number of cuts. *)
Definition split_all (sep : char) (s : str) : list str :=
  split sep (length s) s.

(** [sep.join(items)] *)
Fixpoint join (sep : str) (items : list str) : str :=
  match items with
  | [] => []
  | [x] => x
  | x :: rest => x ++ sep ++ join sep rest
  end.

(** *** dict: insertion-ordered, keys unique *)

Definition dict := list (str * str).

Fixpoint dict_get (d : dict) (k : str) : option str :=
  match d with
  | [] => None
  | (k', v) :: rest => if str_eqb k' k then Some v else dict_get rest k
  end.

(** [d[k] = v]: an existing key keeps its position and takes the new value,
    a new key is appended. *)
Fixpoint dict_set (d : dict) (k v : str) : dict :=
  match d with
  | [] => [(k, v)]
  | (k', v') :: rest =>
      if str_eqb k' k then (k', v) :: rest else (k', v') :: dict_set rest k v
  end.

(** [list(d.items())] *)
Definition items (d : dict) : list (str * str) := d.

(** Truth value of a dict: non-empty. *)
Definition dict_truthy (d : dict) : bool :=
  match d with [] => false | _ :: _ => true end.

(** *** Exceptions

    The subclasses of [Exception] the sources raise or let through:
    [ValueError] and [KeyError] by name, and whatever a library raises
    ([pandas.errors.EmptyDataError], [OSError], ...) with its class name
    and message. *)

Inductive exn : Type :=
| ValueError (msg : str)
| KeyError (key : str)
| LibraryError (cls msg : str).

Inductive result (A : Type) : Type :=
| Ok (a : A)
| Raise (e : exn).
Arguments Ok {A} a.
Arguments Raise {A} e.

Definition bind {A B} (m : result A) (k : A -> result B) : result B :=
  match m with
  | Ok a => k a
  | Raise e => Raise e
  end.

(** [try: body  except Exception as e: handler(e)] *)
Definition try_except {A} (body : result A) (handler : exn -> result A)
  : result A :=
  match body with
  | Ok a => Ok a
  | Raise e => handler e
  end.

End Py.

Import Py.

Declare Scope py_scope.
Delimit Scope py_scope with py.
Notation "x <- m ;; k" := (bind m (fun x => k))
  (at level 61, m at next level, right associativity) : py_scope.
Notation "' pat <- m ;; k" := (bind m (fun x => match x with pat => k end))
  (at level 61, pat pattern, m at next level, right associativity) : py_scope.
Open Scope py_scope.

(** ** pathlib paths *)

Module PathLib.

(** A path as its components; [str(p)] joins them. *)
Definition Path := list str.

Definition path_str (p : Path) : str := join (lit "/") p.

(** [p.name] *)
Definition name (p : Path) : str := last p [].

(** [s.rfind(c)]: the index of the last occurrence. *)
Fixpoint rfind (c : char) (s : str) : option nat :=
  match s with
  | [] => None
  | d :: rest =>
      match rfind c rest with
      | Some i => Some (S i)
      | None => if N.eqb d c then Some 0 else None
      end
  end.

(** [p.stem]: the name without its last suffix; a leading or a trailing dot
    starts no suffix. *)
Definition stem (p : Path) : str :=
  let nm := name p in
  match rfind 46%N nm with
  | Some i => if (0 <? i) && (i <? length nm - 1) then firstn i nm else nm
  | None => nm
  end.

(** [dir / nm] for a one-component [nm]. *)
Definition joinpath (dir : Path) (nm : str) : Path := dir ++ [nm].

End PathLib.

Import PathLib.

(** ** pandas and numpy values *)

Module Pandas.

(** A numeric cell: an integer or a binary64 datum. *)
Inductive cell : Type :=
| Int64 (z : Z)
| Float64 (f : spec_float).

Definition NaN : cell := Float64 S754_nan.

(** The binary64 value nearest to an integer. *)
Definition float_of_Z (z : Z) : cell :=
  Float64 (binary_normalize 53 1024 z 0 false).

(** [pandas.notna] on one cell. *)
Definition notna (c : cell) : bool :=
  match c with
  | Float64 S754_nan => false
  | _ => true
  end.

(** [numpy.isfinite] on one cell. *)
Definition isfinite (c : cell) : bool :=
  match c with
  | Int64 _ => true
  | Float64 (S754_zero _) => true
  | Float64 (S754_finite _ _ _) => true
  | Float64 (S754_infinity _) => false
  | Float64 S754_nan => false
  end.

(** A frame: labelled columns, in order. *)
Definition DataFrame (A : Type) := list (str * list A).

Section Frame.
Context {A : Type}.

(** [df.columns] *)
Definition columns (df : DataFrame A) : list str := List.map fst df.

(** [c in df.columns] *)
Definition has_column (df : DataFrame A) (c : str) : bool :=
  existsb (str_eqb c) (columns df).

Fixpoint lookup (df : DataFrame A) (c : str) : option (list A) :=
  match df with
  | [] => None
  | (c', v) :: rest => if str_eqb c' c then Some v else lookup rest c
  end.

(** [df[c]]: a missing label raises [KeyError]. *)
Definition getitem (df : DataFrame A) (c : str) : result (list A) :=
  match lookup df c with
  | Some v => Ok v
  | None => Raise (KeyError c)
  end.

(** [df[c] = v]: an existing column is replaced where it stands, a new one
    is appended. *)
Fixpoint setitem (df : DataFrame A) (c : str) (v : list A) : DataFrame A :=
  match df with
  | [] => [(c, v)]
  | (c', v') :: rest =>
      if str_eqb c' c then (c', v) :: rest else (c', v') :: setitem rest c v
  end.

(** [df.assign(c=v)]: a new frame, built like [df[c] = v] on a copy. *)
Definition assign (df : DataFrame A) (c : str) (v : list A) : DataFrame A :=
  setitem df c v.

(** Every column has [n] rows. *)
Definition rectangular (n : nat) (df : DataFrame A) : bool :=
  forallb (fun cv => Nat.eqb (length (snd cv)) n) df.

End Frame.

(** [s.notna().any()] *)
Definition any_notna (s : list cell) : bool := existsb notna s.

(** [a & b] on boolean arrays of one length. *)
Definition mask_and (a b : list bool) : list bool :=
  List.map (fun ab => fst ab && snd ab) (combine a b).

(** [x[mask]] *)
Fixpoint take_mask {A} (x : list A) (mask : list bool) : list A :=
  match x, mask with
  | v :: x', m :: mask' =>
      if m then v :: take_mask x' mask' else take_mask x' mask'
  | _, _ => []
  end.

End Pandas.

Import Pandas.

(** A sheet as [to_excel(..., index=False)] writes it: the frame's labels
    and its columns. *)
Module Excel.

Inductive sheet : Type :=
| NumberSheet (df : DataFrame cell)
| TextSheet (df : DataFrame str).

(** The sheets written through one [ExcelWriter], by name, in order. *)
Definition workbook : Type := list (str * sheet).

End Excel.

(** ** What the sources call but do not define *)

Class Platform : Type := {
  (** the cell values [pandas.read_csv] infers (numbers and strings) *)
  raw : Type;
  (** [pd.read_csv(StringIO(block))] *)
  read_csv : str -> result (DataFrame raw);
  (** [pd.to_numeric(column, errors="coerce")] *)
  to_numeric : list raw -> list cell;
  (** [open(path, encoding="utf-8", errors="replace").readlines()] *)
  readlines : Path -> result (list str);
  (** [repr] of a string *)
  repr : str -> str;
  (** [pathlib.Path(s)] for a string [s] *)
  to_path : str -> Path;
  (** [pd.ExcelWriter(path, engine='openpyxl')]: opening the writer *)
  excel_writer : Path -> result unit;
  (** [frame.to_excel(writer, sheet_name=name, index=False)], with the
      sheets already in the writer *)
  to_excel : Excel.workbook -> str -> Excel.sheet -> result unit;
  (** leaving the [with] block of the writer: the sheets are saved under
      the path and the file is closed *)
  excel_close : Path -> Excel.workbook -> result unit
}.

(** [str(e)] as printed by the batch loops. *)
Definition exn_str {Pf : Platform} (e : exn) : str :=
  match e with
  | ValueError msg => msg
  | KeyError key => repr key
  | LibraryError _ msg => msg
  end.

(** [str(list_of_strings)] *)
Definition repr_list {Pf : Platform} (l : list str) : str :=
  lit "[" ++ join (lit ", ") (List.map repr l) ++ lit "]".

(** Characters the sources name. *)
Definition LF : char := 10%N.
Definition CR : char := 13%N.
Definition comma : char := 44%N.
Definition equals : char := 61%N.

(** The argument of [rstrip("\n\r")]. *)
Definition newline_chars : str := [LF; CR].

(** matplotlib: what has been drawn on an Axes. *)
Module Plt.

Record Line2D : Type := {
  xdata : list cell;
  ydata : list cell;
  fmt : str;
  ms : Z;
  line_label : option str
}.

Record Axes : Type := {
  plotted : list Line2D;
  xlabel : option str;
  ylabel : option str;
  title : option str;
  axhlines : list Z;
  axvlines : list Z;
  grid : bool;
  legend : bool
}.

(** The Axes of [plt.subplots(1, 1, ...)]. *)
Definition subplots : Axes :=
  {| plotted := []; xlabel := None; ylabel := None; title := None;
     axhlines := []; axvlines := []; grid := false; legend := false |}.

Definition plot (ax : Axes) (l : Line2D) : Axes :=
  {| plotted := plotted ax ++ [l]; xlabel := xlabel ax; ylabel := ylabel ax;
     title := title ax; axhlines := axhlines ax; axvlines := axvlines ax;
     grid := grid ax; legend := legend ax |}.

Definition set_xlabel (ax : Axes) (s : str) : Axes :=
  {| plotted := plotted ax; xlabel := Some s; ylabel := ylabel ax;
     title := title ax; axhlines := axhlines ax; axvlines := axvlines ax;
     grid := grid ax; legend := legend ax |}.

Definition set_ylabel (ax : Axes) (s : str) : Axes :=
  {| plotted := plotted ax; xlabel := xlabel ax; ylabel := Some s;
     title := title ax; axhlines := axhlines ax; axvlines := axvlines ax;
     grid := grid ax; legend := legend ax |}.

Definition set_title (ax : Axes) (s : str) : Axes :=
  {| plotted := plotted ax; xlabel := xlabel ax; ylabel := ylabel ax;
     title := Some s; axhlines := axhlines ax; axvlines := axvlines ax;
     grid := grid ax; legend := legend ax |}.

Definition axhline (ax : Axes) (y : Z) : Axes :=
  {| plotted := plotted ax; xlabel := xlabel ax; ylabel := ylabel ax;
     title := title ax; axhlines := axhlines ax ++ [y];
     axvlines := axvlines ax; grid := grid ax; legend := legend ax |}.

Definition axvline (ax : Axes) (x : Z) : Axes :=
  {| plotted := plotted ax; xlabel := xlabel ax; ylabel := ylabel ax;
     title := title ax; axhlines := axhlines ax;
     axvlines := axvlines ax ++ [x]; grid := grid ax; legend := legend ax |}.

Definition set_grid (ax : Axes) : Axes :=
  {| plotted := plotted ax; xlabel := xlabel ax; ylabel := ylabel ax;
     title := title ax; axhlines := axhlines ax; axvlines := axvlines ax;
     grid := true; legend := legend ax |}.

Definition set_legend (ax : Axes) : Axes :=
  {| plotted := plotted ax; xlabel := xlabel ax; ylabel := ylabel ax;
     title := title ax; axhlines := axhlines ax; axvlines := axvlines ax;
     grid := grid ax; legend := true |}.

End Plt.

(** [Path(filepath)] for an argument of type [Union[str, Path]]. *)
Definition as_path {Pf : Platform} (filepath : str + Path) : Path :=
  match filepath with
  | inl s => to_path s
  | inr p => p
  end.

(** Truth value of an optional string: [None] and the empty string are
    false. *)
Definition truthy (o : option str) : bool :=
  match o with
  | Some (_ :: _) => true
  | _ => false
  end.

(** ** src/dat_loader.py *)

Module DatLoader.
Section WithPlatform.
Context {Pf : Platform}.

(** The variables the header loop of [parse_mpms_dat] leaves behind:
    [header_info], [in_data] and [data_start] ([None] as [None]). *)
Definition scan : Type := dict * bool * option nat.

(** Lines 35-44: what one line before the marker does to [header_info]. *)
Definition header_line (line : str) (header_info : dict) : dict :=
  if startswith line (lit "INFO,") then
    let parts := split comma 2 line in
    if 3 <=? length parts then
      let key := strip (nth 1 parts []) in
      let val := strip (nth 2 parts []) in
      dict_set header_info key val
    else header_info
  else if negb (startswith line (lit ";")) && mem comma line
          && negb (mem equals line) && negb (startswith line (lit "[")) then
    let key_val := split comma 1 line in
    if length key_val =? 2 then
      dict_set header_info (strip (nth 0 key_val [])) (strip (nth 1 key_val []))
    else header_info
  else header_info.

(** Lines 29-44: [for i, line in enumerate(lines)], from index [i] on. *)
Fixpoint scan_lines (i : nat) (lines : list str) (header_info : dict) : scan :=
  match lines with
  | [] => (header_info, false, None)
  | line :: rest =>
      let line := rstrip_chars newline_chars line in
      if str_eqb line (lit "[Data]") then (header_info, true, Some (i + 1))
      else scan_lines (S i) rest (header_line line header_info)
  end.

(** Lines 55-56: every column through [pd.to_numeric]; the labels of a
    frame from [read_csv] are distinct, so each column is set once. *)
Definition coerce_numeric (df : DataFrame raw) : DataFrame cell :=
  List.map (fun cv => (fst cv, to_numeric (snd cv))) df.

(** Lines 25-58, on the lines read from the file. *)
Definition parse_lines (filepath : Path) (lines : list str)
  : result (DataFrame cell * dict) :=
  let '(header_info, in_data, data_start) := scan_lines 0 lines [] in
  match in_data, data_start with
  | true, Some data_start =>
      let data_block :=
        join [LF]
             (List.map (rstrip_chars newline_chars) (skipn data_start lines)) in
      df <- read_csv data_block ;;
      Ok (coerce_numeric df, header_info)
  | _, _ =>
      Raise (ValueError (lit "No [Data] section found in " ++ path_str filepath))
  end.

Definition parse_mpms_dat (filepath : str + Path)
  : result (DataFrame cell * dict) :=
  let filepath := as_path filepath in
  lines <- readlines filepath ;;
  parse_lines filepath lines.

Definition candidates : list str :=
  [ lit "DC Moment Free Ctr (emu)";
    lit "DC Moment Fixed Ctr (emu)";
    lit "Moment (emu)" ].

(** The loop of [get_moment_column] over the candidates left. *)
Fixpoint first_moment (df : DataFrame cell) (cs : list str) : option str :=
  match cs with
  | [] => None
  | c :: rest =>
      if has_column df c
         && match getitem df c with
            | Ok s => any_notna s
            | Raise _ => false
            end
      then Some c
      else first_moment df rest
  end.

Definition get_moment_column (df : DataFrame cell) : option str :=
  first_moment df candidates.

Definition load_dat (filepath : str + Path) : result (DataFrame cell) :=
  ' (df, _) <- parse_mpms_dat filepath ;;
  let moment_col := get_moment_column df in
  if truthy moment_col then
    match moment_col with
    | Some c =>
        values <- getitem df c ;;
        Ok (assign df (lit "Moment") values)
    | None => Ok df
    end
  else Ok df.

Definition default_field_col : str := lit "Magnetic Field (Oe)".
Definition default_temp_col : str := lit "Temperature (K)".

(** Lines 105-108 and 144-147: the pairs with both values finite. *)
Definition finite_pairs (x y : list cell) : list cell * list cell :=
  let mask := mask_and (List.map isfinite x) (List.map isfinite y) in
  (take_mask x mask, take_mask y mask).

(** Lines 96-101: the moment column [plot_moment_vs_field] reads. *)
Definition field_moment_col (df : DataFrame cell) (moment_col : option str)
  : str :=
  let moment_col :=
    match moment_col with
    | None => get_moment_column df
    | Some c => Some c
    end in
  let moment_col :=
    match moment_col with
    | None => lit "Moment"
    | Some c => c
    end in
  if negb (has_column df moment_col) && has_column df (lit "Moment")
  then lit "Moment" else moment_col.

Definition plot_moment_vs_field (df : DataFrame cell)
    (moment_col : option str) (field_col : str) (title : option str)
    (ax : option Plt.Axes) (label : option str) : result Plt.Axes :=
  let moment_col := field_moment_col df moment_col in
  if negb (has_column df field_col) then
    Raise (ValueError (lit "Column '" ++ field_col
                       ++ lit "' not in DataFrame. Available: "
                       ++ repr_list (columns df)))
  else
    x <- getitem df field_col ;;
    y <- getitem df moment_col ;;
    let (x, y) := finite_pairs x y in
    if length x =? 0 then
      Raise (ValueError (lit "No finite (field, moment) pairs to plot."))
    else
      let ax := match ax with None => Plt.subplots | Some a => a end in
      let ax := Plt.plot ax
        {| Plt.xdata := x; Plt.ydata := y; Plt.fmt := lit "o-"; Plt.ms := 4;
           Plt.line_label :=
             Some (if truthy label
                   then match label with Some l => l | None => moment_col end
                   else moment_col) |} in
      let ax := Plt.set_xlabel ax (lit "Magnetic Field (Oe)") in
      let ax := Plt.set_ylabel ax (lit "Moment (emu)") in
      let ax := if truthy title
                then match title with Some t => Plt.set_title ax t | None => ax end
                else ax in
      let ax := Plt.axhline ax 0 in
      let ax := Plt.axvline ax 0 in
      let ax := Plt.set_grid ax in
      let ax := if truthy label then Plt.set_legend ax else ax in
      Ok ax.

(** Lines 139-140: the moment column [plot_moment_vs_temperature] reads. *)
Definition temperature_moment_col (df : DataFrame cell)
    (moment_col : option str) : str :=
  match moment_col with
  | None =>
      let found := get_moment_column df in
      if truthy found
      then match found with Some c => c | None => lit "Moment" end
      else lit "Moment"
  | Some c => c
  end.

Definition plot_moment_vs_temperature (df : DataFrame cell)
    (moment_col : option str) (temp_col : str) (title : option str)
    (ax : option Plt.Axes) : result Plt.Axes :=
  let moment_col := temperature_moment_col df moment_col in
  if negb (has_column df temp_col) then
    Raise (ValueError (lit "Column '" ++ temp_col ++ lit "' not in DataFrame."))
  else
    x <- getitem df temp_col ;;
    y <- getitem df moment_col ;;
    let (x, y) := finite_pairs x y in
    if length x =? 0 then
      Raise (ValueError (lit "No finite (temperature, moment) pairs to plot."))
    else
      let ax := match ax with None => Plt.subplots | Some a => a end in
      let ax := Plt.plot ax
        {| Plt.xdata := x; Plt.ydata := y; Plt.fmt := lit "o-"; Plt.ms := 4;
           Plt.line_label := None |} in
      let ax := Plt.set_xlabel ax (lit "Temperature (K)") in
      let ax := Plt.set_ylabel ax (lit "Moment (emu)") in
      let ax := if truthy title
                then match title with Some t => Plt.set_title ax t | None => ax end
                else ax in
      let ax := Plt.set_grid ax in
      Ok ax.

(** Lines 227-239: the overlay loop of [main] under [--all]; the state is
    the shared Axes and what has been printed. *)
Definition overlay_one (st : Plt.Axes * list str) (f : Path)
  : result (Plt.Axes * list str) :=
  let (ax, stdout) := st in
  try_except
    (df <- load_dat (inr f) ;;
     let moment_col := get_moment_column df in
     if truthy moment_col && has_column df (lit "Magnetic Field (Oe)") then
       ax' <- plot_moment_vs_field df moment_col default_field_col None
                (Some ax) (Some (stem f)) ;;
       Ok (ax', stdout)
     else Ok (ax, stdout))
    (fun e =>
       Ok (ax, stdout ++ [lit "Skip " ++ name f ++ lit ": " ++ exn_str e])).

Fixpoint overlay_all (st : Plt.Axes * list str) (dat_files : list Path)
  : result (Plt.Axes * list str) :=
  match dat_files with
  | [] => Ok st
  | f :: rest =>
      st' <- overlay_one st f ;;
      overlay_all st' rest
  end.

End WithPlatform.
End DatLoader.

(** ** src/dat_to_numbers.py *)

Module DatToNumbers.
Section WithPlatform.
Context {Pf : Platform}.

(** [header_info], [in_data] and [data_start] after the header loop. *)
Definition scan : Type := dict * bool * option nat.

(** Lines 38-47. *)
Definition header_line (line : str) (header_info : dict) : dict :=
  if startswith line (lit "INFO,") then
    let parts := split comma 2 line in
    if 3 <=? length parts then
      let key := strip (nth 1 parts []) in
      let val := strip (nth 2 parts []) in
      dict_set header_info key val
    else header_info
  else if negb (startswith line (lit ";")) && mem comma line
          && negb (mem equals line) && negb (startswith line (lit "[")) then
    let key_val := split comma 1 line in
    if length key_val =? 2 then
      dict_set header_info (strip (nth 0 key_val [])) (strip (nth 1 key_val []))
    else header_info
  else header_info.

(** Lines 32-47. *)
Fixpoint scan_lines (i : nat) (lines : list str) (header_info : dict) : scan :=
  match lines with
  | [] => (header_info, false, None)
  | line :: rest =>
      let line := rstrip_chars newline_chars line in
      if str_eqb line (lit "[Data]") then (header_info, true, Some (i + 1))
      else scan_lines (S i) rest (header_line line header_info)
  end.

(** Lines 57-58. *)
Definition coerce_numeric (df : DataFrame raw) : DataFrame cell :=
  List.map (fun cv => (fst cv, to_numeric (snd cv))) df.

(** Lines 28-60, on the lines read from the file. *)
Definition parse_lines (filepath : Path) (lines : list str)
  : result (DataFrame cell * dict) :=
  let '(header_info, in_data, data_start) := scan_lines 0 lines [] in
  match in_data, data_start with
  | true, Some data_start =>
      let data_block :=
        join [LF]
             (List.map (rstrip_chars newline_chars) (skipn data_start lines)) in
      df <- read_csv data_block ;;
      Ok (coerce_numeric df, header_info)
  | _, _ =>
      Raise (ValueError (lit "No [Data] section found in " ++ path_str filepath))
  end.

Definition parse_mpms_dat (filepath : Path) : result (DataFrame cell * dict) :=
  lines <- readlines filepath ;;
  parse_lines filepath lines.

(** The sheets written through one [ExcelWriter], by name, in order. *)
Definition workbook : Type := Excel.workbook.

(** [pd.DataFrame(list(header_info.items()), columns=['Property', 'Value'])] *)
Definition meta_frame (header_info : dict) : DataFrame str :=
  [ (lit "Property", List.map fst (items header_info));
    (lit "Value", List.map snd (items header_info)) ].

(** The body of a [with pd.ExcelWriter(...) as writer] block so far: the
    sheets written in full, and the exception of the body if it has
    raised. *)
Definition writing : Type := (workbook * result unit)%type.

(** One [to_excel] call of the body; nothing runs after a call that has
    raised. *)
Definition write_sheet (w : writing) (sheet_name : str) (sh : Excel.sheet)
  : writing :=
  match w with
  | (wb, Ok _) =>
      match to_excel wb sheet_name sh with
      | Ok _ => (wb ++ [(sheet_name, sh)], Ok tt)
      | Raise e => (wb, Raise e)
      end
  | (wb, Raise e) => (wb, Raise e)
  end.

(** Lines 63-95.  The function returns the output path; the workbook is
    what the call has written there.  The writer is closed when the block
    is left, also by an exception of the body; an exception of the closing
    is the one that is raised. *)
Definition convert_dat_to_numbers (dat_path output_dir : Path)
  : result (Path * workbook) :=
  ' (df, header_info) <- parse_mpms_dat dat_path ;;
  let output_name := stem dat_path ++ lit ".xlsx" in
  let output_path := joinpath output_dir output_name in
  _ <- excel_writer output_path ;;
  let writer := write_sheet ([], Ok tt) (lit "Data") (Excel.NumberSheet df) in
  let writer :=
    if dict_truthy header_info
    then write_sheet writer (lit "Metadata")
           (Excel.TextSheet (meta_frame header_info))
    else writer in
  let (wb, body) := writer in
  _ <- excel_close output_path wb ;;
  _ <- body ;;
  Ok (output_path, wb).

(** The counters of [main], its output, and the files written. *)
Record tally : Type := {
  converted : nat;
  skipped : nat;
  errors : nat;
  stdout : list str;
  written : list (Path * workbook)
}.

Definition start : tally :=
  {| converted := 0; skipped := 0; errors := 0; stdout := []; written := [] |}.

(** Line 148: [args.skip_rw and ".rw.dat" in dat_file.name]. *)
Definition skips (skip_rw : bool) (dat_file : Path) : bool :=
  skip_rw && contains (name dat_file) (lit ".rw.dat").

(** Lines 147-159: the body of [for dat_file in dat_files]. *)
Definition convert_one (skip_rw : bool) (output_dir : Path) (t : tally)
    (dat_file : Path) : result tally :=
  if skips skip_rw dat_file then
    Ok {| converted := converted t; skipped := skipped t + 1;
          errors := errors t;
          stdout := stdout t
                    ++ [lit "  Skipping (raw waveform): " ++ name dat_file];
          written := written t |}
  else
    try_except
      (' (output_path, wb) <- convert_dat_to_numbers dat_file output_dir ;;
       Ok {| converted := converted t + 1; skipped := skipped t;
             errors := errors t;
             stdout := stdout t
                       ++ [lit "  Converted: " ++ name dat_file ++ lit " -> "
                           ++ name output_path];
             written := written t ++ [(output_path, wb)] |})
      (fun e =>
         Ok {| converted := converted t; skipped := skipped t;
               errors := errors t + 1;
               stdout := stdout t
                         ++ [lit "  Error converting " ++ name dat_file
                             ++ lit ": " ++ exn_str e];
               written := written t |}).

(** Lines 146-159. *)
Fixpoint convert_all (skip_rw : bool) (output_dir : Path) (t : tally)
    (dat_files : list Path) : result tally :=
  match dat_files with
  | [] => Ok t
  | dat_file :: rest =>
      t' <- convert_one skip_rw output_dir t dat_file ;;
      convert_all skip_rw output_dir t' rest
  end.

End WithPlatform.
End DatToNumbers.

(** ** A platform to run the definitions on concrete files

    A comma-separated reader without quoting, following [pandas.read_csv] on
    the blocks used below: blank lines are skipped, a block with no line
    left raises [EmptyDataError], the first line names the columns.  Cells
    stay text; the coercion reads decimal integers and puts [NaN]
    elsewhere.  The file system is a finite table of paths; a string
    becomes a path by cutting it at its slashes.  The Excel writer opens
    and closes without raising, and refuses a sheet with a control
    character in a text cell, as openpyxl does. *)

Module Plain.

Definition is_blank (l : str) : bool :=
  forallb (fun c => N.eqb c 32 || N.eqb c 9) l.

Definition digit (c : char) : option Z :=
  if ((48 <=? c) && (c <=? 57))%N then Some (Z.of_N c - 48)%Z else None.

Fixpoint digits (acc : Z) (s : str) : option Z :=
  match s with
  | [] => Some acc
  | c :: rest =>
      match digit c with
      | Some d => digits (10 * acc + d)%Z rest
      | None => None
      end
  end.

Definition parse_int (s : str) : option Z :=
  match s with
  | [] => None
  | c :: rest =>
      if N.eqb c 45
      then match rest with
           | [] => None
           | _ :: _ => option_map Z.opp (digits 0%Z rest)
           end
      else digits 0%Z s
  end.

(** A column of integers stays one; a cell that is no integer makes the
    column a float column with [NaN] there. *)
Definition plain_to_numeric (col : list str) : list cell :=
  let parsed := List.map parse_int col in
  if forallb (fun o => match o with Some _ => true | None => false end) parsed
  then List.map (fun o => match o with Some z => Int64 z | None => NaN end)
                parsed
  else List.map (fun o => match o with Some z => float_of_Z z | None => NaN end)
                parsed.

Definition plain_read_csv (block : str) : result (DataFrame str) :=
  match filter (fun l => negb (is_blank l)) (split_all LF block) with
  | [] => Raise (LibraryError (lit "EmptyDataError")
                              (lit "No columns to parse from file"))
  | header :: data =>
      let names := split_all comma header in
      let cells := List.map (split_all comma) data in
      Ok (List.map (fun j => (nth j names [],
                              List.map (fun r => nth j r []) cells))
                   (seq 0 (length names)))
  end.

Fixpoint files_readlines (fs : list (Path * list str)) (p : Path)
  : result (list str) :=
  match fs with
  | [] => Raise (LibraryError (lit "FileNotFoundError") (path_str p))
  | (q, lines) :: rest =>
      if str_eqb (path_str q) (path_str p) then Ok lines
      else files_readlines rest p
  end.

(** The characters openpyxl refuses in a cell
    ([ILLEGAL_CHARACTERS_RE]): the control characters other than tab, line
    feed and carriage return. *)
Definition illegal (c : char) : bool :=
  ((c <=? 8) || (11 <=? c) && (c <=? 12) || (14 <=? c) && (c <=? 31))%N.

(** The text cells of a sheet in the order they are written: the labels,
    then the rows. *)
Definition text_cells (sh : Excel.sheet) : list str :=
  match sh with
  | Excel.NumberSheet df => columns df
  | Excel.TextSheet df =>
      columns df
      ++ flat_map (fun i => List.map (fun cv => nth i (snd cv) []) df)
                  (seq 0 (length (hd [] (List.map snd df))))
  end.

(** Writing a sheet raises at the first text cell with a refused
    character. *)
Definition plain_to_excel (_ : Excel.workbook) (_ : str) (sh : Excel.sheet)
  : result unit :=
  match find (existsb illegal) (text_cells sh) with
  | Some value =>
      Raise (LibraryError (lit "IllegalCharacterError")
                          (value ++ lit " cannot be used in worksheets."))
  | None => Ok tt
  end.

Definition platform (fs : list (Path * list str)) : Platform :=
  {| raw := str;
     read_csv := plain_read_csv;
     to_numeric := plain_to_numeric;
     readlines := files_readlines fs;
     repr := fun s => lit "'" ++ s ++ lit "'";
     to_path := fun s => split_all 47%N s;
     excel_writer := fun _ => Ok tt;
     to_excel := plain_to_excel;
     excel_close := fun _ _ => Ok tt |}.

(** A line of a text file: its content and the line feed. *)
Definition ln (s : String.string) : str := lit s ++ [LF].
Arguments ln s%_string.

End Plain.

(** ** Concrete files and tables *)

Module Examples.

Definition Free : str := lit "DC Moment Free Ctr (emu)".
Definition Fixed : str := lit "DC Moment Fixed Ctr (emu)".
Definition MomentEmu : str := lit "Moment (emu)".
Definition Field : str := lit "Magnetic Field (Oe)".

(** A file that ends with its marker line. *)
Definition marker_only : Path := [lit "marker_only.dat"].
Definition marker_only_lines : list str := [Plain.ln "[Data]"].

(** A file without a marker. *)
Definition no_marker : Path := [lit "no_marker.dat"].
Definition no_marker_lines : list str :=
  [Plain.ln "[Header]"; Plain.ln "TITLE,run 1"; Plain.ln "1,2"].

(** A file with a header and a table. *)
Definition sample : Path := [lit "raw data"; lit "sample.dat"].
Definition sample_lines : list str :=
  [ Plain.ln "[Header]";
    Plain.ln "; MPMS3 data file";
    Plain.ln "TITLE, run 1";
    Plain.ln "INFO, 7.7 ,SAMPLE_MASS";
    Plain.ln "INFO,APPNAME";
    Plain.ln "DATATYPE,COMMENT,1";
    Plain.ln "DATATYPE,TIME,2";
    Plain.ln "[Data]";
    Plain.ln "Magnetic Field (Oe),Moment (emu)";
    Plain.ln "100,5";
    Plain.ln "200,x" ].

(** A file whose table comes first: no line feeds the mapping. *)
Definition bare : Path := [lit "bare.dat"].
Definition bare_lines : list str :=
  [Plain.ln "[Data]"; Plain.ln "a,b"; Plain.ln "1,2"].

(** A file whose table already has a column named [Moment]. *)
Definition clash : Path := [lit "clash.dat"].
Definition clash_lines : list str :=
  [Plain.ln "[Data]"; Plain.ln "Moment (emu),Moment"; Plain.ln "1,2"].

(** A file with a control character in a header value. *)
Definition control : Path := [lit "control.dat"].
Definition control_lines : list str :=
  [ lit "TITLE,run" ++ [1%N; LF]; Plain.ln "[Data]"; Plain.ln "a,b";
    Plain.ln "1,2" ].

Definition files : list (Path * list str) :=
  [ (marker_only, marker_only_lines); (no_marker, no_marker_lines);
    (sample, sample_lines); (bare, bare_lines); (clash, clash_lines);
    (control, control_lines) ].

Definition platform : Platform := Plain.platform files.

(** The free-centre moment is missing, the fixed-centre one is not. *)
Definition fixed_wins : DataFrame cell :=
  [ (Free, [NaN]); (Fixed, [Int64 1]); (MomentEmu, [Int64 2]) ].

(** The free-centre moment is missing, and there is no fixed-centre one. *)
Definition emu_wins : DataFrame cell :=
  [ (Free, [NaN; NaN]); (MomentEmu, [NaN; float_of_Z 2]) ].

(** A table as [load_dat] leaves it, with a non-finite field value. *)
Definition loaded : DataFrame cell :=
  [ (Field, [ float_of_Z 100; NaN; Float64 (S754_infinity false);
              float_of_Z 400 ]);
    (MomentEmu, [float_of_Z 5; float_of_Z 6; float_of_Z 7; NaN]);
    (lit "Moment", [float_of_Z 5; float_of_Z 6; float_of_Z 7; NaN]) ].

End Examples.

(** ** Vocabulary of the statements *)

(** The line, without its line end, is the marker of the data section. *)
Definition is_marker (line : str) : Prop :=
  rstrip_chars newline_chars line = lit "[Data]".

(** The exception of lines 46-47 (49-50 in the exporter). *)
Definition missing_data_section (filepath : Path) : exn :=
  ValueError (lit "No [Data] section found in " ++ path_str filepath).

(** [header_info] after the header loop has run over [pre], from [hi]. *)
Definition headers_from (hi : dict) (pre : list str) : dict :=
  fold_left
    (fun hi line =>
       DatLoader.header_line (rstrip_chars newline_chars line) hi)
    pre hi.

(** The text handed to the reader: the lines after the marker. *)
Definition data_block (rows : list str) : str :=
  join [LF] (List.map (rstrip_chars newline_chars) rows).




(** [c] is a column of [df] with at least one non-missing value. *)
Definition qualifies (df : DataFrame cell) (c : str) : Prop :=
  exists s, lookup df c = Some s /\ exists v, In v s /\ notna v = true.

(** [c] is a column of [df] and all its values are missing. *)
Definition all_missing (df : DataFrame cell) (c : str) : Prop :=
  exists s, lookup df c = Some s /\ forall v, In v s -> notna v = false.

(** The two line shapes that feed the mapping: [entry l k v] when the
    line [l], without its line end, is an [INFO] line with a third field or
    a bare key,value line, of key [k] and value [v]. *)
Inductive entry : str -> str -> str -> Prop :=
| entry_info (f2 f3 : str) :
    ~ In comma f2 ->
    entry (lit "INFO," ++ f2 ++ comma :: f3) (strip f2) (strip f3)
| entry_bare (k v : str) :
    ~ Prefix (lit "INFO,") (k ++ comma :: v) ->
    ~ Prefix (lit ";") (k ++ comma :: v) ->
    ~ In equals (k ++ comma :: v) ->
    ~ Prefix (lit "[") (k ++ comma :: v) ->
    ~ In comma k ->
    entry (k ++ comma :: v) (strip k) (strip v).

(** The pairs of two columns, by index, with both values finite. *)
Definition both_finite (p : cell * cell) : bool :=
  isfinite (fst p) && isfinite (snd p).

Definition kept_pairs (x y : list cell) : list (cell * cell) :=
  filter both_finite (combine x y).

(** ** The rest of the two programs: file discovery and [main]

    What the two [main] functions do beyond the calls above goes through
    the file system, the figure window and number formatting; these are
    the operations of the class [Host]. *)

Class Host : Type := {
  (** [p.is_file()], [p.is_dir()] *)
  is_file : Path -> bool;
  is_dir : Path -> bool;
  (** [s.lower()] *)
  lower : str -> str;
  (** [list(p.rglob("*.dat"))] *)
  rglob_dat : Path -> list Path;
  (** [sorted(paths)] *)
  sorted : list Path -> list Path;
  (** [p.mkdir(parents=True, exist_ok=True)] *)
  mkdir : Path -> result unit;
  (** [p.absolute()] *)
  absolute : Path -> Path;
  (** [plt.savefig(out, dpi=dpi)] of the figure *)
  savefig : Path -> Z -> Plt.Axes -> result unit;
  (** [h.min()], [h.max()] of a column, and [format(v, ".2f")] *)
  series_min : list cell -> cell;
  series_max : list cell -> cell;
  format_2f : cell -> str
}.

(** [p.suffix]: the last dot of the name and what follows it; a leading or
    a trailing dot starts no suffix. *)
Definition suffix (p : Path) : str :=
  let nm := name p in
  match rfind 46%N nm with
  | Some i => if (0 <? i) && (i <? length nm - 1) then skipn i nm else []
  | None => []
  end.

(** [p.parent] *)
Definition parent (p : Path) : Path := removelast p.

(** [str(n)] for a natural number. *)
Fixpoint uint_str (u : Decimal.uint) : str :=
  match u with
  | Decimal.Nil => []
  | Decimal.D0 u => 48%N :: uint_str u
  | Decimal.D1 u => 49%N :: uint_str u
  | Decimal.D2 u => 50%N :: uint_str u
  | Decimal.D3 u => 51%N :: uint_str u
  | Decimal.D4 u => 52%N :: uint_str u
  | Decimal.D5 u => 53%N :: uint_str u
  | Decimal.D6 u => 54%N :: uint_str u
  | Decimal.D7 u => 55%N :: uint_str u
  | Decimal.D8 u => 56%N :: uint_str u
  | Decimal.D9 u => 57%N :: uint_str u
  end.

Definition str_of_nat (n : nat) : str := uint_str (Nat.to_uint n).

(** [str(x)] for an optional string. *)
Definition str_of_option (o : option str) : str :=
  match o with
  | None => lit "None"
  | Some s => s
  end.

(** [len(df)]: the rows of a frame, which are those of its columns. *)
Definition nrows {A} (df : DataFrame A) : nat :=
  match df with
  | [] => 0
  | (_, v) :: _ => length v
  end.

(** *** src/dat_to_numbers.py, lines 98-162 *)

Module ExporterMain.
Section WithHost.
Context {Pf : Platform} {Hs : Host}.

Definition find_dat_files (path : Path) : list Path :=
  if is_file path && str_eqb (lower (suffix path)) (lit ".dat") then [path]
  else if is_dir path then sorted (rglob_dat path)
  else [].

(** The arguments [argparse] hands over. *)
Record args : Type := {
  input_path : Path;
  output_dir : Path;
  skip_rw : bool
}.

(** What a run leaves: the lines printed and the workbooks written. *)
Record run : Type := {
  printed : list str;
  xlsx : list (Path * DatToNumbers.workbook)
}.

Definition main (a : args) : result run :=
  _ <- mkdir (output_dir a) ;;
  let dat_files := find_dat_files (input_path a) in
  match dat_files with
  | [] =>
      Ok {| printed := [lit "No .dat files found in " ++ path_str (input_path a)];
            xlsx := [] |}
  | _ :: _ =>
      let t :=
        {| DatToNumbers.converted := 0; DatToNumbers.skipped := 0;
           DatToNumbers.errors := 0;
           DatToNumbers.stdout :=
             [lit "Found " ++ str_of_nat (length dat_files)
              ++ lit " .dat files"];
           DatToNumbers.written := [] |} in
      t <- DatToNumbers.convert_all (skip_rw a) (output_dir a) t dat_files ;;
      Ok {| printed :=
              DatToNumbers.stdout t
              ++ [ LF :: lit "Done! Converted: "
                      ++ str_of_nat (DatToNumbers.converted t)
                      ++ lit ", Skipped: "
                      ++ str_of_nat (DatToNumbers.skipped t)
                      ++ lit ", Errors: "
                      ++ str_of_nat (DatToNumbers.errors t);
                   lit "Output directory: "
                   ++ path_str (absolute (output_dir a)) ];
            xlsx := DatToNumbers.written t |}
  end.

End WithHost.
End ExporterMain.

(** *** src/dat_loader.py, lines 165-271 *)

Module LoaderMain.

(** What [main] does to the outside, in order. *)
Inductive event : Type :=
| Print (line : str)
| Mkdir (dir : Path)
| TightLayout
| SaveFig (out : Path) (dpi : Z) (fig : Plt.Axes)
| Show (fig : Plt.Axes).

(** A run: the events so far, and a value or the exception that ended
    it. *)
Definition io (A : Type) : Type := (list event * result A)%type.

Definition ret {A} (a : A) : io A := ([], Ok a).

Definition bind_io {A B} (m : io A) (k : A -> io B) : io B :=
  match m with
  | (tr, Ok a) => let (tr', r) := k a in (tr ++ tr', r)
  | (tr, Raise e) => (tr, Raise e)
  end.

Definition emit (ev : event) : io unit := ([ev], Ok tt).

Definition lift {A} (r : result A) : io A := ([], r).

Section WithHost.
Context {Pf : Platform} {Hs : Host}.

Local Notation "x <~ m ;; k" := (bind_io m (fun x => k))
  (at level 61, m at next level, right associativity).
Local Notation "m ;;; k" := (bind_io m (fun _ => k))
  (at level 61, right associativity).

Definition find_dat_files (directory : str + Path) : list Path :=
  let directory := as_path directory in
  if is_file directory && str_eqb (lower (suffix directory)) (lit ".dat")
  then [directory]
  else sorted (rglob_dat directory).

Record args : Type := {
  arg_path : str + Path;
  arg_list : bool;
  arg_temp : bool;
  arg_all : bool;
  arg_save : option str
}.

(** [out.parent.mkdir(parents=True, exist_ok=True)] *)
Definition mkdir_io (dir : Path) : io unit :=
  match mkdir dir with
  | Ok _ => ([Mkdir dir], Ok tt)
  | Raise e => ([], Raise e)
  end.

(** [plt.savefig(out, dpi=dpi)]: the figure is saved, or the call
    raises. *)
Definition savefig_io (out : Path) (dpi : Z) (fig : Plt.Axes) : io unit :=
  match savefig out dpi fig with
  | Ok _ => ([SaveFig out dpi fig], Ok tt)
  | Raise e => ([], Raise e)
  end.

(** Lines 215-222: the loop of [--list]. *)
Fixpoint list_files (dat_files : list Path) : io unit :=
  match dat_files with
  | [] => ret tt
  | f :: rest =>
      parsed <~ lift (DatLoader.parse_mpms_dat (inr f)) ;;
      let df := fst parsed in
      let moment_col := DatLoader.get_moment_column df in
      emit (Print (LF :: name f)) ;;;
      emit (Print (lit "  Rows: " ++ str_of_nat (nrows df)
                   ++ lit ", Moment column: " ++ str_of_option moment_col)) ;;;
      (if has_column df (lit "Magnetic Field (Oe)") then
         h <~ lift (getitem df (lit "Magnetic Field (Oe)")) ;;
         emit (Print (lit "  Field range: " ++ format_2f (series_min h)
                      ++ lit " .. " ++ format_2f (series_max h)
                      ++ lit " Oe"))
       else ret tt) ;;;
      list_files rest
  end.

(** Lines 227-239 as events: the lines the overlay loop prints, and the
    Axes it leaves. *)
Definition overlay_io (dat_files : list Path) : io Plt.Axes :=
  match DatLoader.overlay_all (Plt.subplots, []) dat_files with
  | Ok (ax, printed) => (List.map Print printed, Ok ax)
  | Raise e => ([], Raise e)
  end.

(** Lines 254-271: the body of the last loop. *)
Definition plot_one (a : args) (plots_dir : Path) (f : Path) : io unit :=
  df <~ lift (DatLoader.load_dat (inr f)) ;;
  let moment_col := DatLoader.get_moment_column df in
  if negb (truthy moment_col) then
    emit (Print (lit "No moment column found in " ++ name f
                 ++ lit ". Columns: " ++ repr_list (columns df)))
  else
    let title := stem f in
    fig <~ lift (if arg_temp a
                 then DatLoader.plot_moment_vs_temperature df moment_col
                        DatLoader.default_temp_col (Some title) None
                 else DatLoader.plot_moment_vs_field df moment_col
                        DatLoader.default_field_col (Some title) None None) ;;
    emit TightLayout ;;;
    match arg_save a with
    | Some s =>
        let out := if truthy (Some s) then to_path s
                   else joinpath plots_dir (stem f ++ lit ".png") in
        mkdir_io (parent out) ;;;
        savefig_io out 150 fig ;;;
        emit (Print (lit "Saved " ++ path_str out))
    | None => emit (Show fig)
    end.

Fixpoint for_each (body : Path -> io unit) (files : list Path) : io unit :=
  match files with
  | [] => ret tt
  | f :: rest => body f ;;; for_each body rest
  end.

Definition main (a : args) : io unit :=
  let plots_dir := [lit "plots"] in
  let path := as_path (arg_path a) in
  let dat_files := find_dat_files (inr path) in
  match dat_files with
  | [] => emit (Print (lit "No .dat files found under " ++ path_str path))
  | _ :: _ =>
      if arg_list a then list_files dat_files
      else if arg_all a && (1 <? length dat_files) then
        ax <~ overlay_io dat_files ;;
        let ax := Plt.set_legend ax in
        let ax := Plt.set_title ax (lit "Moment vs Field") in
        emit TightLayout ;;;
        match arg_save a with
        | Some s =>
            let out := if truthy (Some s) then to_path s
                       else joinpath plots_dir (lit "moment_vs_field.png") in
            mkdir_io (parent out) ;;;
            savefig_io out 150 ax ;;;
            emit (Print (lit "Saved " ++ path_str out))
        | None => emit (Show ax)
        end
      else
        for_each (plot_one a plots_dir)
                 (if negb (arg_all a) then firstn 1 dat_files else dat_files)
  end.

End WithHost.
End LoaderMain.

(** A host to run the two [main] functions: the files and directories are
    those of two tables, a listing comes sorted, a directory can be made
    unless a file has its name, a figure is saved unless the name asks
    for a format matplotlib does not know, and numbers are not formatted
    (a cell prints as [?]). *)
Module PlainHost.

Definition ascii_lower (c : char) : char :=
  if ((65 <=? c) && (c <=? 90))%N then (c + 32)%N else c.

Fixpoint listing (dirs : list (Path * list Path)) (p : Path)
  : option (list Path) :=
  match dirs with
  | [] => None
  | (d, l) :: rest =>
      if str_eqb (path_str d) (path_str p) then Some l else listing rest p
  end.

(** The format [savefig] takes from the name: the suffix without its dot,
    in lower case, or [png] when there is none. *)
Definition lower_format (out : Path) : str :=
  match suffix out with
  | [] => lit "png"
  | _ :: ext => List.map ascii_lower ext
  end.

Definition supported (format : str) : bool :=
  existsb (str_eqb format)
    [ lit "eps"; lit "jpeg"; lit "jpg"; lit "pdf"; lit "pgf"; lit "png";
      lit "ps"; lit "raw"; lit "rgba"; lit "svg"; lit "svgz"; lit "tif";
      lit "tiff"; lit "webp" ].

Definition unsupported_format (format : str) : exn :=
  ValueError
    (lit "Format '" ++ format
     ++ lit "' is not supported (supported formats: eps, jpeg, jpg, pdf, pgf, png, ps, raw, rgba, svg, svgz, tif, tiff, webp)").

Definition known (files : list (Path * list str)) (p : Path) : bool :=
  existsb (fun fl => str_eqb (path_str (fst fl)) (path_str p)) files.

Definition host (files : list (Path * list str))
    (dirs : list (Path * list Path)) : Host :=
  {| is_file := known files;
     is_dir := fun p => match listing dirs p with Some _ => true | None => false end;
     lower := List.map ascii_lower;
     rglob_dat := fun p => match listing dirs p with Some l => l | None => [] end;
     sorted := fun l => l;
     mkdir := fun p =>
       if known files p
       then Raise (LibraryError (lit "FileExistsError") (path_str p))
       else Ok tt;
     absolute := fun p => [[]; lit "home"] ++ p;
     savefig := fun out _ _ =>
       if supported (lower_format out) then Ok tt
       else Raise (unsupported_format (lower_format out));
     series_min := fun h => hd NaN h;
     series_max := fun h => last h NaN;
     format_2f := fun _ => lit "?" |}.

End PlainHost.

(** More files: the table of [Examples.sample] under other header lines
    and with carriage returns before the line feeds, and a marker line
    with a trailing blank. *)
Module MoreExamples.

Definition crlf (s : String.string) : str := lit s ++ [CR; LF].
Arguments crlf s%_string.

Definition windows : Path := [lit "windows.dat"].
Definition windows_lines : list str :=
  [ crlf "[Header]";
    crlf "TITLE, run 2";
    crlf "[Data]";
    crlf "Magnetic Field (Oe),Moment (emu)";
    crlf "100,5";
    crlf "200,x" ].

Definition blank_after_marker : Path := [lit "blank.dat"].
Definition blank_after_marker_lines : list str :=
  [Plain.ln "[Data] "; Plain.ln "a,b"; Plain.ln "1,2"].

Definition other_dir_sample : Path := [lit "other"; lit "sample.dat"].

Definition raw_waveform : Path := [lit "raw data"; lit "sample.rw.dat"].

Definition files : list (Path * list str) :=
  Examples.files
  ++ [ (windows, windows_lines);
       (blank_after_marker, blank_after_marker_lines);
       (other_dir_sample, Examples.bare_lines);
       (raw_waveform, Examples.sample_lines) ].

Definition platform : Platform := Plain.platform files.

(** The directories: the current one and [raw data], each with the
    [.dat] files below it in sorted order, and an empty one. *)
Definition here : Path := [].
Definition raw_data : Path := [lit "raw data"].
Definition empty_dir : Path := [lit "empty"].

Definition dirs : list (Path * list Path) :=
  [ (here, [Examples.no_marker; Examples.sample]);
    (raw_data, [Examples.sample; raw_waveform]);
    (empty_dir, []) ].

Definition host : Host := PlainHost.host files dirs.

End MoreExamples.

(** A drawn line whose data are not empty, of one length, and finite. *)
Definition finite_line (l : Plt.Line2D) : Prop :=
  Plt.xdata l <> []
  /\ length (Plt.xdata l) = length (Plt.ydata l)
  /\ Forall (fun c => isfinite c = true) (Plt.xdata l)
  /\ Forall (fun c => isfinite c = true) (Plt.ydata l).


(** [s] begins and ends with no white space. *)
Definition stripped (s : str) : Prop :=
  (forall c t, s = c :: t -> isspace c = false)
  /\ (forall t c, s = t ++ [c] -> isspace c = false).

(** * Properties *)

Unset Implicit Arguments.

(** ** Strings and dicts *)

Example split_info :
  split comma 2 (lit "INFO,a,b,c") = [lit "INFO"; lit "a"; lit "b,c"].
Proof. reflexivity. Qed.

Example split_short : split comma 2 (lit "INFO,a") = [lit "INFO"; lit "a"].
Proof. reflexivity. Qed.

Example split_first_comma :
  split comma 1 (lit "k,v,w") = [lit "k"; lit "v,w"].
Proof. reflexivity. Qed.

Example strip_both_ends : strip (9 :: lit "  a b " ++ [160])%N = lit "a b".
Proof. reflexivity. Qed.

Example rstrip_line_end :
  rstrip_chars newline_chars (lit "[Data]" ++ [CR; LF]) = lit "[Data]".
Proof. reflexivity. Qed.

Example stem_last_suffix :
  stem [lit "raw data"; lit "run.rw.dat"] = lit "run.rw"
  /\ stem [lit ".hidden"] = lit ".hidden".
Proof. split; reflexivity. Qed.

Example dict_set_overwrites :
  dict_set [(lit "a", lit "1"); (lit "b", lit "2")] (lit "a") (lit "3")
  = [(lit "a", lit "3"); (lit "b", lit "2")].
Proof. reflexivity. Qed.

Lemma str_eqb_eq (a b : str) : str_eqb a b = true <-> a = b.
Proof.
  revert b; induction a as [|x a IH]; intros [|y b]; simpl;
    try (split; [discriminate | discriminate]); try tauto.
  rewrite andb_true_iff, N.eqb_eq, IH.
  split; [intros [-> ->]; reflexivity | intros E; inversion E; auto].
Qed.

Lemma str_eqb_refl (a : str) : str_eqb a a = true.
Proof. apply str_eqb_eq; reflexivity. Qed.

Lemma str_eqb_neq (a b : str) : str_eqb a b = false <-> a <> b.
Proof.
  rewrite <- str_eqb_eq. destruct (str_eqb a b); split; congruence.
Qed.

Lemma mem_In (c : char) (s : str) : mem c s = true <-> In c s.
Proof.
  induction s as [|d s IH]; simpl.
  - split; [discriminate | tauto].
  - rewrite orb_true_iff, N.eqb_eq, IH. split; intros [E | E]; auto.
Qed.

Lemma mem_not_In (c : char) (s : str) : mem c s = false <-> ~ In c s.
Proof.
  rewrite <- mem_In. destruct (mem c s); split; congruence.
Qed.

Lemma startswith_Prefix (s p : str) : startswith s p = true <-> Prefix p s.
Proof.
  unfold Prefix. revert s; induction p as [|x p IH]; intros s; simpl.
  - split; [exists s; reflexivity | reflexivity].
  - destruct s as [|y s].
    + split; [discriminate | intros [t E]; discriminate].
    + rewrite andb_true_iff, N.eqb_eq, IH. split.
      * intros [-> [t ->]]. exists t; reflexivity.
      * intros [t E]. inversion E; subst. split; [reflexivity | exists t; reflexivity].
Qed.

Lemma startswith_not_Prefix (s p : str) :
  startswith s p = false <-> ~ Prefix p s.
Proof.
  rewrite <- startswith_Prefix. destruct (startswith s p); split; congruence.
Qed.

Lemma startswith_app (p t : str) : startswith (p ++ t) p = true.
Proof. apply startswith_Prefix. exists t; reflexivity. Qed.

(** [partition] cuts at the first separator. *)
Lemma partition_first (sep : char) (pre post : str) :
  ~ In sep pre -> partition sep (pre ++ sep :: post) = Some (pre, post).
Proof.
  induction pre as [|c pre IH]; simpl; intros Hn.
  - rewrite N.eqb_refl; reflexivity.
  - destruct (N.eqb_spec c sep) as [E | _]; [exfalso; auto |].
    rewrite IH; auto.
Qed.

Lemma partition_none (sep : char) (s : str) :
  ~ In sep s -> partition sep s = None.
Proof.
  induction s as [|c s IH]; simpl; intros Hn; [reflexivity |].
  destruct (N.eqb_spec c sep) as [E | _]; [exfalso; auto |].
  rewrite IH; auto.
Qed.

Lemma In_first (sep : char) (s : str) :
  In sep s -> exists pre post, s = pre ++ sep :: post /\ ~ In sep pre.
Proof.
  induction s as [|c s IH]; simpl; [tauto |].
  intros Hin. destruct (N.eq_dec c sep) as [-> | Hne].
  - exists [], s. split; [reflexivity | simpl; tauto].
  - destruct Hin as [E | Hin]; [contradiction |].
    destruct (IH Hin) as (pre & post & -> & Hn).
    exists (c :: pre), post. split; [reflexivity |].
    simpl; intros [E | E]; auto.
Qed.

Lemma dict_get_set_same (d : dict) (k v : str) :
  dict_get (dict_set d k v) k = Some v.
Proof.
  induction d as [|[k' v'] d IH]; simpl.
  - rewrite str_eqb_refl; reflexivity.
  - destruct (str_eqb k' k) eqn:E; simpl; rewrite E; auto.
Qed.

Lemma dict_get_set_other (d : dict) (k k' v : str) :
  k' <> k -> dict_get (dict_set d k v) k' = dict_get d k'.
Proof.
  intros Hne. induction d as [|[k0 v0] d IH]; simpl.
  - apply str_eqb_neq in Hne. destruct (str_eqb k k') eqn:E; [|reflexivity].
    apply str_eqb_eq in E. subst. rewrite str_eqb_refl in Hne; discriminate.
  - destruct (str_eqb k0 k) eqn:E; simpl.
    + apply str_eqb_eq in E; subst k0.
      destruct (str_eqb k k') eqn:E'; [|reflexivity].
      apply str_eqb_eq in E'; congruence.
    + destruct (str_eqb k0 k'); auto.
Qed.

(** ** The header loop *)

Lemma lit_INFO (t : str) : lit "INFO," ++ t = lit "INFO" ++ comma :: t.
Proof. reflexivity. Qed.

Lemma no_comma_INFO : ~ In comma (lit "INFO").
Proof. cbv; intuition discriminate. Qed.

Lemma header_line_info (hi : dict) (f2 f3 : str) :
  ~ In comma f2 ->
  DatLoader.header_line (lit "INFO," ++ f2 ++ comma :: f3) hi
  = dict_set hi (strip f2) (strip f3).
Proof.
  intros Hn. unfold DatLoader.header_line.
  rewrite startswith_app, lit_INFO.
  change (split comma 2 ?s) with
    (match partition comma s with
     | None => [s]
     | Some (pre, post) =>
         pre :: match partition comma post with
                | None => [post]
                | Some (pre', post') => [pre'; post']
                end
     end).
  rewrite (partition_first _ _ _ no_comma_INFO), (partition_first _ _ _ Hn).
  reflexivity.
Qed.

Lemma header_line_info_short (hi : dict) (t : str) :
  ~ In comma t -> DatLoader.header_line (lit "INFO," ++ t) hi = hi.
Proof.
  intros Hn. unfold DatLoader.header_line.
  rewrite startswith_app, lit_INFO.
  change (split comma 2 ?s) with
    (match partition comma s with
     | None => [s]
     | Some (pre, post) =>
         pre :: match partition comma post with
                | None => [post]
                | Some (pre', post') => [pre'; post']
                end
     end).
  rewrite (partition_first _ _ _ no_comma_INFO), (partition_none _ _ Hn).
  reflexivity.
Qed.

Lemma header_line_bare (hi : dict) (k v : str) :
  let l := k ++ comma :: v in
  ~ Prefix (lit "INFO,") l -> ~ Prefix (lit ";") l -> ~ In equals l ->
  ~ Prefix (lit "[") l -> ~ In comma k ->
  DatLoader.header_line l hi = dict_set hi (strip k) (strip v).
Proof.
  intros l H1 H2 H3 H4 Hk. unfold DatLoader.header_line.
  apply startswith_not_Prefix in H1, H2, H4. apply mem_not_In in H3.
  rewrite H1, H2, H3, H4.
  assert (Hc : mem comma l = true)
    by (apply mem_In; unfold l; apply in_or_app; right; left; reflexivity).
  rewrite Hc. simpl andb. cbv iota.
  change (split comma 1 l) with
    (match partition comma l with
     | None => [l]
     | Some (pre, post) => [pre; post]
     end).
  unfold l. rewrite (partition_first _ _ _ Hk). reflexivity.
Qed.

Lemma header_line_other (hi : dict) (l : str) :
  ~ Prefix (lit "INFO,") l ->
  Prefix (lit ";") l \/ ~ In comma l \/ In equals l \/ Prefix (lit "[") l ->
  DatLoader.header_line l hi = hi.
Proof.
  intros H1 H. unfold DatLoader.header_line.
  apply startswith_not_Prefix in H1. rewrite H1.
  destruct H as [H | [H | [H | H]]].
  - apply startswith_Prefix in H. rewrite H. reflexivity.
  - apply mem_not_In in H. rewrite H.
    destruct (startswith l (lit ";")); reflexivity.
  - apply mem_In in H. rewrite H.
    destruct (startswith l (lit ";")), (mem comma l); reflexivity.
  - apply startswith_Prefix in H. rewrite H.
    destruct (startswith l (lit ";")), (mem comma l), (mem equals l);
      reflexivity.
Qed.

(** The two sources hold the same loop. *)
Lemma scan_lines_same : DatToNumbers.scan_lines = DatLoader.scan_lines.
Proof. reflexivity. Qed.

(** C1. Both [parse_mpms_dat] loops classify a line, stripped of its line
    end, in this order: the line ["[Data]"] stops the scan and sets
    [data_start] to the next index; a line beginning ["INFO,"] with a third
    field stores (field 2, field 3), both stripped, field 3 being all that
    follows the second comma, and stores nothing without a third field; a
    line that begins neither with [";"] nor with ["["], holds a comma and
    no ["="], stores what precedes and what follows its first comma, both
    stripped; any other line leaves the mapping as it was. *)
Theorem C1_line_classification :
  forall scan_lines,
    In scan_lines [DatLoader.scan_lines; DatToNumbers.scan_lines] ->
    forall (i : nat) (line : str) (rest : list str) (hi : dict),
      let l := rstrip_chars newline_chars line in
      (l = lit "[Data]" ->
       scan_lines i (line :: rest) hi = (hi, true, Some (i + 1)))
      /\ (l <> lit "[Data]" ->
          exists hi',
            scan_lines i (line :: rest) hi = scan_lines (S i) rest hi'
            /\ (forall t, l = lit "INFO," ++ t ->
                  (forall f2 f3, t = f2 ++ comma :: f3 -> ~ In comma f2 ->
                     hi' = dict_set hi (strip f2) (strip f3))
                  /\ (~ In comma t -> hi' = hi))
            /\ (~ Prefix (lit "INFO,") l -> ~ Prefix (lit ";") l ->
                In comma l -> ~ In equals l -> ~ Prefix (lit "[") l ->
                exists k v, l = k ++ comma :: v /\ ~ In comma k
                            /\ hi' = dict_set hi (strip k) (strip v))
            /\ (~ Prefix (lit "INFO,") l ->
                Prefix (lit ";") l \/ ~ In comma l \/ In equals l
                \/ Prefix (lit "[") l ->
                hi' = hi)).
Proof.
  intros scan_lines Hscan i line rest hi l.
  assert (Es : scan_lines = DatLoader.scan_lines).
  { destruct Hscan as [E | [E | []]]; symmetry; [exact E |].
    rewrite <- E. exact scan_lines_same. }
  subst scan_lines. split.
  - intros El. simpl. fold l. rewrite El, str_eqb_refl. reflexivity.
  - intros Hl. exists (DatLoader.header_line l hi). split; [| split; [| split]].
    + simpl. fold l. apply str_eqb_neq in Hl. rewrite Hl. reflexivity.
    + intros t Et. split.
      * intros f2 f3 -> Hn. rewrite Et. apply header_line_info; assumption.
      * intros Hn. rewrite Et. apply header_line_info_short; assumption.
    + intros H1 H2 Hc H3 H4.
      destruct (In_first _ _ Hc) as (k & v & Ekv & Hk).
      exists k, v. split; [exact Ekv | split; [exact Hk |]].
      rewrite Ekv in *. apply header_line_bare; assumption.
    + intros H1 H. apply header_line_other; assumption.
Qed.

(** A witness of C1 on the marker line and on an [INFO] line. *)
Lemma C1_line_classification_witness :
  In DatLoader.scan_lines [DatLoader.scan_lines; DatToNumbers.scan_lines]
  /\ DatLoader.scan_lines 7 [Plain.ln "[Data]"; Plain.ln "a,b"] []
     = ([], true, Some 8)
  /\ exists hi',
       DatLoader.scan_lines 0 [Plain.ln "INFO, SAMPLE_MASS , 7.7,mg"] []
       = DatLoader.scan_lines 1 [] hi'
       /\ hi' = [(lit "SAMPLE_MASS", lit "7.7,mg")].
Proof.
  split; [left; reflexivity | split].
  - apply (proj1 (C1_line_classification _ (or_introl eq_refl) 7
                    (Plain.ln "[Data]") [Plain.ln "a,b"] [])).
    reflexivity.
  - destruct (proj2 (C1_line_classification _ (or_introl eq_refl) 0
                       (Plain.ln "INFO, SAMPLE_MASS , 7.7,mg") [] []))
      as (hi' & Hscan & Hinfo & _).
    + intros E; vm_compute in E; discriminate.
    + exists hi'. split; [exact Hscan |].
      apply (proj1 (Hinfo (lit " SAMPLE_MASS , 7.7,mg") eq_refl)
               (lit " SAMPLE_MASS ") (lit " 7.7,mg") eq_refl).
      vm_compute. intuition discriminate.
Defined.

(** ** With or without the marker *)

Lemma is_marker_dec (line : str) : {is_marker line} + {~ is_marker line}.
Proof.
  unfold is_marker.
  destruct (str_eqb (rstrip_chars newline_chars line) (lit "[Data]")) eqn:E.
  - left. apply str_eqb_eq; exact E.
  - right. apply str_eqb_neq; exact E.
Qed.

Lemma first_marker (lines : list str) :
  (exists l, In l lines /\ is_marker l) ->
  exists pre m rows,
    lines = pre ++ m :: rows /\ is_marker m
    /\ forall l, In l pre -> ~ is_marker l.
Proof.
  induction lines as [|x lines IH]; intros (l & Hin & Hm); [destruct Hin |].
  destruct (is_marker_dec x) as [Hx | Hx].
  - exists [], x, lines. split; [reflexivity | split; [exact Hx |]].
    intros l' [].
  - destruct Hin as [-> | Hin]; [contradiction |].
    destruct IH as (pre & m & rows & -> & Hm' & Hpre); [exists l; auto |].
    exists (x :: pre), m, rows. split; [reflexivity | split; [exact Hm' |]].
    intros l' [<- | Hl']; auto.
Qed.

Lemma scan_lines_no_marker (i : nat) (lines : list str) (hi : dict) :
  (forall l, In l lines -> ~ is_marker l) ->
  DatLoader.scan_lines i lines hi = (headers_from hi lines, false, None).
Proof.
  revert i hi; induction lines as [|x lines IH]; intros i hi Hno;
    [reflexivity |].
  simpl. assert (Hx : ~ is_marker x) by (apply Hno; left; reflexivity).
  apply str_eqb_neq in Hx. rewrite Hx.
  apply IH. intros l Hl; apply Hno; right; exact Hl.
Qed.

Lemma scan_lines_marker (i : nat) (pre : list str) (m : str)
    (rows : list str) (hi : dict) :
  (forall l, In l pre -> ~ is_marker l) -> is_marker m ->
  DatLoader.scan_lines i (pre ++ m :: rows) hi
  = (headers_from hi pre, true, Some (i + length pre + 1)).
Proof.
  revert i hi; induction pre as [|x pre IH]; intros i hi Hno Hm.
  - simpl. apply str_eqb_eq in Hm. rewrite Hm.
    replace (i + 0 + 1) with (i + 1) by lia. reflexivity.
  - simpl. assert (Hx : ~ is_marker x) by (apply Hno; left; reflexivity).
    apply str_eqb_neq in Hx. rewrite Hx.
    rewrite IH; [| intros l Hl; apply Hno; right; exact Hl | exact Hm].
    replace (S i + length pre + 1) with (i + S (length pre) + 1) by lia.
    reflexivity.
Qed.

Lemma skipn_after_marker (pre : list str) (m : str) (rows : list str) :
  skipn (0 + length pre + 1) (pre ++ m :: rows) = rows.
Proof.
  replace (0 + length pre + 1) with (length pre + 1) by lia.
  rewrite skipn_app, Nat.add_comm, skipn_all2 by lia.
  replace (1 + length pre - length pre) with 1 by lia. reflexivity.
Qed.

Section Parse.
Context {Pf : Platform}.

Lemma parse_lines_same (filepath : Path) (lines : list str) :
  DatToNumbers.parse_lines filepath lines
  = DatLoader.parse_lines filepath lines.
Proof.
  unfold DatToNumbers.parse_lines, DatLoader.parse_lines.
  rewrite scan_lines_same.
  destruct (DatLoader.scan_lines 0 lines []) as [[hi [|]] [start|]];
    reflexivity.
Qed.

Lemma parse_lines_no_marker (filepath : Path) (lines : list str) :
  (forall l, In l lines -> ~ is_marker l) ->
  DatLoader.parse_lines filepath lines
  = Raise (missing_data_section filepath).
Proof.
  intros Hno. unfold DatLoader.parse_lines.
  rewrite (scan_lines_no_marker _ _ _ Hno). reflexivity.
Qed.

Lemma parse_lines_marker (filepath : Path) (pre : list str) (m : str)
    (rows : list str) :
  (forall l, In l pre -> ~ is_marker l) -> is_marker m ->
  DatLoader.parse_lines filepath (pre ++ m :: rows)
  = (df <- read_csv (data_block rows) ;;
     Ok (DatLoader.coerce_numeric df, headers_from [] pre)).
Proof.
  intros Hno Hm. unfold DatLoader.parse_lines.
  rewrite (scan_lines_marker _ _ _ _ _ Hno Hm), skipn_after_marker.
  reflexivity.
Qed.

End Parse.

(** C2, as the code has it. Without a marker line both parsers raise the
    missing-section error.  With one, the raise of lines 46-47 is not
    taken: the lines after the first marker go to the reader, the pair
    (coerced table, mapping of the lines before the marker) is returned
    when the reader returns a table, and the reader's exception
    propagates when it raises. *)
Theorem C2_data_section {Pf : Platform} :
  forall parse,
    In parse [ fun p => DatLoader.parse_mpms_dat (inr p);
               DatToNumbers.parse_mpms_dat ] ->
    forall (filepath : Path) (lines : list str),
      readlines filepath = Ok lines ->
      ((forall l, In l lines -> ~ is_marker l) ->
       parse filepath = Raise (missing_data_section filepath))
      /\ ((exists l, In l lines /\ is_marker l) ->
          exists pre m rows,
            lines = pre ++ m :: rows /\ is_marker m
            /\ (forall l, In l pre -> ~ is_marker l)
            /\ (forall df, read_csv (data_block rows) = Ok df ->
                  parse filepath
                  = Ok (DatLoader.coerce_numeric df, headers_from [] pre))
            /\ (forall e, read_csv (data_block rows) = Raise e ->
                  parse filepath = Raise e)).
Proof.
  intros parse Hparse filepath lines Hread.
  assert (E : parse filepath = DatLoader.parse_lines filepath lines).
  { destruct Hparse as [<- | [<- | []]].
    - unfold DatLoader.parse_mpms_dat, as_path. rewrite Hread. reflexivity.
    - unfold DatToNumbers.parse_mpms_dat. rewrite Hread. simpl.
      apply parse_lines_same. }
  rewrite E. split.
  - apply parse_lines_no_marker.
  - intros Hex. destruct (first_marker _ Hex) as (pre & m & rows & -> & Hm & Hpre).
    exists pre, m, rows. repeat split; try assumption.
    + intros df Hdf. rewrite (parse_lines_marker _ _ _ _ Hpre Hm), Hdf.
      reflexivity.
    + intros e He. rewrite (parse_lines_marker _ _ _ _ Hpre Hm), He.
      reflexivity.
Qed.

(** A witness of C2: a file without a marker raises, a file with a marker
    and a table returns the pair. *)
Lemma C2_data_section_witness :
  DatLoader.parse_mpms_dat (Pf := Examples.platform)
    (inr Examples.no_marker)
  = Raise (missing_data_section Examples.no_marker)
  /\ exists pre m rows,
       Examples.sample_lines = pre ++ m :: rows /\ length pre = 7
       /\ forall df,
            @read_csv Examples.platform (data_block rows) = Ok df ->
            DatToNumbers.parse_mpms_dat (Pf := Examples.platform)
              Examples.sample
            = Ok (DatLoader.coerce_numeric df, headers_from [] pre).
Proof.
  split.
  - apply (proj1 (C2_data_section (Pf := Examples.platform) _
                    (or_introl eq_refl) Examples.no_marker
                    Examples.no_marker_lines eq_refl)).
    intros l [<- | [<- | [<- | []]]] E; vm_compute in E; discriminate.
  - destruct (proj2 (C2_data_section (Pf := Examples.platform) _
                       (or_intror (or_introl eq_refl)) Examples.sample
                       Examples.sample_lines eq_refl))
      as (pre & m & rows & E & Hm & Hpre & Hok & _).
    + exists (Plain.ln "[Data]"). split; [| reflexivity].
      do 7 right. left. reflexivity.
    + exists pre, m, rows. split; [exact E | split; [| exact Hok]].
      destruct pre as [|p0 [|p1 [|p2 [|p3 [|p4 [|p5 [|p6 [|p7 pre]]]]]]]];
        injection E as; subst;
        try (exfalso; vm_compute in Hm; discriminate); try reflexivity.
      exfalso. apply (Hpre (Plain.ln "[Data]")); [| reflexivity].
      do 7 right. left. reflexivity.
Defined.

(** C2 as stated fails on a file that ends with its marker line: the line
    is there, and the reader's own exception comes out instead of a pair. *)
Lemma C2_counterexample :
  @readlines Examples.platform Examples.marker_only
  = Ok Examples.marker_only_lines
  /\ (exists l, In l Examples.marker_only_lines /\ is_marker l)
  /\ DatLoader.parse_mpms_dat (Pf := Examples.platform)
       (inr Examples.marker_only)
     = Raise (LibraryError (lit "EmptyDataError")
                           (lit "No columns to parse from file"))
  /\ DatToNumbers.parse_mpms_dat (Pf := Examples.platform)
       Examples.marker_only
     = Raise (LibraryError (lit "EmptyDataError")
                           (lit "No columns to parse from file")).
Proof.
  split; [reflexivity | split; [| split; reflexivity]].
  exists (Plain.ln "[Data]"). split; [left; reflexivity | reflexivity].
Qed.

(** C9. The parser of the loader and the parser of the exporter return
    the same result on every file, and one raises exactly when the other
    does, with the same exception; the loader, which also takes a string,
    does on it what the exporter does on the path made of it. *)
Theorem C9_same_parser {Pf : Platform} :
  forall filepath : Path,
    DatLoader.parse_mpms_dat (inr filepath)
    = DatToNumbers.parse_mpms_dat filepath
    /\ (forall df hi,
          DatLoader.parse_mpms_dat (inr filepath) = Ok (df, hi)
          <-> DatToNumbers.parse_mpms_dat filepath = Ok (df, hi))
    /\ (forall e,
          DatLoader.parse_mpms_dat (inr filepath) = Raise e
          <-> DatToNumbers.parse_mpms_dat filepath = Raise e)
    /\ (forall s : str,
          DatLoader.parse_mpms_dat (inl s)
          = DatToNumbers.parse_mpms_dat (to_path s)).
Proof.
  intros filepath.
  assert (E : forall a : str + Path,
             DatLoader.parse_mpms_dat a
             = DatToNumbers.parse_mpms_dat (as_path a)).
  { intros a. unfold DatLoader.parse_mpms_dat, DatToNumbers.parse_mpms_dat.
    destruct (readlines (as_path a)) as [lines | e]; simpl; [| reflexivity].
    symmetry. apply parse_lines_same. }
  split; [exact (E (inr filepath)) |].
  rewrite (E (inr filepath)). simpl as_path.
  split; [intros; reflexivity | split; [intros; reflexivity |]].
  intros s. exact (E (inl s)).
Qed.

(** ** The moment column *)

Lemma str_eqb_sym (a b : str) : str_eqb a b = str_eqb b a.
Proof.
  destruct (str_eqb a b) eqn:E.
  - apply str_eqb_eq in E. subst. symmetry. apply str_eqb_refl.
  - destruct (str_eqb b a) eqn:E'; [| reflexivity].
    apply str_eqb_eq in E'. subst. rewrite str_eqb_refl in E. discriminate.
Qed.

Section Frames.
Context {A : Type}.
Implicit Types (df : DataFrame A) (c : str) (v : list A).

Lemma has_column_lookup df c :
  has_column df c = negb (match lookup df c with Some _ => false | None => true end).
Proof.
  unfold has_column, columns.
  induction df as [|[c' v'] df IH]; simpl; [reflexivity |].
  rewrite (str_eqb_sym c c'). destruct (str_eqb c' c); simpl; auto.
Qed.

Lemma has_column_true df c :
  has_column df c = true <-> exists v, lookup df c = Some v.
Proof.
  rewrite has_column_lookup. destruct (lookup df c) as [v|]; simpl.
  - split; [exists v; reflexivity | reflexivity].
  - split; [discriminate | intros [v E]; discriminate].
Qed.

Lemma has_column_false df c :
  has_column df c = false <-> lookup df c = None.
Proof.
  rewrite has_column_lookup. destruct (lookup df c); simpl;
    split; congruence.
Qed.

Lemma lookup_setitem_same df c v : lookup (setitem df c v) c = Some v.
Proof.
  induction df as [|[c' v'] df IH]; simpl.
  - rewrite str_eqb_refl. reflexivity.
  - destruct (str_eqb c' c) eqn:E; simpl; rewrite E; auto.
Qed.

Lemma lookup_setitem_other df c c' v :
  c' <> c -> lookup (setitem df c v) c' = lookup df c'.
Proof.
  intros Hne. induction df as [|[c0 v0] df IH]; simpl.
  - destruct (str_eqb c c') eqn:E; [| reflexivity].
    apply str_eqb_eq in E. congruence.
  - destruct (str_eqb c0 c) eqn:E; simpl.
    + apply str_eqb_eq in E; subst c0.
      destruct (str_eqb c c') eqn:E'; [| reflexivity].
      apply str_eqb_eq in E'. congruence.
    + destruct (str_eqb c0 c'); auto.
Qed.

Lemma setitem_absent df c v :
  has_column df c = false -> setitem df c v = df ++ [(c, v)].
Proof.
  unfold has_column, columns.
  induction df as [|[c' v'] df IH]; simpl; [reflexivity |].
  rewrite (str_eqb_sym c c'). destruct (str_eqb c' c); simpl;
    [discriminate |].
  intros H. rewrite IH; auto.
Qed.

Lemma columns_setitem_present df c v :
  has_column df c = true -> columns (setitem df c v) = columns df.
Proof.
  unfold has_column, columns.
  induction df as [|[c' v'] df IH]; simpl; [discriminate |].
  rewrite (str_eqb_sym c c'). destruct (str_eqb c' c); simpl;
    [reflexivity |].
  intros H. rewrite IH; auto.
Qed.

End Frames.

Lemma any_notna_In (s : list cell) :
  any_notna s = true <-> exists v, In v s /\ notna v = true.
Proof. apply existsb_exists. Qed.

(** The test of line 69, as a proposition. *)
Lemma qualifies_test (df : DataFrame cell) (c : str) :
  has_column df c
  && match getitem df c with Ok s => any_notna s | Raise _ => false end
  = true
  <-> qualifies df c.
Proof.
  unfold qualifies, getitem. rewrite andb_true_iff, has_column_true.
  destruct (lookup df c) as [s|].
  - rewrite any_notna_In. split.
    + intros [_ H]. exists s. auto.
    + intros (s' & E & H). injection E as <-. split; [exists s; auto | auto].
  - split; [intros [_ H]; discriminate | intros (s' & E & _); discriminate].
Qed.

Lemma first_moment_some (df : DataFrame cell) (cs : list str) (c : str) :
  DatLoader.first_moment df cs = Some c
  <-> exists before after,
        cs = before ++ c :: after /\ qualifies df c
        /\ forall c', In c' before -> ~ qualifies df c'.
Proof.
  induction cs as [|c0 cs IH]; simpl.
  - split; [discriminate |].
    intros ([|? ?] & after & E & _); discriminate.
  - pose proof (qualifies_test df c0) as Hq.
    destruct (has_column df c0
              && match getitem df c0 with
                 | Ok s => any_notna s
                 | Raise _ => false
                 end).
    + split.
      * intros E; injection E as <-. exists [], cs.
        split; [reflexivity | split; [apply Hq; reflexivity |]].
        intros c' [].
      * intros ([|b before] & after & E & Hc & Hbefore).
        -- injection E as -> _. reflexivity.
        -- injection E as -> _. exfalso.
           apply (Hbefore b); [left; reflexivity | apply Hq; reflexivity].
    + assert (Hn : ~ qualifies df c0) by (intros H; apply Hq in H; discriminate).
      rewrite IH. split.
      * intros (before & after & -> & Hc & Hbefore).
        exists (c0 :: before), after.
        split; [reflexivity | split; [exact Hc |]].
        intros c' [<- | Hin]; auto.
      * intros ([|b before] & after & E & Hc & Hbefore).
        -- injection E as -> _. contradiction.
        -- injection E as -> ->. exists before, after.
           split; [reflexivity | split; [exact Hc |]].
           intros c' Hin. apply Hbefore. right; exact Hin.
Qed.

Lemma first_moment_none (df : DataFrame cell) (cs : list str) :
  DatLoader.first_moment df cs = None
  <-> forall c, In c cs -> ~ qualifies df c.
Proof.
  induction cs as [|c0 cs IH]; simpl.
  - split; [intros _ c [] | reflexivity].
  - pose proof (qualifies_test df c0) as Hq.
    destruct (has_column df c0
              && match getitem df c0 with
                 | Ok s => any_notna s
                 | Raise _ => false
                 end).
    + split; [discriminate |].
      intros H. exfalso. apply (H c0); [left; reflexivity |].
      apply Hq; reflexivity.
    + rewrite IH. split.
      * intros H c [<- | Hin]; [| auto].
        intros Hc. apply Hq in Hc. discriminate.
      * intros H c Hin. apply H. right; exact Hin.
Qed.

Lemma all_missing_not_qualifies (df : DataFrame cell) (c : str) :
  all_missing df c -> ~ qualifies df c.
Proof.
  intros (s & E & Hall) (s' & E' & v & Hin & Hv).
  rewrite E in E'. injection E' as <-.
  rewrite (Hall v Hin) in Hv. discriminate.
Qed.

Lemma absent_not_qualifies (df : DataFrame cell) (c : str) :
  has_column df c = false -> ~ qualifies df c.
Proof.
  intros H (s & E & _). apply has_column_false in H. congruence.
Qed.

(** C3, as the code has it. The selector returns the first name of the
    list Free Ctr, Fixed Ctr, Moment (emu) that is a column with a
    non-missing value, and [None] exactly when no name of the list is
    one.  When the Free Ctr column is all-missing, the Fixed Ctr column
    is absent or all-missing, and Moment (emu) has a non-missing value, it
    returns Moment (emu). *)
Theorem C3_moment_column :
  forall df : DataFrame cell,
    DatLoader.candidates
    = [ lit "DC Moment Free Ctr (emu)"; lit "DC Moment Fixed Ctr (emu)";
        lit "Moment (emu)" ]
    /\ (forall c,
          DatLoader.get_moment_column df = Some c
          <-> exists before after,
                DatLoader.candidates = before ++ c :: after
                /\ qualifies df c
                /\ forall c', In c' before -> ~ qualifies df c')
    /\ (DatLoader.get_moment_column df = None
        <-> forall c, In c DatLoader.candidates -> ~ qualifies df c)
    /\ (all_missing df (lit "DC Moment Free Ctr (emu)") ->
        has_column df (lit "DC Moment Fixed Ctr (emu)") = false
        \/ all_missing df (lit "DC Moment Fixed Ctr (emu)") ->
        qualifies df (lit "Moment (emu)") ->
        DatLoader.get_moment_column df = Some (lit "Moment (emu)")).
Proof.
  intros df. split; [reflexivity | split; [| split]].
  - intros c. apply first_moment_some.
  - apply first_moment_none.
  - intros Hfree Hfixed Hemu.
    apply first_moment_some.
    exists [lit "DC Moment Free Ctr (emu)"; lit "DC Moment Fixed Ctr (emu)"], [].
    split; [reflexivity | split; [exact Hemu |]].
    intros c' [<- | [<- | []]].
    + apply all_missing_not_qualifies; exact Hfree.
    + destruct Hfixed as [H | H];
        [apply absent_not_qualifies | apply all_missing_not_qualifies];
        exact H.
Qed.

(** The two selections of the specification's tests. *)
Example moment_emu_selected :
  DatLoader.get_moment_column Examples.emu_wins = Some (lit "Moment (emu)").
Proof. reflexivity. Qed.

Example no_moment_column :
  DatLoader.get_moment_column
    [ (lit "Temperature (K)", [Int64 300]); (lit "Moment", [Int64 1]) ]
  = None.
Proof. reflexivity. Qed.

(** C3 as stated fails when the fixed-centre column has a value: the
    free-centre column is all-missing and Moment (emu) has a value, yet
    the selector returns the fixed-centre column. *)
Lemma C3_counterexample :
  all_missing Examples.fixed_wins (lit "DC Moment Free Ctr (emu)")
  /\ qualifies Examples.fixed_wins (lit "Moment (emu)")
  /\ DatLoader.get_moment_column Examples.fixed_wins
     = Some (lit "DC Moment Fixed Ctr (emu)")
  /\ lit "DC Moment Fixed Ctr (emu)" <> lit "Moment (emu)".
Proof.
  split; [| split; [| split]].
  - exists [NaN]. split; [reflexivity |].
    intros v [<- | []]. reflexivity.
  - exists [Int64 2]. split; [reflexivity |].
    exists (Int64 2). split; [left; reflexivity | reflexivity].
  - reflexivity.
  - intros E. vm_compute in E. discriminate.
Qed.

(** ** The mapping of a file *)

Lemma entry_header_line (l k v : str) (hi : dict) :
  entry l k v -> DatLoader.header_line l hi = dict_set hi k v.
Proof.
  intros [f2 f3 Hn | k0 v0 H1 H2 H3 H4 Hk].
  - apply header_line_info; exact Hn.
  - apply header_line_bare; assumption.
Qed.

Lemma entry_functional (l k v k' v' : str) :
  entry l k v -> entry l k' v' -> k = k' /\ v = v'.
Proof.
  intros H H'.
  pose proof (entry_header_line l k v [] H) as E.
  rewrite (entry_header_line l k' v' [] H') in E.
  simpl in E. injection E as -> ->. split; reflexivity.
Qed.

(** A line either is of one of the two shapes or leaves the mapping. *)
Lemma header_line_cases (l : str) :
  (exists k v, entry l k v)
  \/ (forall hi, DatLoader.header_line l hi = hi).
Proof.
  destruct (startswith l (lit "INFO,")) eqn:Hinfo.
  - apply startswith_Prefix in Hinfo. destruct Hinfo as [t ->].
    destruct (mem comma t) eqn:Hc.
    + apply mem_In in Hc. destruct (In_first _ _ Hc) as (f2 & f3 & -> & Hn).
      left. exists (strip f2), (strip f3). constructor; exact Hn.
    + apply mem_not_In in Hc. right. intros hi.
      apply header_line_info_short; exact Hc.
  - apply startswith_not_Prefix in Hinfo.
    destruct (startswith l (lit ";")) eqn:H2;
      [right; intros hi; apply header_line_other;
       [exact Hinfo | left; apply startswith_Prefix; exact H2] |].
    destruct (mem comma l) eqn:Hc;
      [| right; intros hi; apply header_line_other;
         [exact Hinfo | right; left; apply mem_not_In; exact Hc]].
    destruct (mem equals l) eqn:H3;
      [right; intros hi; apply header_line_other;
       [exact Hinfo | right; right; left; apply mem_In; exact H3] |].
    destruct (startswith l (lit "[")) eqn:H4;
      [right; intros hi; apply header_line_other;
       [exact Hinfo | right; right; right; apply startswith_Prefix; exact H4] |].
    apply mem_In in Hc. destruct (In_first _ _ Hc) as (k & v & -> & Hk).
    left. exists (strip k), (strip v).
    apply startswith_not_Prefix in H2, H4. apply mem_not_In in H3.
    constructor; assumption.
Qed.


Lemma header_line_keeps_value (l k : str) (hi : dict) :
  (forall v, ~ entry l k v) ->
  dict_get (DatLoader.header_line l hi) k = dict_get hi k.
Proof.
  intros Hno. destruct (header_line_cases l) as [(k' & v' & He) | Hsame].
  - rewrite (entry_header_line _ _ _ _ He).
    apply dict_get_set_other. intros ->. exact (Hno v' He).
  - rewrite Hsame. reflexivity.
Qed.

Lemma headers_from_app (hi : dict) (a b : list str) :
  headers_from hi (a ++ b) = headers_from (headers_from hi a) b.
Proof. unfold headers_from. apply fold_left_app. Qed.


Lemma headers_from_keeps_value (pre : list str) (k : str) (hi : dict) :
  (forall l v, In l pre -> ~ entry (rstrip_chars newline_chars l) k v) ->
  dict_get (headers_from hi pre) k = dict_get hi k.
Proof.
  revert hi; induction pre as [|l pre IH]; intros hi Hno; [reflexivity |].
  simpl. rewrite IH.
  - apply header_line_keeps_value. intros v. apply Hno. left; reflexivity.
  - intros l' v Hin. apply Hno. right; exact Hin.
Qed.


(** The value of a key is that of the last entry line of the key. *)
Lemma headers_from_last (a b : list str) (l k v : str) (hi : dict) :
  entry (rstrip_chars newline_chars l) k v ->
  (forall l' v', In l' b -> ~ entry (rstrip_chars newline_chars l') k v') ->
  dict_get (headers_from hi (a ++ l :: b)) k = Some v.
Proof.
  intros He Hno. rewrite headers_from_app. simpl.
  rewrite (headers_from_keeps_value _ _ _ Hno).
  rewrite (entry_header_line _ _ _ _ He). apply dict_get_set_same.
Qed.


Lemma data_block_header (header : str) (rows : list str) :
  Prefix (rstrip_chars newline_chars header) (data_block (header :: rows)).
Proof.
  unfold data_block. destruct rows as [|r rows]; simpl.
  - exists []. symmetry. apply app_nil_r.
  - eexists. reflexivity.
Qed.

Ltac no_marker_in :=
  let l := fresh "l" in
  let H := fresh "H" in
  let E := fresh "E" in
  intros l H; repeat (destruct H as [<- | H]; [intros E; vm_compute in E; discriminate |]);
  destruct H.









(** ** [load_dat] *)

Lemma candidates_truthy (c : str) :
  In c DatLoader.candidates -> truthy (Some c) = true.
Proof. intros [<- | [<- | [<- | []]]]; reflexivity. Qed.

Lemma get_moment_column_found (df : DataFrame cell) (c : str) :
  DatLoader.get_moment_column df = Some c ->
  truthy (Some c) = true /\ exists values, lookup df c = Some values.
Proof.
  intros H. apply first_moment_some in H.
  destruct H as (before & after & E & (values & Hl & _) & _). split.
  - apply candidates_truthy. rewrite E. apply in_or_app. right. left.
    reflexivity.
  - exists values. exact Hl.
Qed.

(** C10, as the code has it. When the selector finds no column,
    [load_dat] returns the parsed table.  When it finds one, the result
    has a column [Moment] with the values of the selected column and
    every column of another name as it was: the table with one column
    added at its end when it had no column [Moment], and the table with
    the values of its column [Moment] replaced when it had one. *)
Theorem C10_load_dat {Pf : Platform} :
  forall (filepath : str + Path) (df : DataFrame cell) (hi : dict),
    DatLoader.parse_mpms_dat filepath = Ok (df, hi) ->
    match DatLoader.get_moment_column df with
    | None => DatLoader.load_dat filepath = Ok df
    | Some c =>
        exists values df',
          lookup df c = Some values
          /\ DatLoader.load_dat filepath = Ok df'
          /\ lookup df' (lit "Moment") = Some values
          /\ (forall c', c' <> lit "Moment" -> lookup df' c' = lookup df c')
          /\ (has_column df (lit "Moment") = false ->
              df' = df ++ [(lit "Moment", values)])
          /\ (has_column df (lit "Moment") = true ->
              columns df' = columns df)
    end.
Proof.
  intros filepath df hi Hparse.
  unfold DatLoader.load_dat. rewrite Hparse. simpl bind.
  destruct (DatLoader.get_moment_column df) as [c|] eqn:Hsel;
    [| reflexivity].
  destruct (get_moment_column_found _ _ Hsel) as (Ht & values & Hl).
  exists values, (assign df (lit "Moment") values).
  split; [exact Hl |]. split.
  - rewrite Ht. unfold getitem. rewrite Hl. reflexivity.
  - unfold assign. split; [apply lookup_setitem_same |].
    split; [intros c' Hc'; apply lookup_setitem_other; exact Hc' |].
    split; [apply setitem_absent | apply columns_setitem_present].
Qed.

(** A witness of C10 on the sample file: [Moment] is added at the end. *)
Lemma C10_load_dat_witness :
  exists df',
    DatLoader.load_dat (Pf := Examples.platform) (inr Examples.sample)
    = Ok df'
    /\ df' = [ (lit "Magnetic Field (Oe)", [Int64 100; Int64 200]);
               (lit "Moment (emu)", [float_of_Z 5; NaN]);
               (lit "Moment", [float_of_Z 5; NaN]) ].
Proof.
  pose proof (C10_load_dat (Pf := Examples.platform) (inr Examples.sample)
                [ (lit "Magnetic Field (Oe)", [Int64 100; Int64 200]);
                  (lit "Moment (emu)", [float_of_Z 5; NaN]) ]
                [ (lit "TITLE", lit "run 1"); (lit "7.7", lit "SAMPLE_MASS");
                  (lit "DATATYPE", lit "TIME,2") ]
                eq_refl) as H.
  change (DatLoader.get_moment_column _) with (Some (lit "Moment (emu)")) in H.
  destruct H as (values & df' & Hl & Hload & _ & _ & Hadd & _).
  exists df'. split; [exact Hload |].
  injection Hl as <-. apply Hadd. reflexivity.
Defined.

(** C10 as stated fails on a table that has a column [Moment] already:
    the selector finds Moment (emu), no column is added, and the values
    of the original column [Moment] are replaced. *)
Lemma C10_counterexample :
  DatLoader.parse_mpms_dat (Pf := Examples.platform) (inr Examples.clash)
  = Ok ([ (lit "Moment (emu)", [Int64 1]); (lit "Moment", [Int64 2]) ], [])
  /\ DatLoader.get_moment_column
       [ (lit "Moment (emu)", [Int64 1]); (lit "Moment", [Int64 2]) ]
     = Some (lit "Moment (emu)")
  /\ DatLoader.load_dat (Pf := Examples.platform) (inr Examples.clash)
     = Ok [ (lit "Moment (emu)", [Int64 1]); (lit "Moment", [Int64 1]) ].
Proof. repeat split. Qed.

(** ** Plotting *)

Lemma finite_pairs_kept (x y : list cell) :
  length x = length y ->
  DatLoader.finite_pairs x y
  = (List.map fst (kept_pairs x y), List.map snd (kept_pairs x y)).
Proof.
  unfold DatLoader.finite_pairs, kept_pairs, mask_and.
  revert y; induction x as [|a x IH]; intros [|b y] Hlen;
    try discriminate; [reflexivity |].
  injection Hlen as Hlen. specialize (IH y Hlen).
  injection IH as IHx IHy. simpl.
  replace (both_finite (a, b)) with (isfinite a && isfinite b)
    by reflexivity.
  destruct (isfinite a && isfinite b); simpl; rewrite IHx, IHy; reflexivity.
Qed.

Lemma getitem_has_column (df : DataFrame cell) (c : str) (x : list cell) :
  getitem df c = Ok x -> has_column df c = true.
Proof.
  unfold getitem. intros H. apply has_column_true.
  destruct (lookup df c) as [v|]; [exists v; reflexivity | discriminate].
Qed.

Lemma getitem_absent (df : DataFrame cell) (c : str) :
  has_column df c = false -> getitem df c = Raise (KeyError c).
Proof.
  intros H. apply has_column_false in H. unfold getitem. rewrite H.
  reflexivity.
Qed.

Lemma plotted_after_field (ax : Plt.Axes) (l0 : Plt.Line2D)
    (title : option str) (label : option str) :
  Plt.plotted
    (let ax := Plt.plot ax l0 in
     let ax := Plt.set_xlabel ax (lit "Magnetic Field (Oe)") in
     let ax := Plt.set_ylabel ax (lit "Moment (emu)") in
     let ax := if truthy title
               then match title with Some t => Plt.set_title ax t | None => ax end
               else ax in
     let ax := Plt.axhline ax 0 in
     let ax := Plt.axvline ax 0 in
     let ax := Plt.set_grid ax in
     if truthy label then Plt.set_legend ax else ax)
  = Plt.plotted ax ++ [l0].
Proof.
  destruct title as [[|? ?]|], label as [[|? ?]|]; reflexivity.
Qed.

Lemma plotted_after_temperature (ax : Plt.Axes) (l0 : Plt.Line2D)
    (title : option str) :
  Plt.plotted
    (let ax := Plt.plot ax l0 in
     let ax := Plt.set_xlabel ax (lit "Temperature (K)") in
     let ax := Plt.set_ylabel ax (lit "Moment (emu)") in
     let ax := if truthy title
               then match title with Some t => Plt.set_title ax t | None => ax end
               else ax in
     Plt.set_grid ax)
  = Plt.plotted ax ++ [l0].
Proof.
  destruct title as [[|? ?]|]; reflexivity.
Qed.

Section Plotting.
Context {Pf : Platform}.

(** What [plot_moment_vs_field] does once both columns are at hand. *)
Lemma plot_moment_vs_field_pairs (df : DataFrame cell)
    (moment_col : option str) (field_col : str) (title : option str)
    (ax : option Plt.Axes) (label : option str) (x y : list cell) :
  getitem df field_col = Ok x ->
  getitem df (DatLoader.field_moment_col df moment_col) = Ok y ->
  length x = length y ->
  match kept_pairs x y with
  | [] =>
      DatLoader.plot_moment_vs_field df moment_col field_col title ax label
      = Raise (ValueError (lit "No finite (field, moment) pairs to plot."))
  | _ :: _ =>
      exists ax' l0,
        DatLoader.plot_moment_vs_field df moment_col field_col title ax label
        = Ok ax'
        /\ Plt.plotted ax'
           = Plt.plotted (match ax with None => Plt.subplots | Some a => a end)
             ++ [l0]
        /\ Plt.xdata l0 = List.map fst (kept_pairs x y)
        /\ Plt.ydata l0 = List.map snd (kept_pairs x y)
  end.
Proof.
  intros Hx Hy Hlen. unfold DatLoader.plot_moment_vs_field.
  rewrite (getitem_has_column _ _ _ Hx). cbv zeta. simpl negb. cbv iota.
  rewrite Hx, Hy. simpl bind.
  pose proof (finite_pairs_kept _ _ Hlen) as E.
  unfold DatLoader.finite_pairs in E. injection E as -> ->.
  destruct (kept_pairs x y) as [|p kept]; [reflexivity |].
  simpl (length _ =? 0). cbv iota.
  eexists. eexists. split; [reflexivity |].
  split; [apply plotted_after_field | split; reflexivity].
Qed.

Lemma plot_moment_vs_temperature_pairs (df : DataFrame cell)
    (moment_col : option str) (temp_col : str) (title : option str)
    (ax : option Plt.Axes) (x y : list cell) :
  getitem df temp_col = Ok x ->
  getitem df (DatLoader.temperature_moment_col df moment_col) = Ok y ->
  length x = length y ->
  match kept_pairs x y with
  | [] =>
      DatLoader.plot_moment_vs_temperature df moment_col temp_col title ax
      = Raise (ValueError
                 (lit "No finite (temperature, moment) pairs to plot."))
  | _ :: _ =>
      exists ax' l0,
        DatLoader.plot_moment_vs_temperature df moment_col temp_col title ax
        = Ok ax'
        /\ Plt.plotted ax'
           = Plt.plotted (match ax with None => Plt.subplots | Some a => a end)
             ++ [l0]
        /\ Plt.xdata l0 = List.map fst (kept_pairs x y)
        /\ Plt.ydata l0 = List.map snd (kept_pairs x y)
  end.
Proof.
  intros Hx Hy Hlen. unfold DatLoader.plot_moment_vs_temperature.
  rewrite (getitem_has_column _ _ _ Hx). cbv zeta. simpl negb. cbv iota.
  rewrite Hx, Hy. simpl bind.
  pose proof (finite_pairs_kept _ _ Hlen) as E.
  unfold DatLoader.finite_pairs in E. injection E as -> ->.
  destruct (kept_pairs x y) as [|p kept]; [reflexivity |].
  simpl (length _ =? 0). cbv iota.
  eexists. eexists. split; [reflexivity |].
  split; [apply plotted_after_temperature | split; reflexivity].
Qed.

End Plotting.

Lemma In_combine_index {A B} (x : list A) (y : list B) (a : A) (b : B) :
  In (a, b) (combine x y)
  <-> exists i, nth_error x i = Some a /\ nth_error y i = Some b.
Proof.
  revert y; induction x as [|a0 x IH]; intros [|b0 y]; simpl.
  - split; [tauto | intros ([|i] & H & _); discriminate].
  - split; [tauto | intros ([|i] & H & _); discriminate].
  - split; [tauto | intros ([|i] & _ & H); discriminate].
  - rewrite IH. split.
    + intros [E | (i & Hx & Hy)].
      * injection E as -> ->. exists 0. split; reflexivity.
      * exists (S i). split; assumption.
    + intros ([|i] & Hx & Hy); simpl in Hx, Hy.
      * left. congruence.
      * right. exists i. split; assumption.
Qed.

(** The kept pairs are the pairs of one index with both values finite. *)
Lemma kept_pairs_In (x y : list cell) (a b : cell) :
  In (a, b) (kept_pairs x y)
  <-> (exists i, nth_error x i = Some a /\ nth_error y i = Some b)
      /\ isfinite a = true /\ isfinite b = true.
Proof.
  unfold kept_pairs. rewrite filter_In, In_combine_index.
  unfold both_finite. simpl. rewrite andb_true_iff. reflexivity.
Qed.

Lemma rectangular_lookup (df : DataFrame cell) (n : nat) (c : str)
    (x : list cell) :
  rectangular n df = true -> getitem df c = Ok x -> length x = n.
Proof.
  unfold rectangular, getitem. intros Hrect Hx.
  destruct (lookup df c) as [v|] eqn:Hl; [| discriminate].
  injection Hx as ->.
  induction df as [|[c' v'] df IH]; simpl in *; [discriminate |].
  apply andb_true_iff in Hrect. destruct Hrect as [Hv Hrect].
  destruct (str_eqb c' c).
  - injection Hl as ->. apply Nat.eqb_eq. exact Hv.
  - apply IH; assumption.
Qed.

Lemma isfinite_false (c : cell) :
  isfinite c = false
  <-> c = NaN \/ exists s, c = Float64 (S754_infinity s).
Proof.
  destruct c as [z | [s | s | | s m e]]; simpl; split;
    try discriminate; try (intros [E | [s' E]]; discriminate).
  - intros _. right. exists s. reflexivity.
  - reflexivity.
  - intros _. left. reflexivity.
  - reflexivity.
Qed.

(** C5. For a table and the two axis columns a plotting function reads
    from it, the function draws exactly the pairs, by index and in order,
    whose two values are both finite, a value being dropped exactly when
    it is NaN or infinite, and raises exactly when no such pair is left. *)
Theorem C5_finite_pairs {Pf : Platform} :
  forall (df : DataFrame cell) (n : nat) (moment_col title : option str)
         (ax : option Plt.Axes),
    rectangular n df = true ->
    (forall c, isfinite c = false
               <-> c = NaN \/ exists s, c = Float64 (S754_infinity s))
    /\ (forall (field_col : str) (label : option str) (x y : list cell),
          getitem df field_col = Ok x ->
          getitem df (DatLoader.field_moment_col df moment_col) = Ok y ->
          let r := DatLoader.plot_moment_vs_field
                     df moment_col field_col title ax label in
          (forall a b,
             In (a, b) (kept_pairs x y)
             <-> (exists i, nth_error x i = Some a /\ nth_error y i = Some b)
                 /\ isfinite a = true /\ isfinite b = true)
          /\ ((exists e, r = Raise e) <-> kept_pairs x y = [])
          /\ (kept_pairs x y = [] ->
              r = Raise (ValueError
                           (lit "No finite (field, moment) pairs to plot.")))
          /\ (kept_pairs x y <> [] ->
              exists ax' l0,
                r = Ok ax'
                /\ Plt.plotted ax'
                   = Plt.plotted
                       (match ax with None => Plt.subplots | Some a => a end)
                     ++ [l0]
                /\ Plt.xdata l0 = List.map fst (kept_pairs x y)
                /\ Plt.ydata l0 = List.map snd (kept_pairs x y)))
    /\ (forall (temp_col : str) (x y : list cell),
          getitem df temp_col = Ok x ->
          getitem df (DatLoader.temperature_moment_col df moment_col) = Ok y ->
          let r := DatLoader.plot_moment_vs_temperature
                     df moment_col temp_col title ax in
          (forall a b,
             In (a, b) (kept_pairs x y)
             <-> (exists i, nth_error x i = Some a /\ nth_error y i = Some b)
                 /\ isfinite a = true /\ isfinite b = true)
          /\ ((exists e, r = Raise e) <-> kept_pairs x y = [])
          /\ (kept_pairs x y = [] ->
              r = Raise
                    (ValueError
                       (lit "No finite (temperature, moment) pairs to plot.")))
          /\ (kept_pairs x y <> [] ->
              exists ax' l0,
                r = Ok ax'
                /\ Plt.plotted ax'
                   = Plt.plotted
                       (match ax with None => Plt.subplots | Some a => a end)
                     ++ [l0]
                /\ Plt.xdata l0 = List.map fst (kept_pairs x y)
                /\ Plt.ydata l0 = List.map snd (kept_pairs x y))).
Proof.
  intros df n moment_col title ax Hrect.
  split; [exact isfinite_false | split].
  - intros field_col label x y Hx Hy r.
    assert (Hlen : length x = length y).
    { rewrite (rectangular_lookup _ _ _ _ Hrect Hx).
      symmetry. exact (rectangular_lookup _ _ _ _ Hrect Hy). }
    pose proof (plot_moment_vs_field_pairs df moment_col field_col title ax
                  label x y Hx Hy Hlen) as H.
    fold r in H. split; [intros a b; apply kept_pairs_In |].
    destruct (kept_pairs x y) as [|p kept].
    + split; [| split].
      * split; [reflexivity | intros _; eexists; exact H].
      * intros _. exact H.
      * intros Hne. exfalso. apply Hne. reflexivity.
    + destruct H as (ax' & l0 & Hr & Hrest). split; [| split].
      * split; [| discriminate]. intros [e He]. rewrite Hr in He.
        discriminate.
      * discriminate.
      * intros _. exists ax', l0. split; assumption.
  - intros temp_col x y Hx Hy r.
    assert (Hlen : length x = length y).
    { rewrite (rectangular_lookup _ _ _ _ Hrect Hx).
      symmetry. exact (rectangular_lookup _ _ _ _ Hrect Hy). }
    pose proof (plot_moment_vs_temperature_pairs df moment_col temp_col title
                  ax x y Hx Hy Hlen) as H.
    fold r in H. split; [intros a b; apply kept_pairs_In |].
    destruct (kept_pairs x y) as [|p kept].
    + split; [| split].
      * split; [reflexivity | intros _; eexists; exact H].
      * intros _. exact H.
      * intros Hne. exfalso. apply Hne. reflexivity.
    + destruct H as (ax' & l0 & Hr & Hrest). split; [| split].
      * split; [| discriminate]. intros [e He]. rewrite Hr in He.
        discriminate.
      * discriminate.
      * intros _. exists ax', l0. split; assumption.
Qed.

(** A witness of C5: of four rows, the one with a missing field value,
    the one with an infinite field value and the one with a missing
    moment are dropped, and the remaining row is drawn. *)
Lemma C5_finite_pairs_witness :
  rectangular 4 Examples.loaded = true
  /\ exists ax' l0,
       DatLoader.plot_moment_vs_field (Pf := Examples.platform)
         Examples.loaded None Examples.Field None None None
       = Ok ax'
       /\ Plt.plotted ax' = [l0]
       /\ Plt.xdata l0 = [float_of_Z 100]
       /\ Plt.ydata l0 = [float_of_Z 5].
Proof.
  split; [reflexivity |].
  destruct (C5_finite_pairs (Pf := Examples.platform) Examples.loaded 4 None
              None None eq_refl)
    as (_ & Hfield & _).
  destruct (Hfield Examples.Field None
              [ float_of_Z 100; NaN; Float64 (S754_infinity false);
                float_of_Z 400 ]
              [float_of_Z 5; float_of_Z 6; float_of_Z 7; NaN]
              eq_refl eq_refl)
    as (_ & _ & _ & Hkept).
  destruct Hkept as (ax' & l0 & Hr & Hp & Hx & Hy).
  - discriminate.
  - exists ax', l0. repeat split; assumption.
Defined.

Lemma field_moment_col_fallback (df : DataFrame cell) (c : str) :
  has_column df c = false -> has_column df (lit "Moment") = true ->
  DatLoader.field_moment_col df (Some c) = lit "Moment".
Proof.
  intros Hc Hm. unfold DatLoader.field_moment_col. rewrite Hc, Hm.
  reflexivity.
Qed.

Lemma field_moment_col_kept (df : DataFrame cell) (c : str) :
  has_column df c = false -> has_column df (lit "Moment") = false ->
  DatLoader.field_moment_col df (Some c) = c.
Proof.
  intros Hc Hm. unfold DatLoader.field_moment_col. rewrite Hc, Hm.
  reflexivity.
Qed.

Lemma field_moment_col_present (df : DataFrame cell) (c : str) :
  has_column df c = true -> DatLoader.field_moment_col df (Some c) = c.
Proof.
  intros Hc. unfold DatLoader.field_moment_col. rewrite Hc. reflexivity.
Qed.

(** C6, as the code has it. A missing field or temperature column makes
    the call raise [ValueError]; a missing moment column passed by the
    caller makes [plot_moment_vs_temperature] raise [KeyError], and makes
    [plot_moment_vs_field] raise [KeyError] when the table has no column
    [Moment]; when the table has one, [plot_moment_vs_field] plots that
    column in place of the missing one. *)
Theorem C6_missing_column {Pf : Platform} :
  forall (df : DataFrame cell) (title : option str) (ax : option Plt.Axes),
    (forall moment_col field_col label,
       has_column df field_col = false ->
       DatLoader.plot_moment_vs_field df moment_col field_col title ax label
       = Raise (ValueError
                  (lit "Column '" ++ field_col
                   ++ lit "' not in DataFrame. Available: "
                   ++ repr_list (columns df))))
    /\ (forall moment_col temp_col,
          has_column df temp_col = false ->
          DatLoader.plot_moment_vs_temperature df moment_col temp_col title ax
          = Raise (ValueError
                     (lit "Column '" ++ temp_col ++ lit "' not in DataFrame.")))
    /\ (forall c temp_col,
          has_column df temp_col = true -> has_column df c = false ->
          DatLoader.plot_moment_vs_temperature df (Some c) temp_col title ax
          = Raise (KeyError c))
    /\ (forall c field_col label,
          has_column df field_col = true -> has_column df c = false ->
          has_column df (lit "Moment") = false ->
          DatLoader.plot_moment_vs_field df (Some c) field_col title ax label
          = Raise (KeyError c))
    /\ (forall c field_col label,
          has_column df c = false -> has_column df (lit "Moment") = true ->
          DatLoader.plot_moment_vs_field df (Some c) field_col title ax label
          = DatLoader.plot_moment_vs_field df (Some (lit "Moment")) field_col
              title ax label).
Proof.
  intros df title ax. split; [| split; [| split; [| split]]].
  - intros moment_col field_col label Hf.
    unfold DatLoader.plot_moment_vs_field. rewrite Hf. reflexivity.
  - intros moment_col temp_col Ht.
    unfold DatLoader.plot_moment_vs_temperature. rewrite Ht. reflexivity.
  - intros c temp_col Ht Hc.
    unfold DatLoader.plot_moment_vs_temperature. rewrite Ht. cbv zeta.
    simpl negb. cbv iota.
    apply has_column_true in Ht. destruct Ht as [x Hx].
    unfold getitem at 1. rewrite Hx. simpl.
    rewrite (getitem_absent _ _ Hc). reflexivity.
  - intros c field_col label Hf Hc Hm.
    unfold DatLoader.plot_moment_vs_field. rewrite Hf. cbv zeta.
    simpl negb. cbv iota.
    apply has_column_true in Hf. destruct Hf as [x Hx].
    unfold getitem at 1. rewrite Hx. simpl bind.
    rewrite (field_moment_col_kept _ _ Hc Hm), (getitem_absent _ _ Hc).
    reflexivity.
  - intros c field_col label Hc Hm.
    unfold DatLoader.plot_moment_vs_field.
    rewrite (field_moment_col_fallback _ _ Hc Hm),
      (field_moment_col_present _ _ Hm).
    reflexivity.
Qed.

(** C6 as stated fails for [plot_moment_vs_field] on a table that has a
    column [Moment]: the moment column the caller asks for is absent, and
    the call draws the column [Moment] instead of raising. *)
Lemma C6_counterexample :
  has_column Examples.loaded Examples.Fixed = false
  /\ exists ax' l0,
       DatLoader.plot_moment_vs_field (Pf := Examples.platform)
         Examples.loaded (Some Examples.Fixed) Examples.Field None None None
       = Ok ax'
       /\ Plt.plotted ax' = [l0]
       /\ Plt.xdata l0 = [float_of_Z 100]
       /\ Plt.ydata l0 = [float_of_Z 5]
       /\ Plt.line_label l0 = Some (lit "Moment").
Proof.
  split; [reflexivity |].
  eexists. eexists. split; [vm_compute; reflexivity |].
  repeat split.
Qed.

(** ** The exporter *)

(** The sheets the exporter hands to the writer for a table and a
    mapping. *)
Lemma convert_dat_to_numbers_returns {Pf : Platform}
    (dat_path output_dir : Path) (df : DataFrame cell) (hi : dict) :
  DatToNumbers.parse_mpms_dat dat_path = Ok (df, hi) ->
  let output_path := joinpath output_dir (stem dat_path ++ lit ".xlsx") in
  let data := Excel.NumberSheet df in
  let metadata :=
    Excel.TextSheet [ (lit "Property", List.map fst hi);
                      (lit "Value", List.map snd hi) ] in
  let sheets :=
    match hi with
    | [] => [(lit "Data", data)]
    | _ :: _ => [(lit "Data", data); (lit "Metadata", metadata)]
    end in
  forall p wb,
    DatToNumbers.convert_dat_to_numbers dat_path output_dir = Ok (p, wb)
    <-> (excel_writer output_path = Ok tt
         /\ to_excel [] (lit "Data") data = Ok tt
         /\ (hi <> [] ->
             to_excel [(lit "Data", data)] (lit "Metadata") metadata = Ok tt)
         /\ excel_close output_path sheets = Ok tt)
        /\ p = output_path /\ wb = sheets.
Proof.
  intros Hparse output_path data metadata sheets p wb. unfold sheets.
  unfold DatToNumbers.convert_dat_to_numbers. rewrite Hparse. cbn [bind].
  fold output_path. unfold DatToNumbers.write_sheet, DatToNumbers.meta_frame,
    items. fold data.
  destruct (excel_writer output_path) as [[] | e0]; cbn [bind];
    [| split; [discriminate | intros [[H _] _]; discriminate]].
  destruct (to_excel [] (lit "Data") data) as [[] | e1].
  - cbn [app]. destruct hi as [|kv hi].
    + cbn [dict_truthy].
      destruct (excel_close output_path [(lit "Data", data)]) as [[] | e3];
        cbn [bind].
      * split.
        -- intros H. injection H as <- <-.
           repeat split; contradiction.
        -- intros (_ & -> & ->). reflexivity.
      * split; [discriminate | intros [(_ & _ & _ & H) _]; discriminate].
    + cbn [dict_truthy]. fold metadata.
      destruct (to_excel [(lit "Data", data)] (lit "Metadata") metadata)
        as [[] | e2].
      * cbn [app].
        destruct (excel_close output_path
                    [(lit "Data", data); (lit "Metadata", metadata)])
          as [[] | e3]; cbn [bind].
        -- split.
           ++ intros H. injection H as <- <-. repeat split.
           ++ intros (_ & -> & ->). reflexivity.
        -- split; [discriminate | intros [(_ & _ & _ & H) _]; discriminate].
      * split.
        -- destruct (excel_close output_path [(lit "Data", data)]);
             discriminate.
        -- intros [(_ & _ & H & _) _].
           assert (H' := H ltac:(discriminate)). discriminate.
  - split.
    + destruct (dict_truthy hi), (excel_close output_path []); discriminate.
    + intros [(_ & H & _) _]. discriminate.
Qed.

(** C7, as the code has it. For a parsed file whose writing raises
    nothing (opening the writer, writing each sheet, closing), the exporter
    writes one workbook, at the output directory under the stem of the
    input name with [.xlsx]: a sheet [Data] with the parsed table,
    followed, when the mapping is not empty, by a sheet [Metadata] with the
    columns [Property] and [Value] holding the keys and the values of the
    mapping in its order; with an empty mapping the workbook has the sheet
    [Data] alone.  The call returns in no other case: when one of the
    writer's calls raises, the call raises. *)
Theorem C7_workbook {Pf : Platform} :
  forall (dat_path output_dir : Path) (df : DataFrame cell) (hi : dict),
    DatToNumbers.parse_mpms_dat dat_path = Ok (df, hi) ->
    let output_path := joinpath output_dir (stem dat_path ++ lit ".xlsx") in
    let data := Excel.NumberSheet df in
    let metadata :=
      Excel.TextSheet [ (lit "Property", List.map fst hi);
                        (lit "Value", List.map snd hi) ] in
    let sheets :=
      match hi with
      | [] => [(lit "Data", data)]
      | _ :: _ => [(lit "Data", data); (lit "Metadata", metadata)]
      end in
    let writer_returns :=
      excel_writer output_path = Ok tt
      /\ to_excel [] (lit "Data") data = Ok tt
      /\ (hi <> [] ->
          to_excel [(lit "Data", data)] (lit "Metadata") metadata = Ok tt)
      /\ excel_close output_path sheets = Ok tt in
    (writer_returns ->
     DatToNumbers.convert_dat_to_numbers dat_path output_dir
     = Ok (output_path, sheets))
    /\ (forall p wb,
          DatToNumbers.convert_dat_to_numbers dat_path output_dir = Ok (p, wb) ->
          writer_returns /\ p = output_path /\ wb = sheets)
    /\ (~ writer_returns ->
        exists e,
          DatToNumbers.convert_dat_to_numbers dat_path output_dir = Raise e).
Proof.
  intros dat_path output_dir df hi Hparse output_path data metadata sheets
         writer_returns.
  pose proof (convert_dat_to_numbers_returns dat_path output_dir df hi Hparse)
    as Hiff.
  cbv zeta in Hiff. fold output_path data metadata sheets in Hiff.
  fold writer_returns in Hiff.
  split; [| split].
  - intros H. apply Hiff. repeat split; exact H || apply H.
  - intros p wb H. apply Hiff. exact H.
  - intros Hnot.
    destruct (DatToNumbers.convert_dat_to_numbers dat_path output_dir)
      as [[p wb] | e] eqn:E.
    + exfalso. apply Hnot. apply (proj1 (Hiff p wb)). reflexivity.
    + exists e. reflexivity.
Qed.

(** A witness of C7: the sample file gives two sheets. *)
Lemma C7_workbook_witness :
  exists df,
    DatToNumbers.convert_dat_to_numbers (Pf := Examples.platform)
      Examples.sample [lit "out"]
    = Ok ([lit "out"; lit "sample.xlsx"],
          [ (lit "Data", Excel.NumberSheet df);
            (lit "Metadata",
             Excel.TextSheet
               [ (lit "Property",
                  [lit "TITLE"; lit "7.7"; lit "DATATYPE"]);
                 (lit "Value",
                  [lit "run 1"; lit "SAMPLE_MASS"; lit "TIME,2"]) ]) ]).
Proof.
  eexists.
  apply (proj1 (C7_workbook (Pf := Examples.platform) Examples.sample
                  [lit "out"] _
                  [ (lit "TITLE", lit "run 1"); (lit "7.7", lit "SAMPLE_MASS");
                    (lit "DATATYPE", lit "TIME,2") ]
                  eq_refl)).
  split; [reflexivity | split; [reflexivity | split; [| reflexivity]]].
  intros _. reflexivity.
Defined.

(** C7 as stated fails on a file whose lines before the marker feed the
    mapping nothing: it parses, and its workbook has no sheet [Metadata].
    It fails also on a file with a control character in a header value: it
    parses, and the writer refuses the value, so that the call raises. *)
Lemma C7_counterexample :
  (DatToNumbers.parse_mpms_dat (Pf := Examples.platform) Examples.bare
   = Ok ([ (lit "a", [Int64 1]); (lit "b", [Int64 2]) ], [])
   /\ DatToNumbers.convert_dat_to_numbers (Pf := Examples.platform)
        Examples.bare [lit "out"]
      = Ok ([lit "out"; lit "bare.xlsx"],
            [ (lit "Data",
               Excel.NumberSheet
                 [ (lit "a", [Int64 1]); (lit "b", [Int64 2]) ]) ]))
  /\ (DatToNumbers.parse_mpms_dat (Pf := Examples.platform) Examples.control
      = Ok ([ (lit "a", [Int64 1]); (lit "b", [Int64 2]) ],
            [ (lit "TITLE", lit "run" ++ [1%N]) ])
      /\ DatToNumbers.convert_dat_to_numbers (Pf := Examples.platform)
           Examples.control [lit "out"]
         = Raise (LibraryError (lit "IllegalCharacterError")
                    (lit "run" ++ [1%N]
                     ++ lit " cannot be used in worksheets."))).
Proof. repeat split. Qed.

Section Batch.
Context {Pf : Platform}.
Variables (skip_rw : bool) (output_dir : Path).





End Batch.


(** The loop over a file without a marker and then a good file: one
    error, one conversion, and the good file is written. *)
Example batch_malformed_then_well_formed :
  exists t',
    DatToNumbers.convert_all (Pf := Examples.platform) false [lit "out"]
      DatToNumbers.start [Examples.no_marker; Examples.sample]
    = Ok t'
    /\ DatToNumbers.errors t' = 1
    /\ DatToNumbers.converted t' = 1
    /\ List.map fst (DatToNumbers.written t')
       = [[lit "out"; lit "sample.xlsx"]]
    /\ nth 0 (DatToNumbers.stdout t') []
       = lit "  Error converting no_marker.dat: No [Data] section found in no_marker.dat".
Proof.
  eexists. split; [vm_compute; reflexivity |]. repeat split.
Qed.

(** ** The overlay loop of the loader *)

Lemma try_except_returns {A} (body : result A) (handler : exn -> result A) :
  (forall e, exists a, handler e = Ok a) ->
  exists a, try_except body handler = Ok a.
Proof.
  intros Hh. destruct body as [a | e]; simpl; [exists a; reflexivity |].
  apply Hh.
Qed.

Lemma overlay_one_returns {Pf : Platform} (st : Plt.Axes * list str)
    (f : Path) :
  exists st', DatLoader.overlay_one st f = Ok st'.
Proof.
  destruct st as [ax stdout]. unfold DatLoader.overlay_one.
  apply try_except_returns. intros e. eexists. reflexivity.
Qed.

(** A file that fails leaves the Axes as they were and prints one line. *)
Lemma overlay_one_skips {Pf : Platform} (ax : Plt.Axes) (stdout : list str)
    (f : Path) (e : exn) :
  DatLoader.load_dat (inr f) = Raise e ->
  DatLoader.overlay_one (ax, stdout) f
  = Ok (ax, stdout ++ [lit "Skip " ++ name f ++ lit ": " ++ exn_str e]).
Proof.
  intros H. unfold DatLoader.overlay_one. rewrite H. reflexivity.
Qed.

Lemma overlay_all_returns {Pf : Platform} (dat_files : list Path) :
  forall st, exists st', DatLoader.overlay_all st dat_files = Ok st'.
Proof.
  induction dat_files as [|f files IH]; intros st; simpl.
  - exists st. reflexivity.
  - destruct (overlay_one_returns st f) as [st1 E]. rewrite E. simpl.
    apply IH.
Qed.

(** * Further properties of the two programs *)

(** ** Stripping *)

Lemma lstrip_chars_split (chars s : str) :
  exists p,
    s = p ++ lstrip_chars chars s
    /\ Forall (fun c => mem c chars = true) p
    /\ forall c t, lstrip_chars chars s = c :: t -> mem c chars = false.
Proof.
  induction s as [|c s (p & E & Hp & Hhead)]; simpl.
  - exists []. repeat split; [constructor | discriminate].
  - destruct (mem c chars) eqn:Hc.
    + exists (c :: p). split; [simpl; f_equal; exact E |].
      split; [constructor; assumption | exact Hhead].
    + exists []. split; [reflexivity | split; [constructor |]].
      intros c' t E'. injection E' as <- _. exact Hc.
Qed.

Lemma lstrip_chars_stop (chars p r : str) :
  Forall (fun c => mem c chars = true) p ->
  (forall c t, r = c :: t -> mem c chars = false) ->
  lstrip_chars chars (p ++ r) = r.
Proof.
  intros Hp Hr. induction Hp as [|c p Hc Hp IH]; simpl.
  - destruct r as [|c t]; [reflexivity |]. simpl.
    rewrite (Hr c t eq_refl). reflexivity.
  - rewrite Hc. exact IH.
Qed.

(** [rstrip] cuts a tail made of the given characters, and all of it. *)
Lemma rstrip_chars_split (chars s : str) :
  exists q,
    s = rstrip_chars chars s ++ q
    /\ Forall (fun c => mem c chars = true) q
    /\ forall t c, rstrip_chars chars s = t ++ [c] -> mem c chars = false.
Proof.
  unfold rstrip_chars.
  destruct (lstrip_chars_split chars (rev s)) as (p & E & Hp & Hhead).
  exists (rev p). split; [| split].
  - rewrite <- rev_app_distr, <- E. symmetry. apply rev_involutive.
  - apply Forall_rev. exact Hp.
  - intros t c Et. apply (Hhead c (rev t)).
    rewrite <- (rev_involutive (lstrip_chars chars (rev s))), Et.
    rewrite rev_app_distr. reflexivity.
Qed.

Lemma rstrip_chars_stop (chars r q : str) :
  Forall (fun c => mem c chars = true) q ->
  (forall t c, r = t ++ [c] -> mem c chars = false) ->
  rstrip_chars chars (r ++ q) = r.
Proof.
  intros Hq Hr. unfold rstrip_chars. rewrite rev_app_distr.
  rewrite lstrip_chars_stop.
  - apply rev_involutive.
  - apply Forall_rev. exact Hq.
  - intros c t E. apply (Hr (rev t) c).
    rewrite <- (rev_involutive r), E. reflexivity.
Qed.

Lemma lstrip_split (s : str) :
  exists p,
    s = p ++ lstrip s
    /\ forall c t, lstrip s = c :: t -> isspace c = false.
Proof.
  induction s as [|c s (p & E & Hhead)]; simpl.
  - exists []. split; [reflexivity | discriminate].
  - destruct (isspace c) eqn:Hc.
    + exists (c :: p). split; [simpl; f_equal; exact E | exact Hhead].
    + exists []. split; [reflexivity |].
      intros c' t E'. injection E' as <- _. exact Hc.
Qed.

Lemma rstrip_last (s t : str) (c : char) :
  rstrip s = t ++ [c] -> isspace c = false.
Proof.
  unfold rstrip. intros E.
  destruct (lstrip_split (rev s)) as (p & _ & Hhead).
  apply (Hhead c (rev t)).
  rewrite <- (rev_involutive (lstrip (rev s))), E, rev_app_distr.
  reflexivity.
Qed.

(** What [strip] returns begins and ends with no white space. *)
Lemma strip_stripped (s : str) : stripped (strip s).
Proof.
  unfold stripped, strip.
  destruct (lstrip_split (rstrip s)) as (p & E & Hhead).
  split; [exact Hhead |].
  intros t c Et. apply (rstrip_last s (p ++ t) c).
  rewrite E at 1. rewrite Et. apply app_assoc.
Qed.

(** ** The mapping as a dict *)

Lemma dict_set_In (d : dict) (k v : str) (p : str * str) :
  In p (dict_set d k v) -> In p d \/ p = (k, v).
Proof.
  induction d as [|[k' v'] d IH]; simpl.
  - intros [<- | []]. right. reflexivity.
  - destruct (str_eqb k' k) eqn:E; simpl.
    + apply str_eqb_eq in E. subst k'.
      intros [<- | H]; [right; reflexivity | left; right; exact H].
    + intros [<- | H]; [left; left; reflexivity |].
      destruct (IH H) as [H' | H']; [left; right; exact H' | right; exact H'].
Qed.

Lemma dict_get_none_keys (d : dict) (k : str) :
  dict_get d k = None <-> ~ In k (List.map fst d).
Proof.
  induction d as [|[k' v'] d IH]; simpl.
  - split; [intros _ [] | reflexivity].
  - destruct (str_eqb k' k) eqn:E.
    + apply str_eqb_eq in E. split; [discriminate |].
      intros H. exfalso. apply H. left. exact E.
    + apply str_eqb_neq in E. rewrite IH. split.
      * intros H [H' | H']; auto.
      * intros H H'. apply H. right. exact H'.
Qed.

Lemma dict_set_keys (d : dict) (k v : str) :
  List.map fst (dict_set d k v)
  = match dict_get d k with
    | Some _ => List.map fst d
    | None => List.map fst d ++ [k]
    end.
Proof.
  induction d as [|[k' v'] d IH]; simpl; [reflexivity |].
  destruct (str_eqb k' k) eqn:E; simpl; [reflexivity |].
  rewrite IH. destruct (dict_get d k); reflexivity.
Qed.

Lemma dict_set_NoDup (d : dict) (k v : str) :
  NoDup (List.map fst d) -> NoDup (List.map fst (dict_set d k v)).
Proof.
  intros Hd. rewrite dict_set_keys.
  destruct (dict_get d k) eqn:E; [exact Hd |].
  apply dict_get_none_keys in E.
  apply NoDup_rev in Hd. rewrite <- (rev_involutive (_ ++ [k])).
  apply NoDup_rev. rewrite rev_app_distr. simpl.
  constructor; [| exact Hd].
  intros H. apply E. apply in_rev. exact H.
Qed.

Lemma dict_get_In (d : dict) (k v : str) :
  NoDup (List.map fst d) -> (dict_get d k = Some v <-> In (k, v) d).
Proof.
  induction d as [|[k' v'] d IH]; simpl; intros Hd.
  - split; [discriminate | intros []].
  - inversion Hd as [|? ? Hk' Hd']; subst.
    destruct (str_eqb k' k) eqn:E.
    + apply str_eqb_eq in E. subst k'. split.
      * intros H. injection H as ->. left. reflexivity.
      * intros [H | H]; [injection H as ->; reflexivity |].
        exfalso. apply Hk'. apply (in_map fst) in H. exact H.
    + apply str_eqb_neq in E. rewrite (IH Hd'). split.
      * intros H. right. exact H.
      * intros [H | H]; [injection H as -> _; contradiction | exact H].
Qed.

(** What holds of the pairs the lines can store holds of the mapping. *)
Lemma headers_from_Forall (Q : str * str -> Prop) (pre : list str) :
  (forall l k v, entry l k v -> Q (k, v)) ->
  forall hi, Forall Q hi -> Forall Q (headers_from hi pre).
Proof.
  intros HQ. induction pre as [|l pre IH]; intros hi Hhi; [exact Hhi |].
  simpl. apply IH.
  destruct (header_line_cases (rstrip_chars newline_chars l))
    as [(k & v & He) | Hsame].
  - rewrite (entry_header_line _ _ _ _ He).
    apply Forall_forall. intros p Hp.
    destruct (dict_set_In _ _ _ _ Hp) as [H | ->].
    + exact (proj1 (Forall_forall Q hi) Hhi p H).
    + exact (HQ _ _ _ He).
  - rewrite Hsame. exact Hhi.
Qed.

Lemma headers_from_NoDup (pre : list str) :
  forall hi, NoDup (List.map fst hi) ->
             NoDup (List.map fst (headers_from hi pre)).
Proof.
  induction pre as [|l pre IH]; intros hi Hhi; [exact Hhi |].
  simpl. apply IH.
  destruct (header_line_cases (rstrip_chars newline_chars l))
    as [(k & v & He) | Hsame].
  - rewrite (entry_header_line _ _ _ _ He). apply dict_set_NoDup. exact Hhi.
  - rewrite Hsame. exact Hhi.
Qed.

Lemma entry_stripped (l k v : str) :
  entry l k v -> stripped k /\ stripped v.
Proof.
  intros [f2 f3 _ | k0 v0 _ _ _ _ _]; split; apply strip_stripped.
Qed.

Lemma no_entry_fixed (l k : str) :
  (forall hi, DatLoader.header_line l hi = hi) -> forall v, ~ entry l k v.
Proof.
  intros Hsame v He.
  pose proof (entry_header_line l k v [] He) as E.
  rewrite Hsame in E. discriminate.
Qed.

(** The value under a key is that of the last entry line of the key, and
    the mapping has no other key than those of the entry lines. *)
Lemma headers_from_get (pre : list str) (k v : str) :
  dict_get (headers_from [] pre) k = Some v
  <-> exists a l b,
        pre = a ++ l :: b
        /\ entry (rstrip_chars newline_chars l) k v
        /\ forall l' v',
             In l' b -> ~ entry (rstrip_chars newline_chars l') k v'.
Proof.
  split.
  - induction pre as [|l pre IH] using rev_ind; [discriminate |].
    rewrite headers_from_app. simpl. intros H.
    destruct (header_line_cases (rstrip_chars newline_chars l))
      as [(k' & v' & He) | Hsame].
    + rewrite (entry_header_line _ _ _ _ He) in H.
      destruct (list_eq_dec N.eq_dec k k') as [-> | Hne].
      * rewrite dict_get_set_same in H. injection H as ->.
        exists pre, l, []. split; [reflexivity | split; [exact He |]].
        intros l' v'' [].
      * rewrite (dict_get_set_other _ _ _ _ Hne) in H.
        destruct (IH H) as (a & l0 & b & -> & He0 & Hb).
        exists a, l0, (b ++ [l]). split; [| split; [exact He0 |]].
        -- rewrite <- app_assoc. reflexivity.
        -- intros l' v'' Hin He'. apply in_app_or in Hin.
           destruct Hin as [Hin | [<- | []]]; [exact (Hb _ _ Hin He') |].
           apply Hne. exact (proj1 (entry_functional _ _ _ _ _ He' He)).
    + rewrite Hsame in H.
      destruct (IH H) as (a & l0 & b & -> & He0 & Hb).
      exists a, l0, (b ++ [l]). split; [| split; [exact He0 |]].
      * rewrite <- app_assoc. reflexivity.
      * intros l' v'' Hin He'. apply in_app_or in Hin.
        destruct Hin as [Hin | [<- | []]]; [exact (Hb _ _ Hin He') |].
        exact (no_entry_fixed _ k Hsame v'' He').
  - intros (a & l & b & -> & He & Hb). apply headers_from_last; assumption.
Qed.

(** ** A parse that returns *)

Lemma marker_or_not (lines : list str) :
  (forall l, In l lines -> ~ is_marker l)
  \/ (exists l, In l lines /\ is_marker l).
Proof.
  induction lines as [|x lines [IH | (l & Hin & Hm)]].
  - left. intros l [].
  - destruct (is_marker_dec x) as [Hx | Hx].
    + right. exists x. split; [left; reflexivity | exact Hx].
    + left. intros l [<- | Hin]; auto.
  - right. exists l. split; [right; exact Hin | exact Hm].
Qed.

Section ParseReturns.
Context {Pf : Platform}.

Lemma parse_lines_ok_inv (filepath : Path) (lines : list str)
    (df : DataFrame cell) (hi : dict) :
  DatLoader.parse_lines filepath lines = Ok (df, hi) ->
  exists pre m rows df0,
    lines = pre ++ m :: rows
    /\ (forall l, In l pre -> ~ is_marker l)
    /\ is_marker m
    /\ read_csv (data_block rows) = Ok df0
    /\ df = DatLoader.coerce_numeric df0
    /\ hi = headers_from [] pre.
Proof.
  intros H. destruct (marker_or_not lines) as [Hno | Hex].
  - rewrite (parse_lines_no_marker _ _ Hno) in H. discriminate.
  - destruct (first_marker _ Hex) as (pre & m & rows & -> & Hm & Hpre).
    rewrite (parse_lines_marker _ _ _ _ Hpre Hm) in H.
    destruct (read_csv (data_block rows)) as [df0 | e] eqn:Hcsv;
      [| discriminate].
    simpl in H. injection H as <- <-.
    exists pre, m, rows, df0. repeat split; assumption.
Qed.

(** Either parser, on a path. *)
Lemma parse_either (parse : Path -> result (DataFrame cell * dict))
    (filepath : Path) :
  In parse [ fun p => DatLoader.parse_mpms_dat (inr p);
             DatToNumbers.parse_mpms_dat ] ->
  parse filepath
  = (lines <- readlines filepath ;; DatLoader.parse_lines filepath lines).
Proof.
  intros [<- | [<- | []]].
  - reflexivity.
  - unfold DatToNumbers.parse_mpms_dat.
    destruct (readlines filepath) as [lines | e]; simpl; [| reflexivity].
    apply parse_lines_same.
Qed.

Lemma parse_either_ok_inv (parse : Path -> result (DataFrame cell * dict))
    (filepath : Path) (df : DataFrame cell) (hi : dict) :
  In parse [ fun p => DatLoader.parse_mpms_dat (inr p);
             DatToNumbers.parse_mpms_dat ] ->
  parse filepath = Ok (df, hi) ->
  exists pre m rows df0,
    readlines filepath = Ok (pre ++ m :: rows)
    /\ (forall l, In l pre -> ~ is_marker l)
    /\ is_marker m
    /\ read_csv (data_block rows) = Ok df0
    /\ df = DatLoader.coerce_numeric df0
    /\ hi = headers_from [] pre.
Proof.
  intros Hparse H. rewrite (parse_either _ _ Hparse) in H.
  destruct (readlines filepath) as [lines | e]; [| discriminate].
  simpl in H.
  destruct (parse_lines_ok_inv _ _ _ _ H)
    as (pre & m & rows & df0 & -> & Hrest).
  exists pre, m, rows, df0. split; [reflexivity | exact Hrest].
Qed.

End ParseReturns.

(** ** The mapping of a parsed file *)

(** X1. When either parser returns, the file has a first marker line, and
    the mapping holds exactly the entries of the lines before it: a key has
    a value if and only if some line before the marker is an entry line of
    that key and value and no later line before the marker is an entry
    line of that key. *)
Theorem header_info_exact {Pf : Platform} :
  forall parse,
    In parse [ fun p => DatLoader.parse_mpms_dat (inr p);
               DatToNumbers.parse_mpms_dat ] ->
    forall (filepath : Path) (df : DataFrame cell) (hi : dict),
      parse filepath = Ok (df, hi) ->
      exists pre m rows,
        readlines filepath = Ok (pre ++ m :: rows)
        /\ is_marker m
        /\ (forall l, In l pre -> ~ is_marker l)
        /\ forall k v,
             dict_get hi k = Some v
             <-> exists a l b,
                   pre = a ++ l :: b
                   /\ entry (rstrip_chars newline_chars l) k v
                   /\ forall l' v',
                        In l' b ->
                        ~ entry (rstrip_chars newline_chars l') k v'.
Proof.
  intros parse Hparse filepath df hi H.
  destruct (parse_either_ok_inv _ _ _ _ Hparse H)
    as (pre & m & rows & df0 & Hread & Hpre & Hm & _ & _ & ->).
  exists pre, m, rows. repeat (split; [assumption |]).
  intros k v. apply headers_from_get.
Qed.

Lemma header_info_exact_witness :
  exists pre m rows,
    @readlines Examples.platform Examples.sample = Ok (pre ++ m :: rows)
    /\ is_marker m
    /\ (forall l, In l pre -> ~ is_marker l)
    /\ forall k v,
         dict_get [ (lit "TITLE", lit "run 1"); (lit "7.7", lit "SAMPLE_MASS");
                    (lit "DATATYPE", lit "TIME,2") ] k = Some v
         <-> exists a l b,
               pre = a ++ l :: b
               /\ entry (rstrip_chars newline_chars l) k v
               /\ forall l' v',
                    In l' b -> ~ entry (rstrip_chars newline_chars l') k v'.
Proof.
  exact (header_info_exact (Pf := Examples.platform) _ (or_introl eq_refl)
           Examples.sample
           [ (lit "Magnetic Field (Oe)", [Int64 100; Int64 200]);
             (lit "Moment (emu)", [float_of_Z 5; NaN]) ]
           _ eq_refl).
Defined.

(** X2. Every key and every value of the mapping either parser returns
    begins and ends with no white space, and no key occurs twice. *)
Theorem header_info_stripped {Pf : Platform} :
  forall parse,
    In parse [ fun p => DatLoader.parse_mpms_dat (inr p);
               DatToNumbers.parse_mpms_dat ] ->
    forall (filepath : Path) (df : DataFrame cell) (hi : dict),
      parse filepath = Ok (df, hi) ->
      NoDup (List.map fst hi)
      /\ forall k v, In (k, v) hi -> stripped k /\ stripped v.
Proof.
  intros parse Hparse filepath df hi H.
  destruct (parse_either_ok_inv _ _ _ _ Hparse H)
    as (pre & m & rows & df0 & _ & _ & _ & _ & _ & ->).
  split.
  - apply headers_from_NoDup. constructor.
  - intros k v Hin.
    assert (HF : Forall (fun p => stripped (fst p) /\ stripped (snd p))
                        (headers_from [] pre)).
    { apply headers_from_Forall; [| constructor].
      intros l k' v' He. exact (entry_stripped _ _ _ He). }
    exact (proj1 (Forall_forall _ _) HF (k, v) Hin).
Qed.

Lemma header_info_stripped_witness :
  NoDup [lit "TITLE"; lit "7.7"; lit "DATATYPE"]
  /\ stripped (lit "run 1").
Proof.
  destruct (header_info_stripped (Pf := Examples.platform) _
              (or_intror (or_introl eq_refl)) Examples.sample
              [ (lit "Magnetic Field (Oe)", [Int64 100; Int64 200]);
                (lit "Moment (emu)", [float_of_Z 5; NaN]) ]
              [ (lit "TITLE", lit "run 1"); (lit "7.7", lit "SAMPLE_MASS");
                (lit "DATATYPE", lit "TIME,2") ]
              eq_refl) as [Hnd Hs].
  split; [exact Hnd |].
  exact (proj2 (Hs (lit "TITLE") (lit "run 1") (or_introl eq_refl))).
Defined.

Lemma headers_from_line_ends (pre1 pre2 : list str) :
  List.map (rstrip_chars newline_chars) pre1
  = List.map (rstrip_chars newline_chars) pre2 ->
  forall hi, headers_from hi pre1 = headers_from hi pre2.
Proof.
  revert pre2; induction pre1 as [|l1 pre1 IH]; intros [|l2 pre2] E hi;
    try discriminate; [reflexivity |].
  simpl in E. injection E as E1 E2. simpl. rewrite E1. apply IH. exact E2.
Qed.

(** X3. The table depends on nothing but the lines after the first marker
    and the mapping on nothing but the lines before it, each line taken
    without its line end: two files with the same lines after their
    markers give the same table or the same exception, and two files with
    the same lines before their markers give the same mapping. *)
Theorem parse_sections_independent {Pf : Platform} :
  forall parse,
    In parse [ fun p => DatLoader.parse_mpms_dat (inr p);
               DatToNumbers.parse_mpms_dat ] ->
    forall (f1 f2 : Path) (pre1 pre2 : list str) (m1 m2 : str)
           (rows1 rows2 : list str),
      readlines f1 = Ok (pre1 ++ m1 :: rows1) ->
      readlines f2 = Ok (pre2 ++ m2 :: rows2) ->
      (forall l, In l pre1 -> ~ is_marker l) ->
      (forall l, In l pre2 -> ~ is_marker l) ->
      is_marker m1 -> is_marker m2 ->
      (List.map (rstrip_chars newline_chars) rows1
       = List.map (rstrip_chars newline_chars) rows2 ->
       (forall df,
          (exists hi, parse f1 = Ok (df, hi))
          <-> (exists hi, parse f2 = Ok (df, hi)))
       /\ (forall e, parse f1 = Raise e <-> parse f2 = Raise e))
      /\ (List.map (rstrip_chars newline_chars) pre1
          = List.map (rstrip_chars newline_chars) pre2 ->
          forall df1 hi1 df2 hi2,
            parse f1 = Ok (df1, hi1) -> parse f2 = Ok (df2, hi2) ->
            hi1 = hi2).
Proof.
  intros parse Hparse f1 f2 pre1 pre2 m1 m2 rows1 rows2 Hr1 Hr2 Hp1 Hp2
    Hm1 Hm2.
  assert (E1 : parse f1
               = (df <- read_csv (data_block rows1) ;;
                  Ok (DatLoader.coerce_numeric df, headers_from [] pre1))).
  { rewrite (parse_either _ _ Hparse), Hr1. simpl.
    apply parse_lines_marker; assumption. }
  assert (E2 : parse f2
               = (df <- read_csv (data_block rows2) ;;
                  Ok (DatLoader.coerce_numeric df, headers_from [] pre2))).
  { rewrite (parse_either _ _ Hparse), Hr2. simpl.
    apply parse_lines_marker; assumption. }
  rewrite E1, E2. clear E1 E2. split.
  - intros Erows. unfold data_block. rewrite Erows.
    destruct (read_csv
                (join [LF] (List.map (rstrip_chars newline_chars) rows2)))
      as [df0 | e0]; simpl; split.
    + intros df. split; intros [hi H]; injection H as <- _; eexists;
        reflexivity.
    + intros e. split; discriminate.
    + intros df. split; intros [hi H]; discriminate.
    + intros e. split; intros H; exact H.
  - intros Epre df1 hi1 df2 hi2 H1 H2.
    rewrite (headers_from_line_ends _ _ Epre) in H1.
    destruct (read_csv (data_block rows1)); [| discriminate].
    destruct (read_csv (data_block rows2)); [| discriminate].
    simpl in H1, H2. injection H1 as _ <-. injection H2 as _ <-.
    reflexivity.
Qed.

(** The sample file and its copy with other header lines and carriage
    returns give the same table. *)
Lemma parse_sections_independent_witness :
  exists df hi1 hi2,
    DatToNumbers.parse_mpms_dat (Pf := MoreExamples.platform) Examples.sample
    = Ok (df, hi1)
    /\ DatToNumbers.parse_mpms_dat (Pf := MoreExamples.platform)
         MoreExamples.windows
       = Ok (df, hi2)
    /\ hi1 <> hi2.
Proof.
  destruct (proj1 (parse_sections_independent (Pf := MoreExamples.platform) _
                     (or_intror (or_introl eq_refl))
                     Examples.sample MoreExamples.windows
                     (firstn 7 Examples.sample_lines)
                     (firstn 2 MoreExamples.windows_lines)
                     (Plain.ln "[Data]") (MoreExamples.crlf "[Data]")
                     (skipn 8 Examples.sample_lines)
                     (skipn 3 MoreExamples.windows_lines)
                     eq_refl eq_refl
                     ltac:(simpl firstn; no_marker_in)
                     ltac:(simpl firstn; no_marker_in)
                     eq_refl eq_refl)
                  eq_refl) as [Hsame _].
  destruct (proj1 (Hsame [ (lit "Magnetic Field (Oe)", [Int64 100; Int64 200]);
                           (lit "Moment (emu)", [float_of_Z 5; NaN]) ])
              (ex_intro _ _ eq_refl)) as [hi2 H2].
  eexists. eexists. exists hi2.
  split; [reflexivity | split; [exact H2 |]].
  vm_compute in H2. injection H2 as <-. discriminate.
Defined.

(** ** The marker line *)

Lemma scan_lines_start_after (lines : list str) :
  forall (i : nat) (hi hi' : dict) (b : bool) (d : nat),
    DatLoader.scan_lines i lines hi = (hi', b, Some d) -> i < d.
Proof.
  induction lines as [|l lines IH]; intros i hi hi' b d H; simpl in H;
    [discriminate |].
  destruct (str_eqb (rstrip_chars newline_chars l) (lit "[Data]")).
  - injection H as _ _ <-. lia.
  - apply IH in H. lia.
Qed.

Lemma newline_chars_mem (c : char) :
  mem c newline_chars = true <-> c = LF \/ c = CR.
Proof.
  unfold newline_chars. simpl. rewrite !orb_true_iff, !N.eqb_eq.
  intuition discriminate.
Qed.

Lemma is_marker_line_ends (l : str) :
  is_marker l
  <-> exists t, l = lit "[Data]" ++ t /\ Forall (fun c => c = LF \/ c = CR) t.
Proof.
  unfold is_marker. split.
  - intros E.
    destruct (rstrip_chars_split newline_chars l) as (q & El & Hq & _).
    exists q. split; [rewrite <- E; exact El |].
    apply Forall_forall. intros c Hc. apply newline_chars_mem.
    exact (proj1 (Forall_forall _ _) Hq c Hc).
  - intros (t & -> & Ht). apply rstrip_chars_stop.
    + apply Forall_forall. intros c Hc. apply newline_chars_mem.
      exact (proj1 (Forall_forall _ _) Ht c Hc).
    + intros t' c E.
      assert (Ec : c = 93%N).
      { change (lit "[Data]") with ((lit "[Data") ++ [93%N]) in E.
        apply app_inj_tail in E. symmetry. exact (proj2 E). }
      subst c. reflexivity.
Qed.

(** X4. A line stops the header loop, with the data starting at the next
    index, exactly when it is [[Data]] followed by nothing but line feeds
    and carriage returns: a blank before or after the marker makes it a
    header line like any other. *)
Theorem marker_line_ends :
  forall scan_lines,
    In scan_lines [DatLoader.scan_lines; DatToNumbers.scan_lines] ->
    forall (i : nat) (l : str) (rest : list str) (hi : dict),
      scan_lines i (l :: rest) hi = (hi, true, Some (i + 1))
      <-> exists t,
            l = lit "[Data]" ++ t /\ Forall (fun c => c = LF \/ c = CR) t.
Proof.
  intros scan_lines Hscan i l rest hi.
  assert (Es : scan_lines = DatLoader.scan_lines).
  { destruct Hscan as [E | [E | []]]; symmetry; [exact E |].
    rewrite <- E. exact scan_lines_same. }
  subst scan_lines. rewrite <- is_marker_line_ends. unfold is_marker.
  simpl. destruct (str_eqb (rstrip_chars newline_chars l) (lit "[Data]")) eqn:E.
  - apply str_eqb_eq in E. split; [intros _; exact E | reflexivity].
  - apply str_eqb_neq in E. split; [| contradiction].
    intros H. apply scan_lines_start_after in H. lia.
Qed.

(** The marker with a carriage return is one; the marker with a trailing
    blank is not, and the file that has only that one has no data
    section. *)
Lemma marker_line_ends_witness :
  DatLoader.scan_lines 2 [MoreExamples.crlf "[Data]"] []
  = ([], true, Some 3)
  /\ DatLoader.parse_mpms_dat (Pf := MoreExamples.platform)
       (inr MoreExamples.blank_after_marker)
     = Raise (missing_data_section MoreExamples.blank_after_marker).
Proof.
  split; [| reflexivity].
  apply (proj2 (marker_line_ends _ (or_introl eq_refl) 2
                  (MoreExamples.crlf "[Data]") [] [])).
  exists [CR; LF]. split; [reflexivity |].
  constructor; [right; reflexivity |].
  constructor; [left; reflexivity | constructor].
Defined.

(** ** The Metadata sheet *)

Lemma combine_fst_snd {A B} (l : list (A * B)) :
  combine (List.map fst l) (List.map snd l) = l.
Proof.
  induction l as [|[a b] l IH]; simpl; [reflexivity |].
  rewrite IH. reflexivity.
Qed.

(** X5. For a parsed file with a non-empty mapping, a conversion that
    returns has written, after the sheet [Data], a sheet [Metadata] whose
    rows are the mapping: no [Property] appears twice, the two columns
    have one length, and a row (property, value) is in the sheet exactly
    when the mapping has this value under this key. *)
Theorem metadata_sheet_rows {Pf : Platform} :
  forall (dat_path output_dir p : Path) (df : DataFrame cell) (hi : dict)
         (wb : DatToNumbers.workbook),
    DatToNumbers.parse_mpms_dat dat_path = Ok (df, hi) ->
    hi <> [] ->
    DatToNumbers.convert_dat_to_numbers dat_path output_dir = Ok (p, wb) ->
    exists properties values,
      wb = [ (lit "Data", Excel.NumberSheet df);
             (lit "Metadata",
              Excel.TextSheet
                [ (lit "Property", properties); (lit "Value", values) ]) ]
      /\ NoDup properties
      /\ length properties = length values
      /\ forall k v,
           In (k, v) (combine properties values) <-> dict_get hi k = Some v.
Proof.
  intros dat_path output_dir p df hi wb Hparse Hne Hconv.
  exists (List.map fst hi), (List.map snd hi).
  assert (Hnd : NoDup (List.map fst hi)).
  { destruct (parse_either_ok_inv (Pf := Pf) DatToNumbers.parse_mpms_dat
                dat_path df hi (or_intror (or_introl eq_refl)) Hparse)
      as (pre & m & rows & df0 & _ & _ & _ & _ & _ & ->).
    apply headers_from_NoDup. constructor. }
  split; [| split; [exact Hnd | split]].
  - apply (convert_dat_to_numbers_returns dat_path output_dir df hi Hparse)
      in Hconv.
    destruct Hconv as (_ & _ & ->).
    destruct hi as [|kv hi]; [contradiction | reflexivity].
  - rewrite !length_map. reflexivity.
  - intros k v. rewrite combine_fst_snd. symmetry.
    apply dict_get_In. exact Hnd.
Qed.

Lemma metadata_sheet_rows_witness :
  exists properties values,
    DatToNumbers.convert_dat_to_numbers (Pf := Examples.platform)
      Examples.sample [lit "out"]
    = Ok ([lit "out"; lit "sample.xlsx"],
          [ (lit "Data",
             Excel.NumberSheet
               [ (lit "Magnetic Field (Oe)", [Int64 100; Int64 200]);
                 (lit "Moment (emu)", [float_of_Z 5; NaN]) ]);
            (lit "Metadata",
             Excel.TextSheet
               [ (lit "Property", properties); (lit "Value", values) ]) ])
    /\ NoDup properties
    /\ In (lit "DATATYPE", lit "TIME,2") (combine properties values).
Proof.
  destruct (metadata_sheet_rows (Pf := Examples.platform) Examples.sample
              [lit "out"] [lit "out"; lit "sample.xlsx"]
              [ (lit "Magnetic Field (Oe)", [Int64 100; Int64 200]);
                (lit "Moment (emu)", [float_of_Z 5; NaN]) ]
              [ (lit "TITLE", lit "run 1"); (lit "7.7", lit "SAMPLE_MASS");
                (lit "DATATYPE", lit "TIME,2") ]
              _
              eq_refl ltac:(discriminate) eq_refl)
    as (properties & values & Hwb & Hnd & _ & Hrows).
  exists properties, values.
  split; [vm_compute; injection Hwb as <- <-; reflexivity
         | split; [exact Hnd |]].
  apply Hrows. reflexivity.
Defined.

(** ** [load_dat] and the selector *)

Lemma first_moment_same_columns (df df' : DataFrame cell) (cs : list str) :
  (forall c, In c cs -> lookup df' c = lookup df c) ->
  DatLoader.first_moment df' cs = DatLoader.first_moment df cs.
Proof.
  induction cs as [|c cs IH]; intros H; simpl; [reflexivity |].
  rewrite (has_column_lookup df' c), (has_column_lookup df c).
  unfold getitem. rewrite (H c (or_introl eq_refl)).
  rewrite IH; [reflexivity |].
  intros c' Hc'. apply H. right. exact Hc'.
Qed.

Lemma candidates_not_Moment (c : str) :
  In c DatLoader.candidates -> c <> lit "Moment".
Proof. intros [<- | [<- | [<- | []]]]; discriminate. Qed.

Lemma get_moment_column_candidate (df : DataFrame cell) (c : str) :
  DatLoader.get_moment_column df = Some c -> In c DatLoader.candidates.
Proof.
  intros H. apply first_moment_some in H.
  destruct H as (before & after & E & _). rewrite E.
  apply in_or_app. right. left. reflexivity.
Qed.

Section LoadDat.
Context {Pf : Platform}.

Lemma load_dat_unfold (filepath : str + Path) (df : DataFrame cell)
    (hi : dict) :
  DatLoader.parse_mpms_dat filepath = Ok (df, hi) ->
  DatLoader.load_dat filepath
  = Ok match DatLoader.get_moment_column df with
       | Some c =>
           match lookup df c with
           | Some values => assign df (lit "Moment") values
           | None => df
           end
       | None => df
       end.
Proof.
  intros Hparse. unfold DatLoader.load_dat. rewrite Hparse. simpl bind.
  destruct (DatLoader.get_moment_column df) as [c|] eqn:Hsel;
    [| reflexivity].
  destruct (get_moment_column_found _ _ Hsel) as (Ht & values & Hl).
  rewrite Ht. unfold getitem. rewrite Hl. reflexivity.
Qed.

End LoadDat.

(** X6. [load_dat] raises exactly when [parse_mpms_dat] raises, and the
    same exception: reading the selected column and adding [Moment] never
    fails. *)
Theorem load_dat_raises_as_parse {Pf : Platform} :
  forall filepath : str + Path,
    (forall e,
       DatLoader.load_dat filepath = Raise e
       <-> DatLoader.parse_mpms_dat filepath = Raise e)
    /\ ((exists df', DatLoader.load_dat filepath = Ok df')
        <-> exists df hi, DatLoader.parse_mpms_dat filepath = Ok (df, hi)).
Proof.
  intros filepath.
  destruct (DatLoader.parse_mpms_dat filepath) as [[df hi] | e0] eqn:Hparse.
  - rewrite (load_dat_unfold _ _ _ Hparse). split.
    + intros e. split; discriminate.
    + split; intros _; eexists; [eexists |]; reflexivity.
  - unfold DatLoader.load_dat. rewrite Hparse. simpl. split.
    + intros e. split; intros H; injection H as ->; reflexivity.
    + split; [intros [df' H] | intros (df & hi & H)]; discriminate.
Qed.

(** X7. On the table [load_dat] returns the selector finds what it found
    on the parsed table, a name of the priority list; the columns of
    another name than [Moment] are those of the parsed table, and the
    column [Moment] holds the values of the selected column. *)
Theorem selector_after_load_dat {Pf : Platform} :
  forall (filepath : str + Path) (df df' : DataFrame cell) (hi : dict),
    DatLoader.parse_mpms_dat filepath = Ok (df, hi) ->
    DatLoader.load_dat filepath = Ok df' ->
    DatLoader.get_moment_column df' = DatLoader.get_moment_column df
    /\ (forall c', c' <> lit "Moment" -> lookup df' c' = lookup df c')
    /\ (forall c,
          DatLoader.get_moment_column df = Some c ->
          In c DatLoader.candidates
          /\ (exists values, lookup df' c = Some values)
          /\ lookup df' (lit "Moment") = lookup df' c)
    /\ (DatLoader.get_moment_column df = None -> df' = df).
Proof.
  intros filepath df df' hi Hparse Hload.
  rewrite (load_dat_unfold _ _ _ Hparse) in Hload. injection Hload as <-.
  assert (Hother : forall c', c' <> lit "Moment" ->
            lookup match DatLoader.get_moment_column df with
                   | Some c =>
                       match lookup df c with
                       | Some values => assign df (lit "Moment") values
                       | None => df
                       end
                   | None => df
                   end c' = lookup df c').
  { intros c' Hc'. destruct (DatLoader.get_moment_column df) as [c|];
      [| reflexivity].
    destruct (lookup df c); [| reflexivity].
    apply lookup_setitem_other. exact Hc'. }
  split; [| split; [exact Hother | split]].
  - apply first_moment_same_columns. intros c Hc. apply Hother.
    apply candidates_not_Moment. exact Hc.
  - intros c Hsel.
    pose proof (get_moment_column_candidate _ _ Hsel) as Hcand.
    split; [exact Hcand |].
    rewrite (Hother c (candidates_not_Moment _ Hcand)).
    destruct (get_moment_column_found _ _ Hsel) as (_ & values & Hl).
    split; [exists values; exact Hl |].
    rewrite Hsel, Hl. unfold assign. rewrite lookup_setitem_same.
    reflexivity.
  - intros Hnone. rewrite Hnone. reflexivity.
Qed.

Lemma selector_after_load_dat_witness :
  exists df',
    DatLoader.load_dat (Pf := Examples.platform) (inr Examples.clash) = Ok df'
    /\ DatLoader.get_moment_column df' = Some (lit "Moment (emu)")
    /\ lookup df' (lit "Moment") = lookup df' (lit "Moment (emu)").
Proof.
  eexists. split; [reflexivity |].
  destruct (selector_after_load_dat (Pf := Examples.platform)
              (inr Examples.clash)
              [ (lit "Moment (emu)", [Int64 1]); (lit "Moment", [Int64 2]) ]
              _ [] eq_refl eq_refl) as (Hsel & _ & Hfound & _).
  split; [rewrite Hsel; reflexivity |].
  exact (proj2 (proj2 (Hfound (lit "Moment (emu)") eq_refl))).
Defined.

(** ** What a plotting call draws *)

Lemma finite_pairs_finite (x y : list cell) :
  length (fst (DatLoader.finite_pairs x y))
  = length (snd (DatLoader.finite_pairs x y))
  /\ Forall (fun c => isfinite c = true) (fst (DatLoader.finite_pairs x y))
  /\ Forall (fun c => isfinite c = true) (snd (DatLoader.finite_pairs x y)).
Proof.
  unfold DatLoader.finite_pairs, mask_and. simpl fst. simpl snd.
  revert y; induction x as [|a x IH]; intros [|b y]; simpl;
    try (repeat split; constructor).
  destruct (IH y) as (Hl & Hx & Hy).
  destruct (isfinite a) eqn:Ha, (isfinite b) eqn:Hb; simpl;
    try (repeat split; assumption).
  repeat split; [f_equal; exact Hl | constructor; assumption
                | constructor; assumption].
Qed.

Lemma field_axes_after (ax : Plt.Axes) (l0 : Plt.Line2D)
    (title label : option str) :
  let ax' :=
    (let ax := Plt.plot ax l0 in
     let ax := Plt.set_xlabel ax (lit "Magnetic Field (Oe)") in
     let ax := Plt.set_ylabel ax (lit "Moment (emu)") in
     let ax := if truthy title
               then match title with Some t => Plt.set_title ax t | None => ax end
               else ax in
     let ax := Plt.axhline ax 0 in
     let ax := Plt.axvline ax 0 in
     let ax := Plt.set_grid ax in
     if truthy label then Plt.set_legend ax else ax) in
  Plt.xlabel ax' = Some (lit "Magnetic Field (Oe)")
  /\ Plt.ylabel ax' = Some (lit "Moment (emu)")
  /\ Plt.title ax' = (if truthy title then title else Plt.title ax)
  /\ Plt.axhlines ax' = Plt.axhlines ax ++ [0%Z]
  /\ Plt.axvlines ax' = Plt.axvlines ax ++ [0%Z]
  /\ Plt.grid ax' = true
  /\ Plt.legend ax' = (truthy label || Plt.legend ax).
Proof.
  destruct title as [[|? ?]|], label as [[|? ?]|]; simpl; repeat split.
Qed.

Lemma temperature_axes_after (ax : Plt.Axes) (l0 : Plt.Line2D)
    (title : option str) :
  let ax' :=
    (let ax := Plt.plot ax l0 in
     let ax := Plt.set_xlabel ax (lit "Temperature (K)") in
     let ax := Plt.set_ylabel ax (lit "Moment (emu)") in
     let ax := if truthy title
               then match title with Some t => Plt.set_title ax t | None => ax end
               else ax in
     Plt.set_grid ax) in
  Plt.xlabel ax' = Some (lit "Temperature (K)")
  /\ Plt.ylabel ax' = Some (lit "Moment (emu)")
  /\ Plt.title ax' = (if truthy title then title else Plt.title ax)
  /\ Plt.axhlines ax' = Plt.axhlines ax
  /\ Plt.axvlines ax' = Plt.axvlines ax
  /\ Plt.grid ax' = true
  /\ Plt.legend ax' = Plt.legend ax.
Proof.
  destruct title as [[|? ?]|]; simpl; repeat split.
Qed.

Section PlotReturns.
Context {Pf : Platform}.
Variables (df : DataFrame cell) (moment_col title : option str)
          (ax : option Plt.Axes).

Let ax0 : Plt.Axes := match ax with None => Plt.subplots | Some a => a end.

Lemma plot_moment_vs_field_returns (field_col : str) (label : option str)
    (ax' : Plt.Axes) :
  DatLoader.plot_moment_vs_field df moment_col field_col title ax label
  = Ok ax' ->
  exists l0,
    Plt.plotted ax' = Plt.plotted ax0 ++ [l0]
    /\ finite_line l0
    /\ Plt.line_label l0
       = Some (if truthy label
               then match label with
                    | Some l => l
                    | None => DatLoader.field_moment_col df moment_col
                    end
               else DatLoader.field_moment_col df moment_col)
    /\ Plt.xlabel ax' = Some (lit "Magnetic Field (Oe)")
    /\ Plt.ylabel ax' = Some (lit "Moment (emu)")
    /\ Plt.axhlines ax' = Plt.axhlines ax0 ++ [0%Z]
    /\ Plt.axvlines ax' = Plt.axvlines ax0 ++ [0%Z]
    /\ Plt.grid ax' = true.
Proof.
  intros H. unfold finite_line.
  unfold DatLoader.plot_moment_vs_field in H. cbv zeta in H.
  destruct (negb (has_column df field_col)); [discriminate |].
  destruct (getitem df field_col) as [x | e]; [| discriminate].
  cbn [bind] in H.
  destruct (getitem df (DatLoader.field_moment_col df moment_col))
    as [y | e]; [| discriminate].
  cbn [bind] in H.
  destruct (finite_pairs_finite x y) as (Hl & Hx & Hy).
  destruct (DatLoader.finite_pairs x y) as [x' y'].
  simpl in Hl, Hx, Hy.
  destruct x' as [|a x']; [discriminate |].
  cbn [length Nat.eqb] in H. injection H as <-.
  fold ax0.
  eexists. split; [apply plotted_after_field |].
  split; [split; [discriminate | split; [exact Hl | split; assumption]] |].
  split; [reflexivity |].
  match goal with |- context [Plt.plot ax0 ?l] =>
    destruct (field_axes_after ax0 l title label)
      as (H1 & H2 & _ & H4 & H5 & H6 & _)
  end.
  repeat split; assumption.
Qed.

Lemma plot_moment_vs_temperature_returns (temp_col : str) (ax' : Plt.Axes) :
  DatLoader.plot_moment_vs_temperature df moment_col temp_col title ax
  = Ok ax' ->
  exists l0,
    Plt.plotted ax' = Plt.plotted ax0 ++ [l0]
    /\ finite_line l0
    /\ Plt.line_label l0 = None
    /\ Plt.xlabel ax' = Some (lit "Temperature (K)")
    /\ Plt.ylabel ax' = Some (lit "Moment (emu)")
    /\ Plt.axhlines ax' = Plt.axhlines ax0
    /\ Plt.axvlines ax' = Plt.axvlines ax0
    /\ Plt.grid ax' = true.
Proof.
  intros H. unfold finite_line.
  unfold DatLoader.plot_moment_vs_temperature in H. cbv zeta in H.
  destruct (negb (has_column df temp_col)); [discriminate |].
  destruct (getitem df temp_col) as [x | e]; [| discriminate].
  cbn [bind] in H.
  destruct (getitem df (DatLoader.temperature_moment_col df moment_col))
    as [y | e]; [| discriminate].
  cbn [bind] in H.
  destruct (finite_pairs_finite x y) as (Hl & Hx & Hy).
  destruct (DatLoader.finite_pairs x y) as [x' y'].
  simpl in Hl, Hx, Hy.
  destruct x' as [|a x']; [discriminate |].
  cbn [length Nat.eqb] in H. injection H as <-.
  fold ax0.
  eexists. split; [apply plotted_after_temperature |].
  split; [split; [discriminate | split; [exact Hl | split; assumption]] |].
  split; [reflexivity |].
  match goal with |- context [Plt.plot ax0 ?l] =>
    destruct (temperature_axes_after ax0 l title)
      as (H1 & H2 & _ & H4 & H5 & H6 & _)
  end.
  repeat split; assumption.
Qed.

End PlotReturns.

(** X8. A plotting call that returns has added one line to the Axes it was
    given (or to new ones), after the lines already there: its two data
    sequences are not empty, have one length and hold finite values only;
    the axis labels and the grid are set, [plot_moment_vs_field] adds a
    reference line at 0 in each direction and names the line after
    [label], or after the moment column when [label] is empty or absent. *)
Theorem plot_draws_finite_line {Pf : Platform} :
  forall (df : DataFrame cell) (moment_col title : option str)
         (ax : option Plt.Axes),
    let ax0 := match ax with None => Plt.subplots | Some a => a end in
    (forall (field_col : str) (label : option str) (ax' : Plt.Axes),
       DatLoader.plot_moment_vs_field df moment_col field_col title ax label
       = Ok ax' ->
       exists l0,
         Plt.plotted ax' = Plt.plotted ax0 ++ [l0]
         /\ finite_line l0
         /\ Plt.line_label l0
            = Some (if truthy label
                    then match label with
                         | Some l => l
                         | None => DatLoader.field_moment_col df moment_col
                         end
                    else DatLoader.field_moment_col df moment_col)
         /\ Plt.xlabel ax' = Some (lit "Magnetic Field (Oe)")
         /\ Plt.ylabel ax' = Some (lit "Moment (emu)")
         /\ Plt.axhlines ax' = Plt.axhlines ax0 ++ [0%Z]
         /\ Plt.axvlines ax' = Plt.axvlines ax0 ++ [0%Z]
         /\ Plt.grid ax' = true)
    /\ (forall (temp_col : str) (ax' : Plt.Axes),
          DatLoader.plot_moment_vs_temperature df moment_col temp_col title ax
          = Ok ax' ->
          exists l0,
            Plt.plotted ax' = Plt.plotted ax0 ++ [l0]
            /\ finite_line l0
            /\ Plt.line_label l0 = None
            /\ Plt.xlabel ax' = Some (lit "Temperature (K)")
            /\ Plt.ylabel ax' = Some (lit "Moment (emu)")
            /\ Plt.axhlines ax' = Plt.axhlines ax0
            /\ Plt.axvlines ax' = Plt.axvlines ax0
            /\ Plt.grid ax' = true).
Proof.
  intros df moment_col title ax ax0. split.
  - intros field_col label ax'. apply plot_moment_vs_field_returns.
  - intros temp_col ax'. apply plot_moment_vs_temperature_returns.
Qed.

(** X9. A call without a moment column reads the column the selector
    finds, and the column [Moment] when the selector finds none; with the
    axis column present, no selected column and no column [Moment], the
    call raises [KeyError] for [Moment]. *)
Theorem plot_default_moment_column {Pf : Platform} :
  forall (df : DataFrame cell) (title : option str) (ax : option Plt.Axes),
    (forall c field_col label,
       DatLoader.get_moment_column df = Some c ->
       DatLoader.plot_moment_vs_field df None field_col title ax label
       = DatLoader.plot_moment_vs_field df (Some c) field_col title ax label)
    /\ (forall c temp_col,
          DatLoader.get_moment_column df = Some c ->
          DatLoader.plot_moment_vs_temperature df None temp_col title ax
          = DatLoader.plot_moment_vs_temperature df (Some c) temp_col title
              ax)
    /\ (forall field_col label,
          DatLoader.get_moment_column df = None ->
          DatLoader.plot_moment_vs_field df None field_col title ax label
          = DatLoader.plot_moment_vs_field df (Some (lit "Moment")) field_col
              title ax label)
    /\ (forall temp_col,
          DatLoader.get_moment_column df = None ->
          DatLoader.plot_moment_vs_temperature df None temp_col title ax
          = DatLoader.plot_moment_vs_temperature df (Some (lit "Moment"))
              temp_col title ax)
    /\ (forall field_col label,
          DatLoader.get_moment_column df = None ->
          has_column df (lit "Moment") = false ->
          has_column df field_col = true ->
          DatLoader.plot_moment_vs_field df None field_col title ax label
          = Raise (KeyError (lit "Moment")))
    /\ (forall temp_col,
          DatLoader.get_moment_column df = None ->
          has_column df (lit "Moment") = false ->
          has_column df temp_col = true ->
          DatLoader.plot_moment_vs_temperature df None temp_col title ax
          = Raise (KeyError (lit "Moment"))).
Proof.
  intros df title ax.
  assert (Hf : forall c, DatLoader.get_moment_column df = Some c ->
                 DatLoader.field_moment_col df None
                 = DatLoader.field_moment_col df (Some c)).
  { intros c Hsel. unfold DatLoader.field_moment_col. rewrite Hsel.
    reflexivity. }
  assert (Hfn : DatLoader.get_moment_column df = None ->
                DatLoader.field_moment_col df None
                = DatLoader.field_moment_col df (Some (lit "Moment"))).
  { intros Hsel. unfold DatLoader.field_moment_col. rewrite Hsel.
    reflexivity. }
  assert (Ht : forall c, DatLoader.get_moment_column df = Some c ->
                 DatLoader.temperature_moment_col df None = c).
  { intros c Hsel. unfold DatLoader.temperature_moment_col. rewrite Hsel.
    cbv zeta.
    rewrite (proj1 (get_moment_column_found _ _ Hsel)). reflexivity. }
  assert (Htn : DatLoader.get_moment_column df = None ->
                DatLoader.temperature_moment_col df None = lit "Moment").
  { intros Hsel. unfold DatLoader.temperature_moment_col. rewrite Hsel.
    reflexivity. }
  split; [| split; [| split; [| split; [| split]]]].
  - intros c field_col label Hsel. unfold DatLoader.plot_moment_vs_field.
    rewrite (Hf c Hsel). reflexivity.
  - intros c temp_col Hsel. unfold DatLoader.plot_moment_vs_temperature.
    rewrite (Ht c Hsel). reflexivity.
  - intros field_col label Hsel. unfold DatLoader.plot_moment_vs_field.
    rewrite (Hfn Hsel). reflexivity.
  - intros temp_col Hsel. unfold DatLoader.plot_moment_vs_temperature.
    rewrite (Htn Hsel). reflexivity.
  - intros field_col label Hsel Hm Hfc.
    unfold DatLoader.plot_moment_vs_field.
    rewrite (Hfn Hsel), (field_moment_col_kept _ _ Hm Hm), Hfc. cbv zeta.
    simpl negb. cbv iota.
    apply has_column_true in Hfc. destruct Hfc as [x Hx].
    unfold getitem at 1. rewrite Hx. cbn [bind].
    rewrite (getitem_absent _ _ Hm).
    reflexivity.
  - intros temp_col Hsel Hm Htc.
    unfold DatLoader.plot_moment_vs_temperature.
    rewrite (Htn Hsel), Htc. cbv zeta. simpl negb. cbv iota.
    apply has_column_true in Htc. destruct Htc as [x Hx].
    unfold getitem at 1. rewrite Hx. cbn [bind].
    rewrite (getitem_absent _ _ Hm).
    reflexivity.
Qed.

(** ** The overlay loop, file by file *)

Section Overlay.
Context {Pf : Platform}.




End Overlay.


(** Two files: the one without a marker is skipped with a message, the
    sample is drawn under the name of the file. *)
Example overlay_skips_and_draws :
  exists ax' l0,
    DatLoader.overlay_all (Pf := Examples.platform) (Plt.subplots, [])
      [Examples.no_marker; Examples.sample]
    = Ok (ax',
          [lit "Skip no_marker.dat: No [Data] section found in no_marker.dat"])
    /\ Plt.plotted ax' = [l0]
    /\ Plt.xdata l0 = [Int64 100]
    /\ Plt.ydata l0 = [float_of_Z 5]
    /\ Plt.line_label l0 = Some (lit "sample").
Proof.
  eexists. eexists. split; [vm_compute; reflexivity |]. repeat split.
Qed.

(** ** The counters of the conversion loop *)




(** ** Which files are skipped, and where a file is written *)

Lemma contains_spec (s sub : str) :
  contains s sub = true <-> exists a b, s = a ++ sub ++ b.
Proof.
  induction s as [|c s IH].
  - simpl. rewrite orb_false_r, startswith_Prefix. unfold Prefix. split.
    + intros [t E]. exists [], t. exact E.
    + intros ([|? ?] & b & E); [exists b; exact E | discriminate].
  - cbn [contains]. rewrite orb_true_iff, startswith_Prefix, IH.
    unfold Prefix. split.
    + intros [[t E] | (a & b & E)].
      * exists [], t. exact E.
      * exists (c :: a), b. simpl. f_equal. exact E.
    + intros ([|c' a] & b & E).
      * left. exists b. exact E.
      * right. injection E as _ E. exists a, b. exact E.
Qed.

(** X12. With [--skip-rw] a file is skipped exactly when [.rw.dat] occurs
    somewhere in its name, not only at its end; a skipped file is counted
    and reported without being read, so its content and the state of the
    file system do not matter. *)
Theorem skipped_files :
  forall (skip_rw : bool) (output_dir : Path) (t : DatToNumbers.tally)
         (f : Path),
    (DatToNumbers.skips skip_rw f = true
     <-> skip_rw = true /\ exists a b, name f = a ++ lit ".rw.dat" ++ b)
    /\ (DatToNumbers.skips skip_rw f = true ->
        forall Pf : Platform,
          DatToNumbers.convert_one skip_rw output_dir t f
          = Ok {| DatToNumbers.converted := DatToNumbers.converted t;
                  DatToNumbers.skipped := DatToNumbers.skipped t + 1;
                  DatToNumbers.errors := DatToNumbers.errors t;
                  DatToNumbers.stdout :=
                    DatToNumbers.stdout t
                    ++ [lit "  Skipping (raw waveform): " ++ name f];
                  DatToNumbers.written := DatToNumbers.written t |}).
Proof.
  intros skip_rw output_dir t f. split.
  - unfold DatToNumbers.skips. rewrite andb_true_iff, contains_spec.
    reflexivity.
  - intros Hs Pf. unfold DatToNumbers.convert_one. rewrite Hs. reflexivity.
Qed.

(** A name with [.rw.dat] in its middle is skipped too. *)
Example skip_in_the_middle :
  DatToNumbers.skips true [lit "run.rw.dat.bak.dat"] = true
  /\ DatToNumbers.skips false [lit "run.rw.dat"] = false
  /\ DatToNumbers.skips true [lit "run.RW.dat"] = false.
Proof. repeat split. Qed.

Lemma name_joinpath (dir : Path) (nm : str) : name (joinpath dir nm) = nm.
Proof. unfold name, joinpath. apply last_last. Qed.

Lemma removelast_joinpath (dir : Path) (nm : str) :
  removelast (joinpath dir nm) = dir.
Proof. unfold joinpath. apply removelast_last. Qed.

(** X13. A conversion that returns has written to the output directory, in
    a file named after the stem of the input with [.xlsx]; the directory
    of the input plays no part, so two inputs with one stem are written to
    one path. *)
Theorem output_path_of_stem {Pf : Platform} :
  forall (a b output_dir pa pb : Path) (wa wb : DatToNumbers.workbook),
    DatToNumbers.convert_dat_to_numbers a output_dir = Ok (pa, wa) ->
    DatToNumbers.convert_dat_to_numbers b output_dir = Ok (pb, wb) ->
    name pa = stem a ++ lit ".xlsx"
    /\ removelast pa = output_dir
    /\ (stem a = stem b -> pa = pb).
Proof.
  intros a b output_dir pa pb wa wb Ha Hb.
  destruct (DatToNumbers.parse_mpms_dat a) as [[dfa hia] | e] eqn:Pa;
    [| unfold DatToNumbers.convert_dat_to_numbers in Ha; rewrite Pa in Ha;
       discriminate].
  destruct (DatToNumbers.parse_mpms_dat b) as [[dfb hib] | e] eqn:Pb;
    [| unfold DatToNumbers.convert_dat_to_numbers in Hb; rewrite Pb in Hb;
       discriminate].
  apply (convert_dat_to_numbers_returns a output_dir dfa hia Pa) in Ha.
  apply (convert_dat_to_numbers_returns b output_dir dfb hib Pb) in Hb.
  destruct Ha as (_ & -> & _). destruct Hb as (_ & -> & _).
  split; [apply name_joinpath | split; [apply removelast_joinpath |]].
  intros ->. reflexivity.
Qed.

(** Two files named [sample.dat] in two directories: both conversions
    return the path [out/sample.xlsx], with different workbooks. *)
Lemma output_path_of_stem_witness :
  exists pa wa pb wb,
    DatToNumbers.convert_dat_to_numbers (Pf := MoreExamples.platform)
      Examples.sample [lit "out"] = Ok (pa, wa)
    /\ DatToNumbers.convert_dat_to_numbers (Pf := MoreExamples.platform)
         MoreExamples.other_dir_sample [lit "out"] = Ok (pb, wb)
    /\ pa = pb
    /\ name pa = lit "sample.xlsx"
    /\ length wa = 2 /\ length wb = 1.
Proof.
  eexists. eexists. eexists. eexists.
  split; [reflexivity | split; [reflexivity |]].
  destruct (output_path_of_stem (Pf := MoreExamples.platform)
              Examples.sample MoreExamples.other_dir_sample [lit "out"]
              _ _ _ _ eq_refl eq_refl) as (Hname & _ & Hsame).
  split; [exact (Hsame eq_refl) | split; [exact Hname |]].
  split; reflexivity.
Defined.

(** In one run the second of them replaces the first: both are counted as
    converted, and the list of written files names one path twice. *)
Example batch_same_stem :
  exists t',
    DatToNumbers.convert_all (Pf := MoreExamples.platform) false [lit "out"]
      DatToNumbers.start [Examples.sample; MoreExamples.other_dir_sample]
    = Ok t'
    /\ DatToNumbers.converted t' = 2
    /\ List.map fst (DatToNumbers.written t')
       = [[lit "out"; lit "sample.xlsx"]; [lit "out"; lit "sample.xlsx"]].
Proof.
  eexists. split; [vm_compute; reflexivity |]. split; reflexivity.
Qed.

(** ** [main] of the exporter *)


(** The directory [raw data] with [--skip-rw]: one file converted, the raw
    waveform file skipped. *)
Example exporter_main_raw_data :
  exists r,
    ExporterMain.main (Pf := MoreExamples.platform) (Hs := MoreExamples.host)
      {| ExporterMain.input_path := MoreExamples.raw_data;
         ExporterMain.output_dir := [lit "out"];
         ExporterMain.skip_rw := true |}
    = Ok r
    /\ ExporterMain.printed r
       = [ lit "Found 2 .dat files";
           lit "  Converted: sample.dat -> sample.xlsx";
           lit "  Skipping (raw waveform): sample.rw.dat";
           LF :: lit "Done! Converted: 1, Skipped: 1, Errors: 0";
           lit "Output directory: /home/out" ]
    /\ List.map fst (ExporterMain.xlsx r) = [[lit "out"; lit "sample.xlsx"]].
Proof.
  eexists. split; [vm_compute; reflexivity |]. split; reflexivity.
Qed.

(** ** The two [find_dat_files] *)

(** X15. The two [find_dat_files] agree on a file with the suffix [.dat]
    in any case of letters, which they return alone, and on a directory,
    whose sorted listing they return; on any other path the exporter's
    returns the empty list without looking below the path, and the
    loader's returns the sorted listing of what lies below it. *)
Theorem find_dat_files_agree {Pf : Platform} {Hs : Host} :
  forall p : Path,
    let dat_file :=
      is_file p && str_eqb (lower (suffix p)) (lit ".dat") in
    (dat_file = true ->
     LoaderMain.find_dat_files (inr p) = [p]
     /\ ExporterMain.find_dat_files p = [p])
    /\ (dat_file = false -> is_dir p = true ->
        LoaderMain.find_dat_files (inr p) = sorted (rglob_dat p)
        /\ ExporterMain.find_dat_files p = sorted (rglob_dat p))
    /\ (dat_file = false -> is_dir p = false ->
        LoaderMain.find_dat_files (inr p) = sorted (rglob_dat p)
        /\ ExporterMain.find_dat_files p = [])
    /\ (forall s : str,
          LoaderMain.find_dat_files (inl s)
          = LoaderMain.find_dat_files (inr (to_path s))).
Proof.
  intros p dat_file.
  unfold LoaderMain.find_dat_files, ExporterMain.find_dat_files, as_path.
  fold dat_file.
  split; [| split; [| split]].
  - intros ->. split; reflexivity.
  - intros -> ->. split; reflexivity.
  - intros -> ->. split; reflexivity.
  - intros s. reflexivity.
Qed.

(** ** [main] of the loader *)

Lemma bind_io_ret (m : LoaderMain.io unit) :
  LoaderMain.bind_io m (fun _ => LoaderMain.ret tt) = m.
Proof.
  destruct m as [tr r]. destruct r as [u | e]; simpl; [| reflexivity].
  destruct u. rewrite app_nil_r. reflexivity.
Qed.

Section LoaderMainFacts.
Context {Pf : Platform} {Hs : Host}.

Lemma for_each_one (body : Path -> LoaderMain.io unit) (f : Path) :
  LoaderMain.for_each body [f] = body f.
Proof. simpl. apply bind_io_ret. Qed.





End LoaderMainFacts.



(** The directory [raw data] under [--list]: both files parse. *)
Example list_mode_raw_data :
  LoaderMain.main (Pf := MoreExamples.platform) (Hs := MoreExamples.host)
    {| LoaderMain.arg_path := inr MoreExamples.raw_data;
       LoaderMain.arg_list := true; LoaderMain.arg_temp := false;
       LoaderMain.arg_all := false; LoaderMain.arg_save := None |}
  = (List.map LoaderMain.Print
       [ LF :: lit "sample.dat";
         lit "  Rows: 2, Moment column: Moment (emu)";
         lit "  Field range: ? .. ? Oe";
         LF :: lit "sample.rw.dat";
         lit "  Rows: 2, Moment column: Moment (emu)";
         lit "  Field range: ? .. ? Oe" ],
     Ok tt).
Proof. vm_compute. reflexivity. Qed.

Section PlotOne.
Context {Pf : Platform} {Hs : Host}.
Variables (a : LoaderMain.args) (plots_dir : Path) (f : Path).

(** The plotting call of the last loop, on a table and its column. *)
Let plot_call (df : DataFrame cell) (c : str) : result Plt.Axes :=
  if LoaderMain.arg_temp a
  then DatLoader.plot_moment_vs_temperature df (Some c)
         DatLoader.default_temp_col (Some (stem f)) None
  else DatLoader.plot_moment_vs_field df (Some c)
         DatLoader.default_field_col (Some (stem f)) None None.

Lemma plot_one_load_raises (e : exn) :
  DatLoader.load_dat (inr f) = Raise e ->
  LoaderMain.plot_one a plots_dir f = ([], Raise e).
Proof.
  intros H. unfold LoaderMain.plot_one. rewrite H. reflexivity.
Qed.

Lemma plot_one_no_moment (df : DataFrame cell) :
  DatLoader.load_dat (inr f) = Ok df ->
  DatLoader.get_moment_column df = None ->
  LoaderMain.plot_one a plots_dir f
  = ([LoaderMain.Print (lit "No moment column found in " ++ name f
                        ++ lit ". Columns: " ++ repr_list (columns df))],
     Ok tt).
Proof.
  intros H Hsel. unfold LoaderMain.plot_one. rewrite H.
  unfold LoaderMain.lift. cbn [LoaderMain.bind_io]. rewrite Hsel.
  reflexivity.
Qed.

(** Saving instead of showing: the directory is made, the figure saved,
    one line printed; the first of the two library calls that raises ends
    the run. *)
Lemma save_events (out : Path) (fig : Plt.Axes) :
  LoaderMain.bind_io (LoaderMain.mkdir_io (parent out))
    (fun _ =>
       LoaderMain.bind_io (LoaderMain.savefig_io out 150 fig)
         (fun _ => LoaderMain.emit
                     (LoaderMain.Print (lit "Saved " ++ path_str out))))
  = match mkdir (parent out) with
    | Raise e => ([], Raise e)
    | Ok _ =>
        match savefig out 150 fig with
        | Raise e => ([LoaderMain.Mkdir (parent out)], Raise e)
        | Ok _ =>
            ([ LoaderMain.Mkdir (parent out);
               LoaderMain.SaveFig out 150 fig;
               LoaderMain.Print (lit "Saved " ++ path_str out) ],
             Ok tt)
        end
    end.
Proof.
  unfold LoaderMain.mkdir_io, LoaderMain.savefig_io, LoaderMain.emit.
  destruct (mkdir (parent out)) as [u | e]; [| reflexivity].
  cbn [LoaderMain.bind_io].
  destruct (savefig out 150 fig) as [u' | e]; reflexivity.
Qed.

Lemma plot_one_plots (df : DataFrame cell) (c : str) :
  DatLoader.load_dat (inr f) = Ok df ->
  DatLoader.get_moment_column df = Some c ->
  LoaderMain.plot_one a plots_dir f
  = match plot_call df c with
    | Raise e => ([], Raise e)
    | Ok fig =>
        match LoaderMain.arg_save a with
        | None => ([LoaderMain.TightLayout; LoaderMain.Show fig], Ok tt)
        | Some s =>
            let out := if truthy (Some s) then to_path s
                       else joinpath plots_dir (stem f ++ lit ".png") in
            match mkdir (parent out) with
            | Raise e => ([LoaderMain.TightLayout], Raise e)
            | Ok _ =>
                match savefig out 150 fig with
                | Raise e =>
                    ([LoaderMain.TightLayout; LoaderMain.Mkdir (parent out)],
                     Raise e)
                | Ok _ =>
                    ([ LoaderMain.TightLayout; LoaderMain.Mkdir (parent out);
                       LoaderMain.SaveFig out 150 fig;
                       LoaderMain.Print (lit "Saved " ++ path_str out) ],
                     Ok tt)
                end
            end
        end
    end.
Proof.
  intros H Hsel. unfold LoaderMain.plot_one, plot_call. rewrite H.
  unfold LoaderMain.lift. cbn [LoaderMain.bind_io]. rewrite Hsel.
  rewrite (proj1 (get_moment_column_found _ _ Hsel)). cbn [negb].
  destruct (if LoaderMain.arg_temp a
            then DatLoader.plot_moment_vs_temperature df (Some c)
                   DatLoader.default_temp_col (Some (stem f)) None
            else DatLoader.plot_moment_vs_field df (Some c)
                   DatLoader.default_field_col (Some (stem f)) None None)
    as [fig | e]; [| reflexivity].
  destruct (LoaderMain.arg_save a) as [s|]; [| reflexivity].
  cbv zeta. unfold LoaderMain.emit at 1. cbn [LoaderMain.bind_io].
  rewrite save_events.
  destruct (mkdir (parent (if truthy (Some s) then to_path s
                           else joinpath plots_dir (stem f ++ lit ".png"))))
    as [u | e]; [| reflexivity].
  destruct (savefig (if truthy (Some s) then to_path s
                     else joinpath plots_dir (stem f ++ lit ".png")) 150 fig)
    as [u' | e]; reflexivity.
Qed.

End PlotOne.

(** X17. Outside [--list] and the overlay of several files, [main] handles
    the first file found and no other, also under [--all].  An exception
    of [load_dat], of the plotting call, of making the directory or of
    saving the figure ends [main]: nothing catches it.  A file without a
    moment column prints one line and draws nothing; otherwise the figure
    of the one plotting call is shown, or saved, under the path given or
    under [plots/<stem>.png], after the directory of that path is made;
    the line [Saved ...] is printed only when the saving has returned. *)
Theorem main_handles_first_file {Pf : Platform} {Hs : Host} :
  forall (a : LoaderMain.args) (f : Path) (rest : list Path),
    LoaderMain.find_dat_files (inr (as_path (LoaderMain.arg_path a)))
    = f :: rest ->
    LoaderMain.arg_list a = false ->
    LoaderMain.arg_all a && (1 <? length (f :: rest)) = false ->
    let plot_call df c :=
      if LoaderMain.arg_temp a
      then DatLoader.plot_moment_vs_temperature df (Some c)
             DatLoader.default_temp_col (Some (stem f)) None
      else DatLoader.plot_moment_vs_field df (Some c)
             DatLoader.default_field_col (Some (stem f)) None None in
    LoaderMain.main a = LoaderMain.plot_one a [lit "plots"] f
    /\ (forall e,
          DatLoader.load_dat (inr f) = Raise e ->
          LoaderMain.main a = ([], Raise e))
    /\ (forall df,
          DatLoader.load_dat (inr f) = Ok df ->
          DatLoader.get_moment_column df = None ->
          LoaderMain.main a
          = ([LoaderMain.Print
                (lit "No moment column found in " ++ name f
                 ++ lit ". Columns: " ++ repr_list (columns df))],
             Ok tt))
    /\ (forall df c,
          DatLoader.load_dat (inr f) = Ok df ->
          DatLoader.get_moment_column df = Some c ->
          (forall e, plot_call df c = Raise e ->
                     LoaderMain.main a = ([], Raise e))
          /\ (forall fig,
                plot_call df c = Ok fig ->
                (LoaderMain.arg_save a = None ->
                 LoaderMain.main a
                 = ([LoaderMain.TightLayout; LoaderMain.Show fig], Ok tt))
                /\ (forall s,
                      LoaderMain.arg_save a = Some s ->
                      let out :=
                        if truthy (Some s) then to_path s
                        else [lit "plots"; stem f ++ lit ".png"] in
                      (forall e,
                         mkdir (parent out) = Raise e ->
                         LoaderMain.main a
                         = ([LoaderMain.TightLayout], Raise e))
                      /\ (forall e,
                            mkdir (parent out) = Ok tt ->
                            savefig out 150 fig = Raise e ->
                            LoaderMain.main a
                            = ([ LoaderMain.TightLayout;
                                 LoaderMain.Mkdir (parent out) ],
                               Raise e))
                      /\ (mkdir (parent out) = Ok tt ->
                          savefig out 150 fig = Ok tt ->
                          LoaderMain.main a
                          = ([ LoaderMain.TightLayout;
                               LoaderMain.Mkdir (parent out);
                               LoaderMain.SaveFig out 150 fig;
                               LoaderMain.Print
                                 (lit "Saved " ++ path_str out) ],
                             Ok tt))))).
Proof.
  intros a f rest Hfind Hlist Hone plot_call.
  assert (Emain : LoaderMain.main a = LoaderMain.plot_one a [lit "plots"] f).
  { unfold LoaderMain.main. cbv zeta. rewrite Hfind, Hlist, Hone.
    destruct (LoaderMain.arg_all a) eqn:Hall; cbn [negb].
    - destruct rest as [|g rest]; [| discriminate Hone].
      apply for_each_one.
    - cbn [firstn]. apply for_each_one. }
  rewrite Emain. split; [reflexivity |].
  split; [intros e; apply plot_one_load_raises |].
  split; [intros df; apply plot_one_no_moment |].
  intros df c Hload Hsel.
  rewrite (plot_one_plots a [lit "plots"] f df c Hload Hsel).
  fold (plot_call df c). split.
  - intros e ->. reflexivity.
  - intros fig ->. split.
    + intros ->. reflexivity.
    + intros s ->. cbv zeta.
      change (joinpath [lit "plots"] (stem f ++ lit ".png"))
        with [lit "plots"; stem f ++ lit ".png"].
      split; [intros e ->; reflexivity |].
      split; [intros e -> ->; reflexivity | intros -> ->; reflexivity].
Qed.

(** The sample file under [--save fig.xyz]: the figure is drawn and the
    directory made, and the saving raises for the format of the name;
    nothing is saved and no line [Saved ...] is printed. *)
Lemma main_handles_first_file_witness :
  LoaderMain.main (Pf := MoreExamples.platform) (Hs := MoreExamples.host)
    {| LoaderMain.arg_path := inr MoreExamples.raw_data;
       LoaderMain.arg_list := false; LoaderMain.arg_temp := false;
       LoaderMain.arg_all := false;
       LoaderMain.arg_save := Some (lit "fig.xyz") |}
  = ([LoaderMain.TightLayout; LoaderMain.Mkdir []],
     Raise (PlainHost.unsupported_format (lit "xyz"))).
Proof.
  destruct (main_handles_first_file
              (Pf := MoreExamples.platform) (Hs := MoreExamples.host)
              {| LoaderMain.arg_path := inr MoreExamples.raw_data;
                 LoaderMain.arg_list := false; LoaderMain.arg_temp := false;
                 LoaderMain.arg_all := false;
                 LoaderMain.arg_save := Some (lit "fig.xyz") |}
              Examples.sample [MoreExamples.raw_waveform]
              eq_refl eq_refl eq_refl) as (_ & _ & _ & Hplot).
  destruct (Hplot _ (lit "Moment (emu)") eq_refl eq_refl) as (_ & Hok).
  destruct (Hok _ eq_refl) as (_ & Hsave).
  destruct (Hsave (lit "fig.xyz") eq_refl) as (_ & Hraise & _).
  exact (Hraise _ eq_refl eq_refl).
Defined.

(** Without [--save] the first of the two files of [raw data] is plotted
    against the field and shown, the second is not touched; with a bare
    [--save] the figure goes to [plots/sample.png]. *)
Example main_shows_or_saves :
  (exists fig l0,
     LoaderMain.main (Pf := MoreExamples.platform) (Hs := MoreExamples.host)
       {| LoaderMain.arg_path := inr MoreExamples.raw_data;
          LoaderMain.arg_list := false; LoaderMain.arg_temp := false;
          LoaderMain.arg_all := false; LoaderMain.arg_save := None |}
     = ([LoaderMain.TightLayout; LoaderMain.Show fig], Ok tt)
     /\ Plt.plotted fig = [l0]
     /\ Plt.title fig = Some (lit "sample")
     /\ Plt.xdata l0 = [Int64 100])
  /\ (exists fig,
        LoaderMain.main (Pf := MoreExamples.platform)
          (Hs := MoreExamples.host)
          {| LoaderMain.arg_path := inr MoreExamples.raw_data;
             LoaderMain.arg_list := false; LoaderMain.arg_temp := false;
             LoaderMain.arg_all := false; LoaderMain.arg_save := Some [] |}
        = ([ LoaderMain.TightLayout; LoaderMain.Mkdir [lit "plots"];
             LoaderMain.SaveFig [lit "plots"; lit "sample.png"] 150 fig;
             LoaderMain.Print (lit "Saved plots/sample.png") ],
           Ok tt)).
Proof.
  split.
  - eexists. eexists. split; [vm_compute; reflexivity |]. repeat split.
  - eexists. vm_compute. reflexivity.
Qed.



(** The same run under [--save fig.xyz]: the line of the skipped file is
    printed and the directory made, and the saving raises. *)
Example overlay_save_raises :
  LoaderMain.main (Pf := MoreExamples.platform) (Hs := MoreExamples.host)
    {| LoaderMain.arg_path := inr MoreExamples.here;
       LoaderMain.arg_list := false; LoaderMain.arg_temp := false;
       LoaderMain.arg_all := true;
       LoaderMain.arg_save := Some (lit "fig.xyz") |}
  = ([ LoaderMain.Print
         (lit "Skip no_marker.dat: No [Data] section found in no_marker.dat");
       LoaderMain.TightLayout; LoaderMain.Mkdir [] ],
     Raise (PlainHost.unsupported_format (lit "xyz"))).
Proof. vm_compute. reflexivity. Qed.
